(** * Cluster stack synthesis (pcluster/templates/cluster_stack.py)

    A shallow embedding of [ClusterCdkStack] and [ComputeFleetConstruct]:
    the CDK construct tree is a list of resource declarations in creation
    order, the stack object [self] is a record threaded through a state and
    exception monad, and Python values keep their dynamic typing where the
    source renders them with [str] or tests them for truthiness. *)

From Stdlib Require Import List String Ascii Bool Arith ZArith Lia DecimalString.
From Stdlib Require DecimalPos DecimalZ.
Import ListNotations.
Open Scope string_scope.
Set Warnings "-register-all".

(** ** Python values *)

Inductive pyval : Type :=
| PNone
| PBool (b : bool)
| PInt (z : Z)
| PStr (s : string).

(** Truth value of an object in a condition ([if x], [not x], [x or y]). *)
Definition truthy (v : pyval) : bool :=
  match v with
  | PNone => false
  | PBool b => b
  | PInt z => negb (z =? 0)%Z
  | PStr s => negb (s =? "")
  end.

(** [v or d] *)
Definition py_or (v d : pyval) : pyval := if truthy v then v else d.

(** [str(v)] *)
Definition str (v : pyval) : string :=
  match v with
  | PNone => "None"
  | PBool true => "True"
  | PBool false => "False"
  | PInt z => NilZero.string_of_int (Z.to_int z)
  | PStr s => s
  end.

Definition str_of_nat (n : nat) : string := str (PInt (Z.of_nat n)).

(** [sep.join(items)] over items that are already strings. *)
Definition join (sep : string) (items : list string) : string := String.concat sep items.

(** A list-valued attribute that may be [None]; empty lists are falsy. *)
Definition truthy_list {A : Type} (l : option (list A)) : bool :=
  match l with
  | Some (_ :: _) => true
  | _ => false
  end.

Definition list_or_nil {A : Type} (l : option (list A)) : list A :=
  match l with
  | Some l => l
  | None => []
  end.

(** Dictionaries keep insertion order; assigning to an existing key keeps its
    position. *)
Fixpoint dict_set {V : Type} (k : string) (v : V) (d : list (string * V)) : list (string * V) :=
  match d with
  | [] => [(k, v)]
  | (k', v') :: d' => if k' =? k then (k, v) :: d' else (k', v') :: dict_set k v d'
  end.

Fixpoint dict_get {V : Type} (k : string) (d : list (string * V)) : option V :=
  match d with
  | [] => None
  | (k', v') :: d' => if k' =? k then Some v' else dict_get k d'
  end.

Definition dict_get_default {V : Type} (k : string) (dflt : V) (d : list (string * V)) : V :=
  match dict_get k d with
  | Some v => v
  | None => dflt
  end.

(** CDK renders a reference to a resource as a string token. *)
Definition Ref (logical_id : string) : string := "{Ref:" ++ logical_id ++ "}".
Definition GetAtt (logical_id attr : string) : string :=
  "{GetAtt:" ++ logical_id ++ "." ++ attr ++ "}".

(** ** Exceptions *)

Inductive exn : Type :=
| TypeError
| KeyError (key : string)
| IndexError
| AttributeError
| ExternalLookupError
| ValidationError (path : string).

Inductive result (A : Type) : Type :=
| Ok (a : A)
| Raise (e : exn).
Arguments Ok {A} a.
Arguments Raise {A} e.

(** ** Time *)

Record datetime := {
  year : nat; month : nat; day : nat; hour : nat; minute : nat; second : nat
}.

Definition pad2 (n : nat) : string :=
  if (n <? 10)%nat then "0" ++ str_of_nat n else str_of_nat n.

Definition pad4 (n : nat) : string :=
  if (n <? 10)%nat then "000" ++ str_of_nat n
  else if (n <? 100)%nat then "00" ++ str_of_nat n
  else if (n <? 1000)%nat then "0" ++ str_of_nat n
  else str_of_nat n.

(** [strftime("%Y%m%d%H%M")] and [strftime("%Y%m%d%H%M%S")] *)
Definition strftime_minutes (t : datetime) : string :=
  pad4 (year t) ++ pad2 (month t) ++ pad2 (day t) ++ pad2 (hour t) ++ pad2 (minute t).
Definition strftime_seconds (t : datetime) : string :=
  strftime_minutes t ++ pad2 (second t).

(** ** Shared storage declarations *)

Inductive SharedStorageType : Type := EBS | RAID | EFS | FSX.

Definition SharedStorageType_eqb (a b : SharedStorageType) : bool :=
  match a, b with
  | EBS, EBS | RAID, RAID | EFS, EFS | FSX, FSX => true
  | _, _ => false
  end.

(** [storage_type.name] *)
Definition type_name (t : SharedStorageType) : string :=
  match t with
  | EBS => "EBS"
  | RAID => "RAID"
  | EFS => "EFS"
  | FSX => "FSX"
  end.

Module Raid.
Record t := { raid_type : pyval; number_of_volumes : nat }.
End Raid.

Module SharedEbs.
Record t := {
  name : pyval;
  mount_dir : pyval;
  volume_id : pyval;
  encrypted : pyval;
  iops : pyval;
  throughput : pyval;
  kms_key_id : pyval;
  size : pyval;
  snapshot_id : pyval;
  volume_type : pyval;
  deletion_policy : pyval
}.
End SharedEbs.

Module SharedEfs.
Record t := {
  name : pyval;
  mount_dir : pyval;
  file_system_id : pyval;
  encrypted : pyval;
  kms_key_id : pyval;
  performance_mode : pyval;
  provisioned_throughput : pyval;
  throughput_mode : pyval
}.
End SharedEfs.

Module SharedFsx.
Record t := {
  name : pyval;
  mount_dir : pyval;
  file_system_id : pyval;
  existing_mount_name : pyval;
  existing_dns_name : pyval;
  fsx_storage_type : pyval;
  drive_cache_type : pyval;
  storage_capacity : pyval;
  deployment_type : pyval;
  data_compression_type : pyval;
  imported_file_chunk_size : pyval;
  export_path : pyval;
  import_path : pyval;
  weekly_maintenance_start_time : pyval;
  automatic_backup_retention_days : pyval;
  copy_tags_to_backups : pyval;
  daily_automatic_backup_start_time : pyval;
  per_unit_storage_throughput : pyval;
  auto_import_policy : pyval;
  backup_id : pyval;
  kms_key_id : pyval
}.
End SharedFsx.

(** A storage declaration, tagged by its [shared_storage_type]; a RAID
    declaration is a [SharedEbs] whose [raid] attribute is set. *)
Inductive SharedStorage : Type :=
| StorageEbs (e : SharedEbs.t)
| StorageRaid (e : SharedEbs.t) (raid : Raid.t)
| StorageEfs (e : SharedEfs.t)
| StorageFsx (f : SharedFsx.t).

Definition shared_storage_type (s : SharedStorage) : SharedStorageType :=
  match s with
  | StorageEbs _ => EBS
  | StorageRaid _ _ => RAID
  | StorageEfs _ => EFS
  | StorageFsx _ => FSX
  end.

(** [StorageInfo = namedtuple("StorageInfo", ["id", "config"])] *)
Record StorageInfo := { id : pyval; storage_config : SharedStorage }.

(** ** Cluster configuration

    Only the attributes the stack reads are kept, under the names and the
    nesting the source uses. *)

Module CustomAction.
Record t := { script : string; args : option (list string) }.
End CustomAction.

Module CustomActions.
Record t := {
  on_node_start : option CustomAction.t;
  on_node_configured : option CustomAction.t
}.
End CustomActions.

Module Dcv.
Record t := { port : Z; allowed_ips : string }.
End Dcv.

Module Ssh.
Record t := { key_name : pyval; allowed_ips : string }.
End Ssh.

Module HeadNodeNetworking.
Record t := {
  security_groups : option (list string);
  additional_security_groups : option (list string);
  subnet_id : string;
  elastic_ip : pyval;
  availability_zone : string;
  proxy : option string
}.
End HeadNodeNetworking.

Module HeadNode.
Record t := {
  networking : HeadNodeNetworking.t;
  ssh : Ssh.t;
  dcv : option Dcv.t;
  instance_type : string;
  max_network_interface_count : nat;
  vcpus : Z;
  pass_cpu_options_in_launch_template : bool;
  is_ebs_optimized : bool;
  disable_simultaneous_multithreading_manually : bool;
  custom_actions : option CustomActions.t;
  ephemeral_volume_mount_dir : option string;
  imds_secured : pyval
}.
End HeadNode.

Module Efa.
Record t := { enabled : bool; gdr_support : bool }.
End Efa.

Module ComputeResource.
Record t := {
  name : string;
  instance_type : string;
  max_network_interface_count : nat;
  efa : option Efa.t;
  spot_price : pyval;
  vcpus : Z;
  pass_cpu_options_in_launch_template : bool;
  is_ebs_optimized : bool;
  disable_simultaneous_multithreading_manually : bool
}.
End ComputeResource.

Module PlacementGroup.
Record t := { enabled : bool; id : pyval }.
End PlacementGroup.

Module QueueNetworking.
Record t := {
  security_groups : option (list string);
  additional_security_groups : option (list string);
  placement_group : option PlacementGroup.t;
  assign_public_ip : pyval;
  subnet_ids : list string
}.
End QueueNetworking.

Inductive CapacityType : Type := ONDEMAND | SPOT.

Module Queue.
Record t := {
  name : string;
  networking : QueueNetworking.t;
  compute_resources : list ComputeResource.t;
  custom_actions : option CustomActions.t;
  capacity_type : CapacityType;
  ephemeral_volume_mount_dir : option string
}.
End Queue.

Module ClusterConfig.
Record t := {
  os : string;
  scheduler : string;
  queues : list Queue.t;
  byos_template : pyval;
  head_node : HeadNode.t;
  shared_storage : option (list SharedStorage);
  vpc_id : string;
  compute_subnet_ids : list string;
  compute_security_groups : list string;
  additional_resources : pyval;
  lambda_functions_role : pyval;
  lambda_functions_role_implied : bool;
  is_cw_logging_enabled : bool;
  cloud_watch_enabled : bool;
  is_cw_dashboard_enabled : bool;
  is_dcv_enabled : bool;
  is_intel_hpc_platform_enabled : bool;
  head_node_ami : string;
  image_dict : list (string * string);
  original_config_version : string;
  config_version : string;
  custom_node_package : pyval;
  custom_aws_batch_cli_package : pyval;
  extra_chef_attributes : string
}.
End ClusterConfig.

Module S3Bucket.
Record t := { name : string; artifact_directory : string }.
End S3Bucket.

(** ** Resource declarations

    One constructor per CloudFormation resource class the stack
    instantiates, with the keyword arguments of the call.  Properties whose
    value comes from helpers of [cdk_builder_utils] that build tags, block
    device mappings and IAM policy documents are not represented. *)

Record IngressProperty := {
  ingress_ip_protocol : string;
  ingress_from_port : Z;
  ingress_to_port : Z;
  ingress_cidr_ip : string
}.

Record NetworkInterfaceProperty := {
  device_index : nat;
  network_card_index : option nat;
  network_interface_id : option string;
  associate_public_ip_address : pyval;
  interface_type : option string;
  groups : option (list string);
  nic_subnet_id : option string
}.

Record SpotOptionsProperty := {
  spot_instance_type : string;
  instance_interruption_behavior : string;
  max_price : option string
}.

(** Documents handed to the node bootstrap: JSON-like trees.  [DJson d] is
    the text [json.dumps(d, indent=4)] of a tree; serialisation is
    deterministic and one-to-one on trees, so documents are compared as
    trees. *)
Inductive doc : Type :=
| DVal (v : pyval)
| DList (items : list doc)
| DDict (entries : list (string * doc))
| DJson (d : doc).

Definition DS (s : string) : doc := DVal (PStr s).

Record LaunchTemplateData := {
  lt_instance_type : string;
  lt_cpu_options : option Z;
  lt_key_name : pyval;
  lt_network_interfaces : list NetworkInterfaceProperty;
  lt_placement_group_name : option pyval;
  lt_image_id : string;
  lt_ebs_optimized : bool;
  lt_iam_instance_profile : string;
  lt_instance_market_options : option SpotOptionsProperty;
  lt_user_data : string * list (string * pyval)
}.

Record LustreConfigurationProperty := {
  lustre_deployment_type : pyval;
  lustre_data_compression_type : pyval;
  lustre_imported_file_chunk_size : pyval;
  lustre_export_path : pyval;
  lustre_import_path : pyval;
  lustre_weekly_maintenance_start_time : pyval;
  lustre_automatic_backup_retention_days : pyval;
  lustre_copy_tags_to_backups : pyval;
  lustre_daily_automatic_backup_start_time : pyval;
  lustre_per_unit_storage_throughput : pyval;
  lustre_auto_import_policy : pyval;
  lustre_drive_cache_type : pyval
}.

Inductive resource : Type :=
| CfnParameter (rid : string) (default : pyval)
| CfnLogGroup (rid : string) (log_group_name : pyval)
| CfnSecurityGroup (rid group_description vpc_id : string)
    (security_group_ingress : list IngressProperty)
| CfnSecurityGroupIngress (rid ip_protocol : string) (from_port to_port : Z)
    (source_security_group_id group_id : string)
| CfnSecurityGroupEgress (rid ip_protocol : string) (from_port to_port : Z)
    (destination_security_group_id cidr_ip : option string) (group_id : string)
    (depends_on : list string)
| CfnNetworkInterface (rid subnet_id : string) (group_set : list string)
| CfnEIP (rid : string)
| CfnEIPAssociation (rid allocation_id network_interface_id : string)
| CfnStack (rid : string) (template_url : pyval)
| FsxCfnFileSystem (rid : string) (storage_capacity : pyval)
    (lustre_configuration : LustreConfigurationProperty)
    (backup_id kms_key_id storage_type : pyval)
    (subnet_ids security_group_ids : list string) (name_tag : pyval)
| EfsCfnFileSystem (rid : string)
    (encrypted kms_key_id performance_mode provisioned_throughput_in_mibps throughput_mode : pyval)
    (name_tag : pyval)
| CfnMountTarget (rid : string) (file_system_id : pyval) (security_groups : list string)
    (subnet_id : string)
| CfnVolume (rid availability_zone : string)
    (encrypted iops throughput kms_key_id size snapshot_id volume_type name_tag deletion_policy : pyval)
| CfnWaitConditionHandle (rid : string)
| CfnWaitCondition (rid : string) (count : Z) (handle timeout : string)
| CfnLaunchTemplate (rid : string) (launch_template_name : option string)
    (launch_template_data : LaunchTemplateData) (metadata : list (string * doc))
| CfnInstance (rid launch_template_id version : string) (dependencies : list string)
| CfnPlacementGroup (rid strategy : string)
| CfnCustomResource (rid service_token : string) (properties : list (string * string))
    (depends_on : list string)
| CfnOutput (rid description value : string)
| CfnHostedZone (rid : string)
| CfnTable (rid : string)
| CfnComputeEnvironment (rid : string)
| CfnJobQueue (rid : string)
| Construct (rid : string) (children : list resource).

(** ** The world outside the module *)

(** [AWSApi.instance()]: the read-only inventory.  A lookup that fails
    raises in the source and ends synthesis with no template; the model
    covers the runs in which every lookup answers. *)
Record AWSApi := {
  get_subnet_avail_zone : string -> string;
  get_efs_mount_target_id : pyval -> string -> pyval;
  get_eip_allocation_id : pyval -> string
}.

Inductive api_call : Type :=
| Call_get_subnet_avail_zone (subnet_id : string)
| Call_get_efs_mount_target_id (file_system_id : pyval) (availability_zone : string)
| Call_get_eip_allocation_id (elastic_ip : pyval).

(** Constants and helpers imported from [pcluster.constants],
    [pcluster.utils] and [pcluster.templates.cdk_builder_utils], whose
    sources are outside this module: taken as parameters. *)
Record Utils := {
  OS_MAPPING_user : string -> string;
  CW_LOG_GROUP_NAME_PREFIX : string;
  CW_LOGS_CFN_PARAM_NAME : string;
  artifacts_config_name : pyval;
  byos_template_url : string;
  create_hash_suffix : string -> string;
  join_shell_args : list string -> string;
  get_user_data_content : string -> string;
  get_common_user_data_env_head : ClusterConfig.t -> list (string * pyval);
  get_common_user_data_env_queue : Queue.t -> ClusterConfig.t -> list (string * pyval);
  get_shared_storage_ids_by_type :
    (SharedStorageType -> list StorageInfo) -> SharedStorageType -> result pyval;
  get_shared_storage_options_by_type :
    (SharedStorageType -> string) -> SharedStorageType -> pyval;
  get_queue_security_groups_full : option string -> Queue.t -> list string
}.

(** Everything a run reads and never writes: collaborators, the name CDK
    gives the stack ([Stack.stack_name]) and the constructor arguments other
    than the configuration. *)
Record Env := {
  api : AWSApi;
  utils : Utils;
  bucket : S3Bucket.t;
  cdk_stack_name : string;
  arg_stack_name : string;
  arg_log_group_name : pyval
}.

(** ** The stack object

    [self] of [ClusterCdkStack].  The configuration is part of the state:
    the source hands out lists that belong to it, and a method that extends
    such a list changes the configuration. *)

(** What [self.scheduler_resources] exposes to the rest of the stack. *)
Inductive SchedulerResources : Type :=
| SlurmResources (cluster_hosted_zone : option string) (dynamodb_table : string)
| AwsBatchResources.

(** [ComputeFleetConstruct]: its id and [compute_launch_templates], a
    dictionary from queue name to a dictionary from compute-resource name to
    the logical id of the launch template. *)
Record ComputeFleet := {
  fleet_id : string;
  compute_launch_templates : list (string * list (string * string))
}.

Record Storage := {
  shared_storage_mappings : SharedStorageType -> list StorageInfo;
  shared_storage_options : SharedStorageType -> string;
  shared_storage_attributes : SharedStorageType -> list (string * pyval)
}.

Record Attrs := {
  log_group : option string;
  _head_node_instance_profile : string;
  _compute_instance_profiles : list (string * string);
  _head_security_group : option string;
  _compute_security_group : option string;
  _head_eni : option string;
  scheduler_resources : option SchedulerResources;
  compute_fleet_resources : option ComputeFleet;
  byos_stack : option string;
  wait_condition_handle : option string;
  head_node_instance : option string
}.

Record stack := {
  config : ClusterConfig.t;
  log_group_name : pyval;
  storage : Storage;
  attrs : Attrs
}.

Definition with_config (c : ClusterConfig.t) (s : stack) : stack :=
  {| config := c; log_group_name := log_group_name s; storage := storage s; attrs := attrs s |}.

Definition with_storage (st : Storage) (s : stack) : stack :=
  {| config := config s; log_group_name := log_group_name s; storage := st; attrs := attrs s |}.

Definition with_attrs (a : Attrs) (s : stack) : stack :=
  {| config := config s; log_group_name := log_group_name s; storage := storage s; attrs := a |}.

Definition with_log_group_name (n : pyval) (s : stack) : stack :=
  {| config := config s; log_group_name := n; storage := storage s; attrs := attrs s |}.

(** ** The monad: reader of [Env], state [stack], exceptions, and a trace

    The module never reads the construct tree back and never sees its own
    inventory calls again: both are outputs.  A run emits, in order, the
    resources it declares and the lookups it makes. *)

Inductive event : Type :=
| Resource (r : resource)
| Lookup (c : api_call).

(** How a method call ends: with a value, the object as the call leaves it
    and the trace of the call, or with an exception. *)
Inductive outcome (A : Type) : Type :=
| Done (a : A) (s : stack) (w : list event)
| Raised (x : exn).
Arguments Done {A} a s w.
Arguments Raised {A} x.

Definition M (A : Type) : Type := Env -> stack -> outcome A.

Definition ret {A : Type} (a : A) : M A := fun _ s => Done a s [].

Definition bind {A B : Type} (m : M A) (k : A -> M B) : M B :=
  fun e s =>
    match m e s with
    | Done a s' w =>
        match k a e s' with
        | Done b s'' w' => Done b s'' (w ++ w')
        | Raised x => Raised x
        end
    | Raised x => Raised x
    end.

Definition raise {A : Type} (x : exn) : M A := fun _ _ => Raised x.

Declare Scope monad_scope.
Delimit Scope monad_scope with monad.
Notation "x <- m ;; k" := (bind m (fun x => k))
  (at level 61, m at next level, right associativity) : monad_scope.
Notation "m ;; k" := (bind m (fun _ => k))
  (at level 61, right associativity) : monad_scope.
Open Scope monad_scope.

Definition get : M stack := fun _ s => Done s s [].
Definition ask : M Env := fun e s => Done e s [].
Definition modify (f : stack -> stack) : M unit := fun _ s => Done tt (f s) [].
Definition emit (ev : event) : M unit := fun _ s => Done tt s [ev].

Definition when (b : bool) (m : M unit) : M unit := if b then m else ret tt.

(** [for x in l: body(x)] *)
Fixpoint for_each {A : Type} (l : list A) (body : A -> M unit) : M unit :=
  match l with
  | [] => ret tt
  | x :: l' => body x ;; for_each l' body
  end.

(** Instantiating a resource class with scope [self] adds a child to the
    construct tree. *)
Definition add_resource (r : resource) : M unit := emit (Resource r).

(** The resources a trace declares, in creation order. *)
Fixpoint declared (w : list event) : list resource :=
  match w with
  | [] => []
  | Resource r :: w' => r :: declared w'
  | Lookup _ :: w' => declared w'
  end.

(** The inventory lookups of a trace, in call order. *)
Fixpoint lookups (w : list event) : list api_call :=
  match w with
  | [] => []
  | Resource _ :: w' => lookups w'
  | Lookup c :: w' => c :: lookups w'
  end.

Definition api_get_subnet_avail_zone (subnet_id : string) : M string :=
  e <- ask ;;
  emit (Lookup (Call_get_subnet_avail_zone subnet_id)) ;;
  ret (get_subnet_avail_zone (api e) subnet_id).

Definition api_get_efs_mount_target_id (file_system_id : pyval) (az : string) : M pyval :=
  e <- ask ;;
  emit (Lookup (Call_get_efs_mount_target_id file_system_id az)) ;;
  ret (get_efs_mount_target_id (api e) file_system_id az).

Definition api_get_eip_allocation_id (elastic_ip : pyval) : M string :=
  e <- ask ;;
  emit (Lookup (Call_get_eip_allocation_id elastic_ip)) ;;
  ret (get_eip_allocation_id (api e) elastic_ip).

(** ** Writing into the configuration *)

Definition set_networking_security_groups (l : option (list string)) (n : HeadNodeNetworking.t)
  : HeadNodeNetworking.t :=
  {| HeadNodeNetworking.security_groups := l;
     HeadNodeNetworking.additional_security_groups := HeadNodeNetworking.additional_security_groups n;
     HeadNodeNetworking.subnet_id := HeadNodeNetworking.subnet_id n;
     HeadNodeNetworking.elastic_ip := HeadNodeNetworking.elastic_ip n;
     HeadNodeNetworking.availability_zone := HeadNodeNetworking.availability_zone n;
     HeadNodeNetworking.proxy := HeadNodeNetworking.proxy n |}.

Definition set_head_node_networking (n : HeadNodeNetworking.t) (h : HeadNode.t) : HeadNode.t :=
  {| HeadNode.networking := n;
     HeadNode.ssh := HeadNode.ssh h;
     HeadNode.dcv := HeadNode.dcv h;
     HeadNode.instance_type := HeadNode.instance_type h;
     HeadNode.max_network_interface_count := HeadNode.max_network_interface_count h;
     HeadNode.vcpus := HeadNode.vcpus h;
     HeadNode.pass_cpu_options_in_launch_template := HeadNode.pass_cpu_options_in_launch_template h;
     HeadNode.is_ebs_optimized := HeadNode.is_ebs_optimized h;
     HeadNode.disable_simultaneous_multithreading_manually :=
       HeadNode.disable_simultaneous_multithreading_manually h;
     HeadNode.custom_actions := HeadNode.custom_actions h;
     HeadNode.ephemeral_volume_mount_dir := HeadNode.ephemeral_volume_mount_dir h;
     HeadNode.imds_secured := HeadNode.imds_secured h |}.

Definition set_head_node (h : HeadNode.t) (c : ClusterConfig.t) : ClusterConfig.t :=
  {| ClusterConfig.os := ClusterConfig.os c;
     ClusterConfig.scheduler := ClusterConfig.scheduler c;
     ClusterConfig.queues := ClusterConfig.queues c;
     ClusterConfig.byos_template := ClusterConfig.byos_template c;
     ClusterConfig.head_node := h;
     ClusterConfig.shared_storage := ClusterConfig.shared_storage c;
     ClusterConfig.vpc_id := ClusterConfig.vpc_id c;
     ClusterConfig.compute_subnet_ids := ClusterConfig.compute_subnet_ids c;
     ClusterConfig.compute_security_groups := ClusterConfig.compute_security_groups c;
     ClusterConfig.additional_resources := ClusterConfig.additional_resources c;
     ClusterConfig.lambda_functions_role := ClusterConfig.lambda_functions_role c;
     ClusterConfig.lambda_functions_role_implied := ClusterConfig.lambda_functions_role_implied c;
     ClusterConfig.is_cw_logging_enabled := ClusterConfig.is_cw_logging_enabled c;
     ClusterConfig.cloud_watch_enabled := ClusterConfig.cloud_watch_enabled c;
     ClusterConfig.is_cw_dashboard_enabled := ClusterConfig.is_cw_dashboard_enabled c;
     ClusterConfig.is_dcv_enabled := ClusterConfig.is_dcv_enabled c;
     ClusterConfig.is_intel_hpc_platform_enabled := ClusterConfig.is_intel_hpc_platform_enabled c;
     ClusterConfig.head_node_ami := ClusterConfig.head_node_ami c;
     ClusterConfig.image_dict := ClusterConfig.image_dict c;
     ClusterConfig.original_config_version := ClusterConfig.original_config_version c;
     ClusterConfig.config_version := ClusterConfig.config_version c;
     ClusterConfig.custom_node_package := ClusterConfig.custom_node_package c;
     ClusterConfig.custom_aws_batch_cli_package := ClusterConfig.custom_aws_batch_cli_package c;
     ClusterConfig.extra_chef_attributes := ClusterConfig.extra_chef_attributes c |}.

Definition head_networking (c : ClusterConfig.t) : HeadNodeNetworking.t :=
  HeadNode.networking (ClusterConfig.head_node c).

(** [config.head_node.networking.security_groups = l], in place. *)
Definition set_head_security_groups (l : option (list string)) (c : ClusterConfig.t)
  : ClusterConfig.t :=
  set_head_node
    (set_head_node_networking (set_networking_security_groups l (head_networking c))
       (ClusterConfig.head_node c)) c.

(** A Python list object reachable from a local variable: the list the
    configuration holds as the head node's security groups (shared with the
    configuration), or a list built by the method itself. *)
Inductive list_object : Type :=
| ConfigHeadSecurityGroups
| NewList (l : list string).

Definition list_read (o : list_object) : M (list string) :=
  match o with
  | ConfigHeadSecurityGroups =>
      s <- get ;; ret (list_or_nil (HeadNodeNetworking.security_groups (head_networking (config s))))
  | NewList l => ret l
  end.

(** [o.extend(items)]: the object is changed where it lives. *)
Definition list_extend (o : list_object) (items : list string) : M list_object :=
  match o with
  | ConfigHeadSecurityGroups =>
      l <- list_read o ;;
      modify (fun s => with_config (set_head_security_groups (Some (l ++ items)%list) (config s)) s) ;;
      ret o
  | NewList l => ret (NewList (l ++ items))
  end.

(** ** Attribute setters of [self] *)

Definition set_attrs (f : Attrs -> Attrs) : M unit :=
  modify (fun s => with_attrs (f (attrs s)) s).

Definition attrs_with_security_groups (h c : option string) (a : Attrs) : Attrs :=
  {| log_group := log_group a;
     _head_node_instance_profile := _head_node_instance_profile a;
     _compute_instance_profiles := _compute_instance_profiles a;
     _head_security_group := h; _compute_security_group := c;
     _head_eni := _head_eni a; scheduler_resources := scheduler_resources a;
     compute_fleet_resources := compute_fleet_resources a; byos_stack := byos_stack a;
     wait_condition_handle := wait_condition_handle a;
     head_node_instance := head_node_instance a |}.

Definition attrs_with_log_group (l : option string) (a : Attrs) : Attrs :=
  {| log_group := l;
     _head_node_instance_profile := _head_node_instance_profile a;
     _compute_instance_profiles := _compute_instance_profiles a;
     _head_security_group := _head_security_group a;
     _compute_security_group := _compute_security_group a;
     _head_eni := _head_eni a; scheduler_resources := scheduler_resources a;
     compute_fleet_resources := compute_fleet_resources a; byos_stack := byos_stack a;
     wait_condition_handle := wait_condition_handle a;
     head_node_instance := head_node_instance a |}.

Definition attrs_with_instance_profiles (h : string) (c : list (string * string)) (a : Attrs)
  : Attrs :=
  {| log_group := log_group a;
     _head_node_instance_profile := h;
     _compute_instance_profiles := c;
     _head_security_group := _head_security_group a;
     _compute_security_group := _compute_security_group a;
     _head_eni := _head_eni a; scheduler_resources := scheduler_resources a;
     compute_fleet_resources := compute_fleet_resources a; byos_stack := byos_stack a;
     wait_condition_handle := wait_condition_handle a;
     head_node_instance := head_node_instance a |}.

Definition attrs_with_head_eni (x : option string) (a : Attrs) : Attrs :=
  {| log_group := log_group a;
     _head_node_instance_profile := _head_node_instance_profile a;
     _compute_instance_profiles := _compute_instance_profiles a;
     _head_security_group := _head_security_group a;
     _compute_security_group := _compute_security_group a;
     _head_eni := x; scheduler_resources := scheduler_resources a;
     compute_fleet_resources := compute_fleet_resources a; byos_stack := byos_stack a;
     wait_condition_handle := wait_condition_handle a;
     head_node_instance := head_node_instance a |}.

Definition attrs_with_scheduler_resources (x : option SchedulerResources) (a : Attrs) : Attrs :=
  {| log_group := log_group a;
     _head_node_instance_profile := _head_node_instance_profile a;
     _compute_instance_profiles := _compute_instance_profiles a;
     _head_security_group := _head_security_group a;
     _compute_security_group := _compute_security_group a;
     _head_eni := _head_eni a; scheduler_resources := x;
     compute_fleet_resources := compute_fleet_resources a; byos_stack := byos_stack a;
     wait_condition_handle := wait_condition_handle a;
     head_node_instance := head_node_instance a |}.

Definition attrs_with_compute_fleet_resources (x : option ComputeFleet) (a : Attrs) : Attrs :=
  {| log_group := log_group a;
     _head_node_instance_profile := _head_node_instance_profile a;
     _compute_instance_profiles := _compute_instance_profiles a;
     _head_security_group := _head_security_group a;
     _compute_security_group := _compute_security_group a;
     _head_eni := _head_eni a; scheduler_resources := scheduler_resources a;
     compute_fleet_resources := x; byos_stack := byos_stack a;
     wait_condition_handle := wait_condition_handle a;
     head_node_instance := head_node_instance a |}.

Definition attrs_with_byos_stack (x : option string) (a : Attrs) : Attrs :=
  {| log_group := log_group a;
     _head_node_instance_profile := _head_node_instance_profile a;
     _compute_instance_profiles := _compute_instance_profiles a;
     _head_security_group := _head_security_group a;
     _compute_security_group := _compute_security_group a;
     _head_eni := _head_eni a; scheduler_resources := scheduler_resources a;
     compute_fleet_resources := compute_fleet_resources a; byos_stack := x;
     wait_condition_handle := wait_condition_handle a;
     head_node_instance := head_node_instance a |}.

Definition attrs_with_wait_condition_handle (x : option string) (a : Attrs) : Attrs :=
  {| log_group := log_group a;
     _head_node_instance_profile := _head_node_instance_profile a;
     _compute_instance_profiles := _compute_instance_profiles a;
     _head_security_group := _head_security_group a;
     _compute_security_group := _compute_security_group a;
     _head_eni := _head_eni a; scheduler_resources := scheduler_resources a;
     compute_fleet_resources := compute_fleet_resources a; byos_stack := byos_stack a;
     wait_condition_handle := x;
     head_node_instance := head_node_instance a |}.

Definition attrs_with_head_node_instance (x : option string) (a : Attrs) : Attrs :=
  {| log_group := log_group a;
     _head_node_instance_profile := _head_node_instance_profile a;
     _compute_instance_profiles := _compute_instance_profiles a;
     _head_security_group := _head_security_group a;
     _compute_security_group := _compute_security_group a;
     _head_eni := _head_eni a; scheduler_resources := scheduler_resources a;
     compute_fleet_resources := compute_fleet_resources a; byos_stack := byos_stack a;
     wait_condition_handle := wait_condition_handle a;
     head_node_instance := x |}.

(** ** ClusterCdkStack: conditions and utility methods *)

Definition _condition_is_slurm : M bool :=
  s <- get ;; ret (ClusterConfig.scheduler (config s) =? "slurm").

Definition _condition_is_byos : M bool :=
  s <- get ;; ret (ClusterConfig.scheduler (config s) =? "byos").

Definition _condition_is_batch : M bool :=
  s <- get ;; ret (ClusterConfig.scheduler (config s) =? "awsbatch").

Definition _condition_create_lambda_iam_role : M bool :=
  s <- get ;;
  ret (negb (truthy (ClusterConfig.lambda_functions_role (config s)))
       || ClusterConfig.lambda_functions_role_implied (config s)).

(** [x.ref] of an attribute that may hold [None]. *)
Definition ref_of (x : option string) : M string :=
  match x with
  | Some logical_id => ret (Ref logical_id)
  | None => raise AttributeError
  end.

(** [self.config.head_node.networking.security_groups or
    [self._head_security_group.ref]]: the configuration's own list when it
    is non-empty. *)
Definition _get_head_node_security_groups : M list_object :=
  s <- get ;;
  if truthy_list (HeadNodeNetworking.security_groups (head_networking (config s)))
  then ret ConfigHeadSecurityGroups
  else r <- ref_of (_head_security_group (attrs s)) ;; ret (NewList [r]).

Definition _get_head_node_security_groups_full : M list_object :=
  head_node_group_set <- _get_head_node_security_groups ;;
  s <- get ;;
  let additional := HeadNodeNetworking.additional_security_groups (head_networking (config s)) in
  if truthy_list additional
  then list_extend head_node_group_set (list_or_nil additional)
  else ret head_node_group_set.

(** [config.compute_security_groups] is a property declared outside this
    module; it is read here as a list computed anew at each access, so the
    [append] below stays local to the caller. *)
Definition _get_compute_security_groups : M (list string) :=
  s <- get ;;
  let compute_group_set := ClusterConfig.compute_security_groups (config s) in
  match _compute_security_group (attrs s) with
  | Some sg => ret (compute_group_set ++ [Ref sg])%list
  | None => ret compute_group_set
  end.

(** ** Parameters *)

Definition _add_parameters : M unit :=
  e <- ask ;; s <- get ;;
  let c := config s in
  add_resource (CfnParameter "ClusterUser" (PStr (OS_MAPPING_user (utils e) (ClusterConfig.os c)))) ;;
  add_resource (CfnParameter "ResourcesS3Bucket" (PStr (S3Bucket.name (bucket e)))) ;;
  add_resource (CfnParameter "ArtifactS3RootDirectory"
                  (PStr (S3Bucket.artifact_directory (bucket e)))) ;;
  add_resource (CfnParameter "Scheduler" (PStr (ClusterConfig.scheduler c))) ;;
  add_resource (CfnParameter "ConfigVersion" (PStr (ClusterConfig.original_config_version c))) ;;
  when (ClusterConfig.is_cw_logging_enabled c)
    (add_resource (CfnParameter (CW_LOGS_CFN_PARAM_NAME (utils e)) (log_group_name s))).

(** ** Log group, IAM and cleanup resources

    [HeadNodeIamResources], [ComputeNodeIamResources], [add_lambda_cfn_role]
    and [PclusterLambdaConstruct] come from [cdk_builder_utils]; each is a
    construct whose children are not represented. *)

Definition _add_cluster_log_group : M string :=
  s <- get ;;
  add_resource (CfnLogGroup "CloudWatchLogGroup" (log_group_name s)) ;;
  ret "CloudWatchLogGroup".

Definition _add_iam_resources : M unit :=
  s <- get ;;
  add_resource (Construct "HeadNodeIamResources" []) ;;
  is_batch <- _condition_is_batch ;;
  if negb is_batch then
    for_each (ClusterConfig.queues (config s))
      (fun queue => add_resource (Construct ("ComputeNodeIamResources" ++ Queue.name queue) [])) ;;
    set_attrs (attrs_with_instance_profiles
                 (GetAtt "HeadNodeIamResources" "instance_profile")
                 (fold_left (fun d queue =>
                               dict_set (Queue.name queue)
                                 (GetAtt ("ComputeNodeIamResources" ++ Queue.name queue)
                                    "instance_profile") d)
                    (ClusterConfig.queues (config s)) []))
  else
    s' <- get ;;
    set_attrs (attrs_with_instance_profiles
                 (GetAtt "HeadNodeIamResources" "instance_profile")
                 (_compute_instance_profiles (attrs s'))).

Definition _add_cleanup_resources_lambda : M (option string * string) :=
  e <- ask ;; s <- get ;;
  create_role <- _condition_create_lambda_iam_role ;;
  cleanup_resources_lambda_role <-
    (if create_role
     then add_resource (Construct "CleanupResourcesRole" []) ;; ret (Some "CleanupResourcesRole")
     else ret None) ;;
  add_resource (Construct "CleanupResourcesFunctionConstruct" []) ;;
  let cleanup_resources_lambda := "CleanupResourcesFunctionConstruct" in
  add_resource
    (CfnCustomResource "CleanupResourcesS3BucketCustomResource"
       (GetAtt cleanup_resources_lambda "Arn")
       [("ResourcesS3Bucket", S3Bucket.name (bucket e));
        ("ArtifactS3RootDirectory", S3Bucket.artifact_directory (bucket e));
        ("Action", "DELETE_S3_ARTIFACTS")]
       []) ;;
  ret (cleanup_resources_lambda_role, cleanup_resources_lambda).

(** ** Security groups *)

Definition _add_head_security_group : M string :=
  s <- get ;;
  let head_node := ClusterConfig.head_node (config s) in
  let ssh_access :=
    {| ingress_ip_protocol := "tcp"; ingress_from_port := 22; ingress_to_port := 22;
       ingress_cidr_ip := Ssh.allowed_ips (HeadNode.ssh head_node) |} in
  head_security_group_ingress <-
    (if ClusterConfig.is_dcv_enabled (config s)
     then match HeadNode.dcv head_node with
          | Some dcv =>
              ret [ssh_access;
                   {| ingress_ip_protocol := "tcp"; ingress_from_port := Dcv.port dcv;
                      ingress_to_port := Dcv.port dcv; ingress_cidr_ip := Dcv.allowed_ips dcv |}]
          | None => raise AttributeError
          end
     else ret [ssh_access]) ;;
  add_resource
    (CfnSecurityGroup "HeadNodeSecurityGroup" "Enable access to the head node"
       (ClusterConfig.vpc_id (config s)) head_security_group_ingress) ;;
  ret "HeadNodeSecurityGroup".

Definition _add_compute_security_group : M string :=
  s <- get ;;
  let compute_security_group := "ComputeSecurityGroup" in
  add_resource
    (CfnSecurityGroup compute_security_group "Allow access to compute nodes"
       (ClusterConfig.vpc_id (config s)) []) ;;
  add_resource
    (CfnSecurityGroupEgress "ComputeSecurityGroupEgress" "-1" 0 65535
       (Some (Ref compute_security_group)) None (Ref compute_security_group) []) ;;
  add_resource
    (CfnSecurityGroupEgress "ComputeSecurityGroupNormalEgress" "-1" 0 65535
       None (Some "0.0.0.0/0") (Ref compute_security_group) ["ComputeSecurityGroupEgress"]) ;;
  add_resource
    (CfnSecurityGroupIngress "ComputeSecurityGroupIngress" "-1" 0 65535
       (Ref compute_security_group) (Ref compute_security_group)) ;;
  ret compute_security_group.

Definition _add_security_groups : M (option string * option string) :=
  s <- get ;;
  head_security_group <-
    (if negb (truthy_list (HeadNodeNetworking.security_groups (head_networking (config s))))
     then sg <- _add_head_security_group ;; ret (Some sg)
     else ret None) ;;
  managed_compute_security_group <-
    (if existsb (fun queue =>
                   negb (truthy_list (QueueNetworking.security_groups (Queue.networking queue))))
          (ClusterConfig.queues (config s))
     then sg <- _add_compute_security_group ;; ret (Some sg)
     else ret None) ;;
  match head_security_group, managed_compute_security_group with
  | Some head, Some compute =>
      add_resource
        (CfnSecurityGroupIngress "HeadNodeSecurityGroupComputeIngress" "-1" 0 65535
           (Ref compute) (Ref head)) ;;
      add_resource
        (CfnSecurityGroupIngress "ComputeSecurityGroupHeadNodeIngress" "-1" 0 65535
           (Ref head) (Ref compute)) ;;
      ret (head_security_group, managed_compute_security_group)
  | _, _ => ret (head_security_group, managed_compute_security_group)
  end.

(** ** Head node network interface *)

Definition _add_head_eni : M string :=
  head_eni_group_set <- _get_head_node_security_groups_full ;;
  group_set <- list_read head_eni_group_set ;;
  s <- get ;;
  add_resource
    (CfnNetworkInterface "HeadNodeENI" (HeadNodeNetworking.subnet_id (head_networking (config s)))
       group_set) ;;
  let elastic_ip := HeadNodeNetworking.elastic_ip (head_networking (config s)) in
  (if truthy elastic_ip then
     allocation_id <-
       (match elastic_ip with
        | PBool true => add_resource (CfnEIP "HeadNodeEIP") ;; ret (GetAtt "HeadNodeEIP" "AllocationId")
        | _ => api_get_eip_allocation_id elastic_ip
        end) ;;
     add_resource (CfnEIPAssociation "AssociateEIP" allocation_id (Ref "HeadNodeENI"))
   else ret tt) ;;
  ret "HeadNodeENI".

(** ** Shared storage *)

Definition update {V : Type} (f : SharedStorageType -> V) (t : SharedStorageType) (v : V)
  : SharedStorageType -> V :=
  fun t' => if SharedStorageType_eqb t' t then v else f t'.

Definition set_mappings (t : SharedStorageType) (l : list StorageInfo) (st : Storage) : Storage :=
  {| shared_storage_mappings := update (shared_storage_mappings st) t l;
     shared_storage_options := shared_storage_options st;
     shared_storage_attributes := shared_storage_attributes st |}.

Definition set_options (t : SharedStorageType) (o : string) (st : Storage) : Storage :=
  {| shared_storage_mappings := shared_storage_mappings st;
     shared_storage_options := update (shared_storage_options st) t o;
     shared_storage_attributes := shared_storage_attributes st |}.

Definition set_attribute (t : SharedStorageType) (k : string) (v : pyval) (st : Storage) : Storage :=
  {| shared_storage_mappings := shared_storage_mappings st;
     shared_storage_options := shared_storage_options st;
     shared_storage_attributes :=
       update (shared_storage_attributes st) t (dict_set k v (shared_storage_attributes st t)) |}.

Definition modify_storage (f : Storage -> Storage) : M unit :=
  modify (fun s => with_storage (f (storage s)) s).

(** [value if value is not None else "NONE"] *)
Definition if_not_None (v : pyval) : pyval :=
  match v with
  | PNone => PStr "NONE"
  | _ => v
  end.

Definition NONE : pyval := PStr "NONE".

(** [",".join(str(item) for item in items)] *)
Definition join_str (items : list pyval) : string := join "," (map str items).

Definition _add_cfn_volume (id : string) (shared_ebs : SharedEbs.t) : M pyval :=
  s <- get ;;
  add_resource
    (CfnVolume id (HeadNodeNetworking.availability_zone (head_networking (config s)))
       (SharedEbs.encrypted shared_ebs) (SharedEbs.iops shared_ebs)
       (SharedEbs.throughput shared_ebs) (SharedEbs.kms_key_id shared_ebs)
       (SharedEbs.size shared_ebs) (SharedEbs.snapshot_id shared_ebs)
       (SharedEbs.volume_type shared_ebs) (SharedEbs.name shared_ebs)
       (SharedEbs.deletion_policy shared_ebs)) ;;
  ret (PStr (Ref id)).

Definition _add_ebs_volume (id : string) (shared_ebs : SharedEbs.t) : M pyval :=
  let ebs_id := SharedEbs.volume_id shared_ebs in
  ebs_id <-
    (if negb (truthy ebs_id) && truthy (SharedEbs.mount_dir shared_ebs)
     then _add_cfn_volume id shared_ebs
     else ret ebs_id) ;;
  s <- get ;;
  let current := shared_storage_options (storage s) EBS in
  modify_storage
    (set_options EBS
       (if truthy (PStr current)
        then current ++ "," ++ str (SharedEbs.mount_dir shared_ebs)
        else str (SharedEbs.mount_dir shared_ebs))) ;;
  ret ebs_id.

(** The option record of a RAID declaration:
    [shared_dir,raid_type,num_of_raid_volumes,volume_type,volume_size,
    volume_iops,encrypted,ebs_kms_key_id,volume_throughput]. *)
Definition raid_option_items (shared_ebs : SharedEbs.t) (raid : Raid.t) : list pyval :=
  [ SharedEbs.mount_dir shared_ebs;
    Raid.raid_type raid;
    PInt (Z.of_nat (Raid.number_of_volumes raid));
    SharedEbs.volume_type shared_ebs;
    SharedEbs.size shared_ebs;
    SharedEbs.iops shared_ebs;
    if_not_None (SharedEbs.encrypted shared_ebs);
    py_or (SharedEbs.kms_key_id shared_ebs) NONE;
    SharedEbs.throughput shared_ebs ].

(** The body of [for index in range(number_of_volumes)], from [index] on. *)
Fixpoint _add_raid_volumes (id_prefix : string) (shared_ebs : SharedEbs.t) (raid : Raid.t)
    (index count : nat) (ebs_ids : list StorageInfo) : M (list StorageInfo) :=
  match count with
  | O => ret ebs_ids
  | S count' =>
      volume <- _add_cfn_volume (id_prefix ++ "Volume" ++ str_of_nat index) shared_ebs ;;
      _add_raid_volumes id_prefix shared_ebs raid (S index) count'
        (ebs_ids ++ [ {| id := volume; storage_config := StorageRaid shared_ebs raid |} ])
  end.

Definition _add_raid_volume (id_prefix : string) (shared_ebs : SharedEbs.t) (raid : Raid.t)
  : M (list StorageInfo) :=
  ebs_ids <- _add_raid_volumes id_prefix shared_ebs raid 0 (Raid.number_of_volumes raid) [] ;;
  modify_storage (set_options RAID (join_str (raid_option_items shared_ebs raid))) ;;
  ret ebs_ids.

(** [x in l] for a list of strings. *)
Definition mem (x : string) (l : list string) : bool := existsb (String.eqb x) l.

(** [checked_availability_zones] is a list the caller owns and the method
    appends to: it is passed in and returned. *)
Definition _add_efs_mount_target (efs_cfn_resource_id : string) (file_system_id : pyval)
    (security_groups : list string) (subnet_id : string)
    (checked_availability_zones : list string) (new_file_system : bool) : M (list string) :=
  availability_zone <- api_get_subnet_avail_zone subnet_id ;;
  if negb (mem availability_zone checked_availability_zones) then
    create <-
      (if new_file_system then ret true
       else mt <- api_get_efs_mount_target_id file_system_id availability_zone ;;
            ret (negb (truthy mt))) ;;
    when create
      (add_resource
         (CfnMountTarget (efs_cfn_resource_id ++ "MT" ++ availability_zone)
            file_system_id security_groups subnet_id)) ;;
    ret (checked_availability_zones ++ [availability_zone])%list
  else ret checked_availability_zones.

(** [for subnet_id in subnets: self._add_efs_mount_target(...)] *)
Fixpoint _add_efs_mount_targets (id : string) (efs_id : pyval) (sgs : list string)
    (subnets : list string) (checked : list string) (new_file_system : bool)
  : M (list string) :=
  match subnets with
  | [] => ret checked
  | subnet_id :: rest =>
      checked' <- _add_efs_mount_target id efs_id sgs subnet_id checked new_file_system ;;
      _add_efs_mount_targets id efs_id sgs rest checked' new_file_system
  end.

(** [shared_dir,efs_fs_id,performance_mode,efs_kms_key_id,
    provisioned_throughput,encrypted,throughput_mode,
    exists_valid_head_node_mt,exists_valid_compute_mt] *)
Definition efs_option_items (shared_efs : SharedEfs.t) (efs_id : pyval) : list pyval :=
  [ SharedEfs.mount_dir shared_efs;
    efs_id;
    py_or (SharedEfs.performance_mode shared_efs) NONE;
    py_or (SharedEfs.kms_key_id shared_efs) NONE;
    py_or (SharedEfs.provisioned_throughput shared_efs) NONE;
    if_not_None (SharedEfs.encrypted shared_efs);
    py_or (SharedEfs.throughput_mode shared_efs) NONE;
    NONE;
    NONE ].

Definition is_None (v : pyval) : bool :=
  match v with
  | PNone => true
  | _ => false
  end.

Definition _add_efs_storage (id : string) (shared_efs : SharedEfs.t) : M pyval :=
  let efs_id := SharedEfs.file_system_id shared_efs in
  let new_file_system := is_None efs_id in
  efs_id <-
    (if negb (truthy efs_id) && truthy (SharedEfs.mount_dir shared_efs) then
       add_resource
         (EfsCfnFileSystem id (SharedEfs.encrypted shared_efs) (SharedEfs.kms_key_id shared_efs)
            (SharedEfs.performance_mode shared_efs) (SharedEfs.provisioned_throughput shared_efs)
            (SharedEfs.throughput_mode shared_efs) (SharedEfs.name shared_efs)) ;;
       ret (PStr (Ref id))
     else ret efs_id) ;;
  let checked_availability_zones := @nil string in
  s <- get ;;
  let compute_subnet_ids := ClusterConfig.compute_subnet_ids (config s) in
  compute_node_sgs <- _get_compute_security_groups ;;
  checked_availability_zones <-
    _add_efs_mount_targets id efs_id compute_node_sgs compute_subnet_ids
      checked_availability_zones new_file_system ;;
  s <- get ;;
  _add_efs_mount_target id efs_id compute_node_sgs
    (HeadNodeNetworking.subnet_id (head_networking (config s)))
    checked_availability_zones new_file_system ;;
  modify_storage (set_options EFS (join_str (efs_option_items shared_efs efs_id))) ;;
  ret efs_id.

(** [shared_dir,fsx_fs_id,storage_capacity,fsx_kms_key_id,
    imported_file_chunk_size,export_path,import_path,
    weekly_maintenance_start_time,deployment_type,
    per_unit_storage_throughput,daily_automatic_backup_start_time,
    automatic_backup_retention_days,copy_tags_to_backups,fsx_backup_id,
    auto_import_policy,storage_type,drive_cache_type,existing_mount_name,
    existing_dns_name] *)
Definition fsx_option_items (shared_fsx : SharedFsx.t) (fsx_id : pyval) : list pyval :=
  [ SharedFsx.mount_dir shared_fsx;
    fsx_id;
    py_or (SharedFsx.storage_capacity shared_fsx) NONE;
    py_or (SharedFsx.kms_key_id shared_fsx) NONE;
    py_or (SharedFsx.imported_file_chunk_size shared_fsx) NONE;
    py_or (SharedFsx.export_path shared_fsx) NONE;
    py_or (SharedFsx.import_path shared_fsx) NONE;
    py_or (SharedFsx.weekly_maintenance_start_time shared_fsx) NONE;
    py_or (SharedFsx.deployment_type shared_fsx) NONE;
    py_or (SharedFsx.per_unit_storage_throughput shared_fsx) NONE;
    py_or (SharedFsx.daily_automatic_backup_start_time shared_fsx) NONE;
    py_or (SharedFsx.automatic_backup_retention_days shared_fsx) NONE;
    if_not_None (SharedFsx.copy_tags_to_backups shared_fsx);
    py_or (SharedFsx.backup_id shared_fsx) NONE;
    py_or (SharedFsx.auto_import_policy shared_fsx) NONE;
    py_or (SharedFsx.fsx_storage_type shared_fsx) NONE;
    py_or (SharedFsx.drive_cache_type shared_fsx) NONE;
    SharedFsx.existing_mount_name shared_fsx;
    SharedFsx.existing_dns_name shared_fsx ].

(** [a == b] between a config value and a string literal. *)
Definition eq_str (v : pyval) (lit : string) : bool :=
  match v with
  | PStr s => s =? lit
  | _ => false
  end.

(** Drive cache type must be set for HDD (either "NONE" or "READ"), and must
    not be set for SSD ([None]). *)
Definition fsx_drive_cache_type (shared_fsx : SharedFsx.t) : pyval :=
  if eq_str (SharedFsx.fsx_storage_type shared_fsx) "HDD" then
    if truthy (SharedFsx.drive_cache_type shared_fsx)
    then SharedFsx.drive_cache_type shared_fsx
    else PStr "NONE"
  else PNone.

Definition _add_fsx_storage (id : string) (shared_fsx : SharedFsx.t) : M pyval :=
  let fsx_id := SharedFsx.file_system_id shared_fsx in
  modify_storage (set_attribute FSX "MountName" (SharedFsx.existing_mount_name shared_fsx)) ;;
  modify_storage (set_attribute FSX "DNSName" (SharedFsx.existing_dns_name shared_fsx)) ;;
  fsx_id <-
    (if negb (truthy fsx_id) && truthy (SharedFsx.mount_dir shared_fsx) then
       let drive_cache_type := fsx_drive_cache_type shared_fsx in
       s <- get ;;
       security_group_ids <- _get_compute_security_groups ;;
       add_resource
         (FsxCfnFileSystem id (SharedFsx.storage_capacity shared_fsx)
            {| lustre_deployment_type := SharedFsx.deployment_type shared_fsx;
               lustre_data_compression_type := SharedFsx.data_compression_type shared_fsx;
               lustre_imported_file_chunk_size := SharedFsx.imported_file_chunk_size shared_fsx;
               lustre_export_path := SharedFsx.export_path shared_fsx;
               lustre_import_path := SharedFsx.import_path shared_fsx;
               lustre_weekly_maintenance_start_time :=
                 SharedFsx.weekly_maintenance_start_time shared_fsx;
               lustre_automatic_backup_retention_days :=
                 SharedFsx.automatic_backup_retention_days shared_fsx;
               lustre_copy_tags_to_backups := SharedFsx.copy_tags_to_backups shared_fsx;
               lustre_daily_automatic_backup_start_time :=
                 SharedFsx.daily_automatic_backup_start_time shared_fsx;
               lustre_per_unit_storage_throughput :=
                 SharedFsx.per_unit_storage_throughput shared_fsx;
               lustre_auto_import_policy := SharedFsx.auto_import_policy shared_fsx;
               lustre_drive_cache_type := drive_cache_type |}
            (SharedFsx.backup_id shared_fsx) (SharedFsx.kms_key_id shared_fsx)
            (SharedFsx.fsx_storage_type shared_fsx)
            (ClusterConfig.compute_subnet_ids (config s)) security_group_ids
            (SharedFsx.name shared_fsx)) ;;
       modify_storage (set_attribute FSX "MountName" (PStr (GetAtt id "LustreMountName"))) ;;
       ret (PStr (Ref id))
     else ret fsx_id) ;;
  modify_storage (set_options FSX (join_str (fsx_option_items shared_fsx fsx_id))) ;;
  ret fsx_id.

(** Add the resources of one storage declaration and record its id. *)
Definition _add_shared_storage (storage_decl : SharedStorage) : M unit :=
  s <- get ;;
  let type := shared_storage_type storage_decl in
  let storage_ids_list := shared_storage_mappings (storage s) type in
  let cfn_resource_id := type_name type ++ str_of_nat (List.length storage_ids_list) in
  new_ids <-
    (match storage_decl with
     | StorageFsx shared_fsx =>
         i <- _add_fsx_storage cfn_resource_id shared_fsx ;;
         ret [ {| id := i; storage_config := storage_decl |} ]
     | StorageEbs shared_ebs =>
         i <- _add_ebs_volume cfn_resource_id shared_ebs ;;
         ret [ {| id := i; storage_config := storage_decl |} ]
     | StorageEfs shared_efs =>
         i <- _add_efs_storage cfn_resource_id shared_efs ;;
         ret [ {| id := i; storage_config := storage_decl |} ]
     | StorageRaid shared_ebs raid => _add_raid_volume cfn_resource_id shared_ebs raid
     end) ;;
  s' <- get ;;
  modify_storage
    (set_mappings type (shared_storage_mappings (storage s') type ++ new_ids)).

(** ** Outputs *)

(** [",".join(storage.id for storage in storage_list)]: [str.join] accepts
    strings only. *)
Fixpoint ids_of (storage_list : list StorageInfo) : result (list string) :=
  match storage_list with
  | [] => Ok []
  | info :: rest =>
      match id info with
      | PStr i =>
          match ids_of rest with
          | Ok l => Ok (i :: l)
          | Raise x => Raise x
          end
      | _ => Raise TypeError
      end
  end.

Definition join_ids (storage_list : list StorageInfo) : result string :=
  match ids_of storage_list with
  | Ok l => Ok (join "," l)
  | Raise x => Raise x
  end.

Definition lift {A : Type} (r : result A) : M A :=
  fun _ s =>
    match r with
    | Ok a => Done a s []
    | Raise x => Raised x
    end.

Definition SharedStorageTypes : list SharedStorageType := [EBS; RAID; EFS; FSX].

Definition _add_outputs : M unit :=
  s <- get ;;
  for_each SharedStorageTypes
    (fun storage_type =>
       value <- lift (join_ids (shared_storage_mappings (storage s) storage_type)) ;;
       add_resource
         (CfnOutput (type_name storage_type ++ "Ids")
            (type_name storage_type ++ " Filesystem IDs") value)) ;;
  head_node_instance <-
    (match head_node_instance (attrs s) with
     | Some i => ret i
     | None => raise AttributeError
     end) ;;
  add_resource
    (CfnOutput "HeadNodeInstanceID" "ID of the head node instance" (Ref head_node_instance)) ;;
  add_resource
    (CfnOutput "HeadNodePrivateIP" "Private IP Address of the head node"
       (GetAtt head_node_instance "PrivateIp")) ;;
  add_resource
    (CfnOutput "HeadNodePrivateDnsName" "Private DNS name of the head node"
       (GetAtt head_node_instance "PrivateDnsName")).

(** ** ComputeFleetConstruct

    A construct of its own: its methods add children to the construct, not
    to the stack, and may raise.  They are written over [result], returning
    the children they create. *)

Definition rbind {A B : Type} (r : result A) (k : A -> result B) : result B :=
  match r with
  | Ok a => k a
  | Raise x => Raise x
  end.

Declare Scope result_scope.
Delimit Scope result_scope with result.
Notation "x <- m ;; k" := (rbind m (fun x => k))
  (at level 61, m at next level, right associativity) : result_scope.

(** [d[k]] *)
Definition dict_lookup {V : Type} (k : string) (d : list (string * V)) : result V :=
  match dict_get k d with
  | Some v => Ok v
  | None => Raise (KeyError k)
  end.

(** [l[0]] *)
Definition first {A : Type} (l : list A) : result A :=
  match l with
  | x :: _ => Ok x
  | [] => Raise IndexError
  end.

(** [{**a, **b}] *)
Definition dict_merge {V : Type} (a b : list (string * V)) : list (string * V) :=
  fold_left (fun d kv => dict_set (fst kv) (snd kv) d) b a.

Definition bool_str (b : bool) : pyval := PStr (if b then "true" else "false").

Definition efa_enabled (efa : option Efa.t) : bool :=
  match efa with
  | Some e => Efa.enabled e
  | None => false
  end.

Definition efa_gdr_support (efa : option Efa.t) : bool :=
  match efa with
  | Some e => Efa.gdr_support e
  | None => false
  end.

(** [action.script if action else "NONE"] and
    [join_shell_args(action.args) if action and action.args else "NONE"] *)
Definition action_script (a : option CustomAction.t) : pyval :=
  match a with
  | Some a => PStr (CustomAction.script a)
  | None => NONE
  end.

Definition action_args (u : Utils) (a : option CustomAction.t) : pyval :=
  match a with
  | Some a =>
      if truthy_list (CustomAction.args a)
      then PStr (join_shell_args u (list_or_nil (CustomAction.args a)))
      else NONE
  | None => NONE
  end.

Module ComputeFleetConstruct.

Record t := {
  stack_name : string;
  _config : ClusterConfig.t;
  _log_group : option pyval;
  _cleanup_lambda : string;
  _cleanup_lambda_role : option string;
  _compute_security_group : option string;
  _shared_storage_mappings : SharedStorageType -> list StorageInfo;
  _shared_storage_options : SharedStorageType -> string;
  _shared_storage_attributes : SharedStorageType -> list (string * pyval);
  _compute_node_instance_profiles : list (string * string);
  _cluster_hosted_zone : option string;
  _dynamodb_table : option string
}.

Definition placement_group_enabled (queue : Queue.t) : bool :=
  match QueueNetworking.placement_group (Queue.networking queue) with
  | Some pg => PlacementGroup.enabled pg
  | None => false
  end.

Definition placement_group_id (queue : Queue.t) : pyval :=
  match QueueNetworking.placement_group (Queue.networking queue) with
  | Some pg => PlacementGroup.id pg
  | None => PNone
  end.

(** Returns [managed_placement_groups] (queue name to logical id) and the
    placement groups created. *)
Fixpoint _add_placement_groups (u : Utils) (queues : list Queue.t)
    (managed_placement_groups : list (string * string))
  : list (string * string) * list resource :=
  match queues with
  | [] => (managed_placement_groups, [])
  | queue :: rest =>
      if placement_group_enabled queue && negb (truthy (placement_group_id queue)) then
        let logical_id := "PlacementGroup" ++ create_hash_suffix u (Queue.name queue) in
        let '(d, rs) :=
          _add_placement_groups u rest
            (dict_set (Queue.name queue) logical_id managed_placement_groups) in
        (d, CfnPlacementGroup logical_id "cluster" :: rs)
      else _add_placement_groups u rest managed_placement_groups
  end.

Definition efa_interface_type (compute_resource : ComputeResource.t) : option string :=
  if efa_enabled (ComputeResource.efa compute_resource) then Some "efa" else None.

(** The network interfaces of a compute resource's launch template: the
    primary one, then one per [device_index in range(1,
    max_network_interface_count)]. *)
Definition compute_lt_nw_interfaces (queue : Queue.t) (compute_resource : ComputeResource.t)
    (queue_lt_security_groups : list string) : result (list NetworkInterfaceProperty) :=
  (subnet_id <- first (QueueNetworking.subnet_ids (Queue.networking queue)) ;;
   Ok ({| device_index := 0;
          network_card_index := None;
          network_interface_id := None;
          associate_public_ip_address :=
            if (ComputeResource.max_network_interface_count compute_resource =? 1)%nat
            then QueueNetworking.assign_public_ip (Queue.networking queue)
            else PNone;
          interface_type := efa_interface_type compute_resource;
          groups := Some queue_lt_security_groups;
          nic_subnet_id := Some subnet_id |}
       :: map (fun device_index =>
                 {| device_index := device_index;
                    network_card_index := Some device_index;
                    network_interface_id := None;
                    associate_public_ip_address := PNone;
                    interface_type := efa_interface_type compute_resource;
                    groups := Some queue_lt_security_groups;
                    nic_subnet_id := Some subnet_id |})
            (seq 1 (ComputeResource.max_network_interface_count compute_resource - 1))))%result.

Definition instance_market_options (queue : Queue.t) (compute_resource : ComputeResource.t)
  : option SpotOptionsProperty :=
  match Queue.capacity_type queue with
  | SPOT =>
      Some {| spot_instance_type := "one-time";
              instance_interruption_behavior := "terminate";
              max_price :=
                match ComputeResource.spot_price compute_resource with
                | PNone => None
                | p => Some (str p)
                end |}
  | ONDEMAND => None
  end.

(** The substitutions of the compute node's user data. *)
Definition compute_user_data_env (u : Utils) (self : t) (queue : Queue.t)
    (compute_resource : ComputeResource.t)
    (queue_pre_install_action queue_post_install_action : option CustomAction.t)
  : result (list (string * pyval)) :=
  (let ids := get_shared_storage_ids_by_type u (_shared_storage_mappings self) in
   let options := get_shared_storage_options_by_type u (_shared_storage_options self) in
   efs_id <- ids EFS ;;
   fsx_id <- ids FSX ;;
   log_group_name <-
     (if ClusterConfig.cloud_watch_enabled (_config self)
      then match _log_group self with
           | Some n => Ok n
           | None => Raise AttributeError
           end
      else Ok NONE) ;;
   Ok (dict_merge
         [ ("EnableEfa",
             if efa_enabled (ComputeResource.efa compute_resource) then PStr "efa" else NONE);
           ("RAIDOptions", options RAID);
           ("DisableHyperThreadingManually",
             bool_str (ComputeResource.disable_simultaneous_multithreading_manually
                         compute_resource));
           ("BaseOS", PStr (ClusterConfig.os (_config self)));
           ("PreInstallScript", action_script queue_pre_install_action);
           ("PreInstallArgs", action_args u queue_pre_install_action);
           ("PostInstallScript", action_script queue_post_install_action);
           ("PostInstallArgs", action_args u queue_post_install_action);
           ("EFSId", efs_id);
           ("EFSOptions", options EFS);
           ("FSXId", fsx_id);
           ("FSXMountName",
             dict_get_default "MountName" (PStr "") (_shared_storage_attributes self FSX));
           ("FSXDNSName",
             dict_get_default "DNSName" (PStr "") (_shared_storage_attributes self FSX));
           ("FSXOptions", options FSX);
           ("Scheduler", PStr (ClusterConfig.scheduler (_config self)));
           ("EphemeralDir",
             match Queue.ephemeral_volume_mount_dir queue with
             | Some d => PStr d
             | None => PStr "/scratch"
             end);
           ("EbsSharedDirs", options EBS);
           ("ClusterDNSDomain",
             match _cluster_hosted_zone self with
             | Some z => PStr (GetAtt z "Name")
             | None => PStr ""
             end);
           ("ClusterHostedZone",
             match _cluster_hosted_zone self with
             | Some z => PStr (Ref z)
             | None => PStr ""
             end);
           ("OSUser", PStr (OS_MAPPING_user u (ClusterConfig.os (_config self))));
           ("DynamoDBTable",
             match _dynamodb_table self with
             | Some t => PStr (Ref t)
             | None => NONE
             end);
           ("LogGroupName", log_group_name);
           ("IntelHPCPlatform", bool_str (ClusterConfig.is_intel_hpc_platform_enabled (_config self)));
           ("CWLoggingEnabled", bool_str (ClusterConfig.is_cw_logging_enabled (_config self)));
           ("QueueName", PStr (Queue.name queue));
           ("ComputeResourceName", PStr (ComputeResource.name compute_resource));
           ("EnableEfaGdr",
             if efa_gdr_support (ComputeResource.efa compute_resource)
             then PStr "compute" else NONE);
           ("CustomNodePackage", py_or (ClusterConfig.custom_node_package (_config self)) (PStr ""));
           ("CustomAwsBatchCliPackage",
             py_or (ClusterConfig.custom_aws_batch_cli_package (_config self)) (PStr ""));
           ("ExtraJson", PStr (ClusterConfig.extra_chef_attributes (_config self))) ]
         (get_common_user_data_env_queue u queue (_config self))))%result.

Definition _add_compute_resource_launch_template (u : Utils) (self : t) (queue : Queue.t)
    (compute_resource : ComputeResource.t)
    (queue_pre_install_action queue_post_install_action : option CustomAction.t)
    (queue_lt_security_groups : list string) (queue_placement_group : pyval)
    (instance_profiles : list (string * string)) : result resource :=
  (interfaces <- compute_lt_nw_interfaces queue compute_resource queue_lt_security_groups ;;
   image_id <- dict_lookup (Queue.name queue) (ClusterConfig.image_dict (_config self)) ;;
   instance_profile <- dict_lookup (Queue.name queue) instance_profiles ;;
   env <- compute_user_data_env u self queue compute_resource
            queue_pre_install_action queue_post_install_action ;;
   Ok (CfnLaunchTemplate
         ("LaunchTemplate"
            ++ create_hash_suffix u
                 (Queue.name queue ++ ComputeResource.instance_type compute_resource))
         (Some (stack_name self ++ "-" ++ Queue.name queue ++ "-"
                  ++ ComputeResource.instance_type compute_resource))
         {| lt_instance_type := ComputeResource.instance_type compute_resource;
            lt_cpu_options :=
              if ComputeResource.pass_cpu_options_in_launch_template compute_resource
              then Some (ComputeResource.vcpus compute_resource) else None;
            lt_key_name := PNone;
            lt_network_interfaces := interfaces;
            lt_placement_group_name := Some queue_placement_group;
            lt_image_id := image_id;
            lt_ebs_optimized := ComputeResource.is_ebs_optimized compute_resource;
            lt_iam_instance_profile := instance_profile;
            lt_instance_market_options := instance_market_options queue compute_resource;
            lt_user_data :=
              (get_user_data_content u "../resources/compute_node/user_data.sh", env) |}
         []))%result.

Definition resource_id (r : resource) : string :=
  match r with
  | CfnParameter rid _ | CfnLogGroup rid _ | CfnSecurityGroup rid _ _ _
  | CfnSecurityGroupIngress rid _ _ _ _ _ | CfnSecurityGroupEgress rid _ _ _ _ _ _ _
  | CfnNetworkInterface rid _ _ | CfnEIP rid | CfnEIPAssociation rid _ _ | CfnStack rid _
  | FsxCfnFileSystem rid _ _ _ _ _ _ _ _ | EfsCfnFileSystem rid _ _ _ _ _ _
  | CfnMountTarget rid _ _ _ | CfnVolume rid _ _ _ _ _ _ _ _ _ _ | CfnWaitConditionHandle rid
  | CfnWaitCondition rid _ _ _ | CfnLaunchTemplate rid _ _ _ | CfnInstance rid _ _ _
  | CfnPlacementGroup rid _ | CfnCustomResource rid _ _ _ | CfnOutput rid _ _
  | CfnHostedZone rid | CfnTable rid | CfnComputeEnvironment rid | CfnJobQueue rid
  | Construct rid _ => rid
  end.

(** The inner loop of [_add_launch_templates]: one launch template per
    compute resource of the queue. *)
Fixpoint _add_queue_launch_templates (u : Utils) (self : t) (queue : Queue.t)
    (compute_resources : list ComputeResource.t)
    (queue_lt_security_groups : list string) (queue_placement_group : pyval)
    (instance_profiles : list (string * string)) (templates : list (string * string))
  : result (list (string * string) * list resource) :=
  match compute_resources with
  | [] => Ok (templates, [])
  | compute_resource :: rest =>
      (let actions := Queue.custom_actions queue in
       launch_template <-
         _add_compute_resource_launch_template u self queue compute_resource
           (match actions with Some a => CustomActions.on_node_start a | None => None end)
           (match actions with Some a => CustomActions.on_node_configured a | None => None end)
           queue_lt_security_groups queue_placement_group instance_profiles ;;
       r <- _add_queue_launch_templates u self queue rest queue_lt_security_groups
              queue_placement_group instance_profiles
              (dict_set (ComputeResource.name compute_resource) (resource_id launch_template)
                 templates) ;;
       Ok (fst r, launch_template :: snd r))%result
  end.

Fixpoint _add_launch_templates (u : Utils) (self : t) (queues : list Queue.t)
    (managed_placement_groups instance_profiles : list (string * string))
    (compute_launch_templates : list (string * list (string * string)))
  : result (list (string * list (string * string)) * list resource) :=
  match queues with
  | [] => Ok (compute_launch_templates, [])
  | queue :: rest =>
      (let queue_lt_security_groups :=
         get_queue_security_groups_full u (_compute_security_group self) queue in
       queue_placement_group <-
         (if placement_group_enabled queue then
            if truthy (placement_group_id queue) then Ok (placement_group_id queue)
            else g <- dict_lookup (Queue.name queue) managed_placement_groups ;; Ok (PStr (Ref g))
          else Ok PNone) ;;
       q <- _add_queue_launch_templates u self queue (Queue.compute_resources queue)
              queue_lt_security_groups queue_placement_group instance_profiles [] ;;
       r <- _add_launch_templates u self rest managed_placement_groups instance_profiles
              (dict_set (Queue.name queue) (fst q) compute_launch_templates) ;;
       Ok (fst r, snd q ++ snd r)%list)%result
  end.

Definition _add_cleanup_custom_resource (self : t) (dependencies : list string) : list resource :=
  [ CfnCustomResource "TerminateComputeFleetCustomResource"
      (GetAtt (_cleanup_lambda self) "Arn")
      [("StackName", stack_name self); ("Action", "TERMINATE_EC2_INSTANCES")]
      dependencies ].

(** [ComputeFleetConstruct.__init__]: the construct's children and its
    [compute_launch_templates]. *)
Definition _add_resources (u : Utils) (self : t)
  : result (list (string * list (string * string)) * list resource) :=
  (let '(managed_placement_groups, placement_groups) :=
     _add_placement_groups u (ClusterConfig.queues (_config self)) [] in
   lt <- _add_launch_templates u self (ClusterConfig.queues (_config self))
           managed_placement_groups (_compute_node_instance_profiles self) [] ;;
   let custom_resource_deps :=
     (map snd managed_placement_groups
        ++ match _compute_security_group self with
           | Some sg => [sg]
           | None => []
           end)%list in
   Ok (fst lt,
       (placement_groups ++ snd lt ++ _add_cleanup_custom_resource self custom_resource_deps)%list)
  )%result.

End ComputeFleetConstruct.

(** ** Scheduler constructs *)

(** Modelled from the spec: [SlurmConstruct] (pcluster.templates.slurm_builder)
    is outside this module; the managed scheduler "adds a private DNS zone
    and a durable state table used by the compute-fleet control loop". *)
Definition SlurmConstruct (construct_id : string) : resource * SchedulerResources :=
  (Construct construct_id [CfnHostedZone "ClusterHostedZone"; CfnTable "DynamoDBTable"],
   SlurmResources (Some "ClusterHostedZone") "DynamoDBTable").

(** Modelled from the spec: [AwsBatchConstruct]
    (pcluster.templates.awsbatch_builder) is outside this module;
    managed-batch "adds a compute-environment/job-queue pair". *)
Definition AwsBatchConstruct (construct_id : string) : resource * SchedulerResources :=
  (Construct construct_id [CfnComputeEnvironment "ComputeEnvironment"; CfnJobQueue "JobQueue"],
   AwsBatchResources).

(** ** Wait condition and BYOS substack *)

(** [self.timestamp] is assigned once, by the constructor, and read here
    only: it is passed as an argument. *)
Definition _add_wait_condition (timestamp : string) : M string :=
  let handle := "HeadNodeWaitConditionHandle" ++ timestamp in
  add_resource (CfnWaitConditionHandle handle) ;;
  add_resource (CfnWaitCondition ("HeadNodeWaitCondition" ++ timestamp) 1 (Ref handle) "1800") ;;
  ret handle.

Definition _add_byos_substack : M unit :=
  e <- ask ;; s <- get ;;
  set_attrs (attrs_with_byos_stack None) ;;
  is_byos <- _condition_is_byos ;;
  if negb is_byos || negb (truthy (ClusterConfig.byos_template (config s))) then ret tt
  else
    add_resource (CfnStack "ByosStack" (PStr (byos_template_url (utils e)))) ;;
    set_attrs (attrs_with_byos_stack (Some "ByosStack")).

(** ** Head node *)

Definition to_lower (c : ascii) : ascii :=
  let n := nat_of_ascii c in
  if ((65 <=? n) && (n <=? 90))%nat then ascii_of_nat (n + 32) else c.

(** [s.lower()] *)
Fixpoint lower (s : string) : string :=
  match s with
  | EmptyString => EmptyString
  | String c s' => String (to_lower c) (lower s')
  end.

Definition region : string := Ref "AWS::Region".
Definition stack_id : string := Ref "AWS::StackId".

Definition _get_launch_templates_config : M doc :=
  s <- get ;;
  match compute_fleet_resources (attrs s) with
  | None => ret (DVal PNone)
  | Some fleet =>
      ret (DDict
             [("Queues",
                DDict
                  (map (fun q =>
                          (fst q,
                           DDict
                             [("ComputeResources",
                                DDict
                                  (map (fun cr =>
                                          (fst cr,
                                           DDict
                                             [("LaunchTemplate",
                                                DDict
                                                  [("Id", DS (Ref (snd cr)));
                                                   ("Version",
                                                     DS (GetAtt (snd cr) "LatestVersionNumber"))])]))
                                     (snd q)))]))
                     (compute_launch_templates fleet)))])
  end.

Definition file (content : doc) (mode : string) : doc :=
  DDict [("mode", DS mode); ("owner", DS "root"); ("group", DS "root"); ("content", content)].

Definition Fn_sub (body : string) (variables : list (string * doc)) : doc :=
  DDict [("Fn::Sub", DList [DS body; DDict variables])].

(** The double-quote and newline characters, for the texts that contain
    them. *)
Definition dquote : string := String (ascii_of_nat 34) EmptyString.
Definition nl : string := String (ascii_of_nat 10) EmptyString.

(** The content of /tmp/dna.json. *)
Definition dna_json : M doc :=
  e <- ask ;; s <- get ;;
  let c := config s in
  let head_node := ClusterConfig.head_node c in
  let u := utils e in
  let ids := get_shared_storage_ids_by_type u (shared_storage_mappings (storage s)) in
  let options := get_shared_storage_options_by_type u (shared_storage_options (storage s)) in
  let actions := HeadNode.custom_actions head_node in
  let pre_install_action :=
    match actions with Some a => CustomActions.on_node_start a | None => None end in
  let post_install_action :=
    match actions with Some a => CustomActions.on_node_configured a | None => None end in
  raid_vol_ids <- lift (ids RAID) ;;
  efs_fs_id <- lift (ids EFS) ;;
  fsx_fs_id <- lift (ids FSX) ;;
  volume <- lift (ids EBS) ;;
  is_slurm <- _condition_is_slurm ;;
  hosted_zone <-
    (if is_slurm then
       match scheduler_resources (attrs s) with
       | Some (SlurmResources z _) => ret z
       | _ => raise AttributeError
       end
     else ret None) ;;
  ddb_table <-
    (if is_slurm then
       match scheduler_resources (attrs s) with
       | Some (SlurmResources _ t) => ret (PStr (Ref t))
       | _ => raise AttributeError
       end
     else ret NONE) ;;
  log_group_name <-
    (if ClusterConfig.cloud_watch_enabled c then
       match log_group (attrs s) with
       | Some _ => ret (log_group_name s)
       | None => raise AttributeError
       end
     else ret NONE) ;;
  ret (DJson (DDict
    [("cluster", DDict
       [("stack_name", DS (arg_stack_name e));
        ("stack_arn", DS stack_id);
        ("byos_substack_arn",
          DS (match byos_stack (attrs s) with Some b => Ref b | None => "" end));
        ("raid_vol_ids", DVal raid_vol_ids);
        ("raid_parameters", DVal (options RAID));
        ("disable_hyperthreading_manually",
          DVal (bool_str (HeadNode.disable_simultaneous_multithreading_manually head_node)));
        ("base_os", DS (ClusterConfig.os c));
        ("preinstall", DVal (action_script pre_install_action));
        ("preinstall_args", DVal (action_args u pre_install_action));
        ("postinstall", DVal (action_script post_install_action));
        ("postinstall_args", DVal (action_args u post_install_action));
        ("region", DS region);
        ("efs_fs_id", DVal efs_fs_id);
        ("efs_shared_dir", DVal (options EFS));
        ("fsx_fs_id", DVal fsx_fs_id);
        ("fsx_mount_name",
          DVal (dict_get_default "MountName" (PStr "") (shared_storage_attributes (storage s) FSX)));
        ("fsx_dns_name",
          DVal (dict_get_default "DNSName" (PStr "") (shared_storage_attributes (storage s) FSX)));
        ("fsx_options", DVal (options FSX));
        ("volume", DVal volume);
        ("scheduler", DS (ClusterConfig.scheduler c));
        ("ephemeral_dir",
          DS (match HeadNode.ephemeral_volume_mount_dir head_node with
              | Some d => d
              | None => "/scratch"
              end));
        ("ebs_shared_dirs", DVal (options EBS));
        ("proxy",
          DS (match HeadNodeNetworking.proxy (HeadNode.networking head_node) with
              | Some p => p
              | None => "NONE"
              end));
        ("dns_domain", DS (match hosted_zone with Some z => GetAtt z "Name" | None => "" end));
        ("hosted_zone", DS (match hosted_zone with Some z => Ref z | None => "" end));
        ("node_type", DS "HeadNode");
        ("cluster_user", DS (OS_MAPPING_user u (ClusterConfig.os c)));
        ("ddb_table", DVal ddb_table);
        ("log_group_name", DVal log_group_name);
        ("dcv_enabled", DS (if ClusterConfig.is_dcv_enabled c then "head_node" else "false"));
        ("dcv_port",
          DVal (match HeadNode.dcv head_node with
                | Some d => PInt (Dcv.port d)
                | None => NONE
                end));
        ("enable_intel_hpc_platform",
          DVal (bool_str (ClusterConfig.is_intel_hpc_platform_enabled c)));
        ("cw_logging_enabled", DVal (bool_str (ClusterConfig.is_cw_logging_enabled c)));
        ("cluster_s3_bucket", DS (S3Bucket.name (bucket e)));
        ("cluster_config_s3_key",
          DS (S3Bucket.artifact_directory (bucket e) ++ "/configs/"
                ++ str (artifacts_config_name u)));
        ("cluster_config_version", DS (ClusterConfig.config_version c));
        ("instance_types_data_s3_key",
          DS (S3Bucket.artifact_directory (bucket e) ++ "/configs/instance-types-data.json"));
        ("custom_node_package", DVal (py_or (ClusterConfig.custom_node_package c) (PStr "")));
        ("custom_awsbatchcli_package",
          DVal (py_or (ClusterConfig.custom_aws_batch_cli_package c) (PStr "")));
        ("head_node_imds_secured", DS (lower (str (HeadNode.imds_secured head_node))))]);
     ("run_list",
       DS ("recipe[aws-parallelcluster::" ++ ClusterConfig.scheduler c ++ "_config]"))])).

(** The [AWS::CloudFormation::Init] metadata of the head node's launch
    template. *)
Definition cfn_init_doc (stack_name extra_chef_attributes handle_ref : string) (dna : doc)
    (launch_templates_config : option doc) : doc :=
  let chef := "chef-client --local-mode --config /etc/chef/client.rb --log_level info "
                ++ "--logfile /var/log/chef-client.log --force-formatter --no-color "
                ++ "--chef-zero-port 8889 --json-attributes /etc/chef/dna.json" in
  let chef_in cwd_commands := DDict [("commands", DDict cwd_commands)] in
  let chef_cmd command := DDict [("command", DS command); ("cwd", DS "/etc/chef")] in
  DDict
    [("configSets", DDict
       [("deployFiles", DList [DS "deployConfigFiles"]);
        ("default",
          DList [DS "cfnHupConfig"; DS "chefPrepEnv"; DS "shellRunPreInstall"; DS "chefConfig";
                 DS "shellRunPostInstall"; DS "chefFinalize"]);
        ("update", DList [DS "deployConfigFiles"; DS "chefUpdate"; DS "sendSignal"])]);
     ("deployConfigFiles", DDict
       [("files", DDict
          ([("/tmp/dna.json",
              DDict [("content", dna); ("mode", DS "000644"); ("owner", DS "root");
                     ("group", DS "root"); ("encoding", DS "plain")]);
            ("/etc/chef/client.rb", file (DS "cookbook_path ['/etc/chef/cookbooks']") "000644");
            ("/tmp/extra.json", file (DS extra_chef_attributes) "000644");
            ("/tmp/wait_condition_handle.txt", file (DS handle_ref) "000644")]
           ++ match launch_templates_config with
              | Some content =>
                  [("/opt/parallelcluster/shared/launch_templates_config.json",
                     file content "000644")]
              | None => []
              end));
        ("commands", DDict
          [("mkdir", DDict [("command", DS "mkdir -p /etc/chef/ohai/hints")]);
           ("touch", DDict [("command", DS "touch /etc/chef/ohai/hints/ec2.json")]);
           ("jq", DDict
             [("command",
                DS ("jq --argfile f1 /tmp/dna.json --argfile f2 /tmp/extra.json -n '$f1 + $f2 "
                      ++ "| .cluster = $f1.cluster + $f2.cluster' > /etc/chef/dna.json "
                      ++ "|| ( echo " ++ dquote ++ "jq not installed" ++ dquote
                      ++ "; cp /tmp/dna.json /etc/chef/dna.json )"))])])]);
     ("cfnHupConfig", DDict
       [("files", DDict
          [("/etc/cfn/hooks.d/parallelcluster-update.conf",
             DDict
               [("content",
                  Fn_sub
                    ("[parallelcluster-update]" ++ nl ++ "triggers=post.update" ++ nl
                       ++ "path=Resources.HeadNodeLaunchTemplate.Metadata.AWS::CloudFormation::Init"
                       ++ nl
                       ++ "action=PATH=/usr/local/bin:/bin:/usr/bin:/opt/aws/bin; "
                       ++ "cfn-init -v --stack ${StackName} "
                       ++ "--resource HeadNodeLaunchTemplate --configsets update --region ${Region}"
                       ++ nl ++ "runas=root" ++ nl)
                    [("StackName", DS stack_name); ("Region", DS region)]);
                ("mode", DS "000400"); ("owner", DS "root"); ("group", DS "root")]);
           ("/etc/cfn/cfn-hup.conf",
             DDict
               [("content",
                  Fn_sub
                    ("[main]" ++ nl ++ "stack=${StackId}" ++ nl ++ "region=${Region}" ++ nl
                       ++ "interval=2")
                    [("StackId", DS stack_id); ("Region", DS region)]);
                ("mode", DS "000400"); ("owner", DS "root"); ("group", DS "root")])])]);
     ("chefPrepEnv",
       chef_in [("chef", chef_cmd (chef ++ " --override-runlist aws-parallelcluster::prep_env"))]);
     ("shellRunPreInstall", DDict
       [("commands", DDict
          [("runpreinstall",
             DDict [("command", DS "/opt/parallelcluster/scripts/fetch_and_run -preinstall")])])]);
     ("chefConfig", chef_in [("chef", chef_cmd chef)]);
     ("shellRunPostInstall", DDict
       [("commands", DDict
          [("runpostinstall",
             DDict [("command", DS "/opt/parallelcluster/scripts/fetch_and_run -postinstall")])])]);
     ("chefFinalize",
       chef_in
         [("chef", chef_cmd (chef ++ " --override-runlist aws-parallelcluster::finalize"));
          ("bootstrap", DDict
            [("command",
               DS ("[ ! -f /opt/parallelcluster/.bootstrapped ] && echo ${cookbook_version} "
                     ++ "| tee /opt/parallelcluster/.bootstrapped || exit 0"))])]);
     ("chefUpdate",
       chef_in
         [("chef",
            chef_cmd (chef ++ " --override-runlist aws-parallelcluster::update_head_node || "
                        ++ "cfn-signal --exit-code=1 --reason='Chef client failed' "
                        ++ "'" ++ handle_ref ++ "'"))]);
     ("sendSignal", DDict
       [("commands", DDict
          [("sendSignal",
             DDict
               [("command",
                  DS ("cfn-signal --exit-code=0 --reason='HeadNode setup complete' "
                        ++ "'" ++ handle_ref ++ "'"))])])])].

Definition cfn_init (dna : doc) (launch_templates_config : option doc) : M doc :=
  e <- ask ;; s <- get ;;
  handle_ref <- ref_of (wait_condition_handle (attrs s)) ;;
  ret (cfn_init_doc (arg_stack_name e) (ClusterConfig.extra_chef_attributes (config s))
         handle_ref dna launch_templates_config).

Definition _add_head_node : M string :=
  head_lt_security_groups <- _get_head_node_security_groups_full ;;
  e <- ask ;; s <- get ;;
  let head_node := ClusterConfig.head_node (config s) in
  head_eni_ref <- ref_of (_head_eni (attrs s)) ;;
  groups_now <- list_read head_lt_security_groups ;;
  let head_lt_nw_interfaces :=
    {| device_index := 0; network_card_index := None;
       network_interface_id := Some head_eni_ref;
       associate_public_ip_address := PNone; interface_type := None;
       groups := None; nic_subnet_id := None |}
    :: map (fun device_index =>
              {| device_index := device_index; network_card_index := Some device_index;
                 network_interface_id := None;
                 associate_public_ip_address := PNone; interface_type := None;
                 groups := Some groups_now;
                 nic_subnet_id := Some (HeadNodeNetworking.subnet_id (HeadNode.networking head_node)) |})
         (seq 1 (HeadNode.max_network_interface_count head_node - 1)) in
  let launch_template_data :=
    {| lt_instance_type := HeadNode.instance_type head_node;
       lt_cpu_options :=
         if HeadNode.pass_cpu_options_in_launch_template head_node
         then Some (HeadNode.vcpus head_node) else None;
       lt_key_name := Ssh.key_name (HeadNode.ssh head_node);
       lt_network_interfaces := head_lt_nw_interfaces;
       lt_placement_group_name := None;
       lt_image_id := ClusterConfig.head_node_ami (config s);
       lt_ebs_optimized := HeadNode.is_ebs_optimized head_node;
       lt_iam_instance_profile := _head_node_instance_profile (attrs s);
       lt_instance_market_options := None;
       lt_user_data :=
         (get_user_data_content (utils e) "../resources/head_node/user_data.sh",
          dict_merge [] (get_common_user_data_env_head (utils e) (config s))) |} in
  dna <- dna_json ;;
  is_batch <- _condition_is_batch ;;
  launch_templates_config <-
    (if negb is_batch then c <- _get_launch_templates_config ;; ret (Some c) else ret None) ;;
  init <- cfn_init dna launch_templates_config ;;
  add_resource
    (CfnLaunchTemplate "HeadNodeLaunchTemplate" None launch_template_data
       [("Comment", DS "AWS ParallelCluster Head Node"); ("AWS::CloudFormation::Init", init)]) ;;
  fleet_dependency <-
    (if negb is_batch then
       match compute_fleet_resources (attrs s) with
       | Some fleet => ret [fleet_id fleet]
       | None => raise AttributeError
       end
     else ret []) ;;
  is_byos <- _condition_is_byos ;;
  let byos_dependency :=
    match byos_stack (attrs s) with
    | Some b => if is_byos then [b] else []
    | None => []
    end in
  add_resource
    (CfnInstance "HeadNode" (Ref "HeadNodeLaunchTemplate")
       (GetAtt "HeadNodeLaunchTemplate" "LatestVersionNumber")
       (fleet_dependency ++ byos_dependency)) ;;
  ret "HeadNode".

(** ** Resources *)

Definition _add_compute_fleet (cleanup_lambda_role : option string) (cleanup_lambda : string)
  : M unit :=
  e <- ask ;; s <- get ;;
  let self :=
    {| ComputeFleetConstruct.stack_name := cdk_stack_name e;
       ComputeFleetConstruct._config := config s;
       ComputeFleetConstruct._log_group :=
         match log_group (attrs s) with
         | Some _ => Some (log_group_name s)
         | None => None
         end;
       ComputeFleetConstruct._cleanup_lambda := cleanup_lambda;
       ComputeFleetConstruct._cleanup_lambda_role := cleanup_lambda_role;
       ComputeFleetConstruct._compute_security_group := _compute_security_group (attrs s);
       ComputeFleetConstruct._shared_storage_mappings := shared_storage_mappings (storage s);
       ComputeFleetConstruct._shared_storage_options := shared_storage_options (storage s);
       ComputeFleetConstruct._shared_storage_attributes := shared_storage_attributes (storage s);
       ComputeFleetConstruct._compute_node_instance_profiles := _compute_instance_profiles (attrs s);
       ComputeFleetConstruct._cluster_hosted_zone :=
         match scheduler_resources (attrs s) with
         | Some (SlurmResources z _) => z
         | _ => None
         end;
       ComputeFleetConstruct._dynamodb_table :=
         match scheduler_resources (attrs s) with
         | Some (SlurmResources _ t) => Some t
         | _ => None
         end |} in
  built <- lift (ComputeFleetConstruct._add_resources (utils e) self) ;;
  add_resource (Construct "ComputeFleet" (snd built)) ;;
  set_attrs (attrs_with_compute_fleet_resources
               (Some {| fleet_id := "ComputeFleet"; compute_launch_templates := fst built |})).

Definition _add_resources (timestamp : string) : M unit :=
  s <- get ;;
  set_attrs (attrs_with_log_group None) ;;
  (if ClusterConfig.is_cw_logging_enabled (config s)
   then lg <- _add_cluster_log_group ;; set_attrs (attrs_with_log_group (Some lg))
   else ret tt) ;;
  _add_iam_resources ;;
  sgs <- _add_security_groups ;;
  set_attrs (attrs_with_security_groups (fst sgs) (snd sgs)) ;;
  eni <- _add_head_eni ;;
  set_attrs (attrs_with_head_eni (Some eni)) ;;
  s <- get ;;
  when (truthy (ClusterConfig.additional_resources (config s)))
    (add_resource (CfnStack "AdditionalCfnStack" (ClusterConfig.additional_resources (config s)))) ;;
  cleanup <- _add_cleanup_resources_lambda ;;
  let cleanup_lambda_role := fst cleanup in
  let cleanup_lambda := snd cleanup in
  (if truthy_list (ClusterConfig.shared_storage (config s))
   then for_each (list_or_nil (ClusterConfig.shared_storage (config s))) _add_shared_storage
   else ret tt) ;;
  set_attrs (attrs_with_scheduler_resources None) ;;
  is_slurm <- _condition_is_slurm ;;
  (if is_slurm then
     let '(construct, exposed) := SlurmConstruct "Slurm" in
     add_resource construct ;;
     set_attrs (attrs_with_scheduler_resources (Some exposed))
   else ret tt) ;;
  set_attrs (attrs_with_compute_fleet_resources None) ;;
  is_batch <- _condition_is_batch ;;
  (if negb is_batch then _add_compute_fleet cleanup_lambda_role cleanup_lambda else ret tt) ;;
  _add_byos_substack ;;
  handle <- _add_wait_condition timestamp ;;
  set_attrs (attrs_with_wait_condition_handle (Some handle)) ;;
  head <- _add_head_node ;;
  set_attrs (attrs_with_head_node_instance (Some head)) ;;
  (if is_batch then
     let '(construct, exposed) := AwsBatchConstruct "AwsBatch" in
     add_resource construct ;;
     set_attrs (attrs_with_scheduler_resources (Some exposed))
   else ret tt) ;;
  s <- get ;;
  when (ClusterConfig.is_cw_dashboard_enabled (config s))
    (add_resource (Construct "PclusterDashboard" [])).

(** ** The constructor *)

(** [clock n] is what the n-th call of [datetime.utcnow()] of the run
    returns. *)
Definition __init__ (clock : nat -> datetime) : M unit :=
  e <- ask ;;
  let timestamp := strftime_seconds (clock 0) in
  s <- get ;;
  (if ClusterConfig.is_cw_logging_enabled (config s) then
     if truthy (arg_log_group_name e)
     then modify (with_log_group_name (arg_log_group_name e))
     else
       let timestamp := strftime_minutes (clock 1) in
       modify (with_log_group_name
                 (PStr (CW_LOG_GROUP_NAME_PREFIX (utils e) ++ cdk_stack_name e ++ "-" ++ timestamp)))
   else ret tt) ;;
  _add_parameters ;;
  _add_resources timestamp ;;
  _add_outputs.

Definition empty_storage : Storage :=
  {| shared_storage_mappings := fun _ => [];
     shared_storage_options := fun _ => "";
     shared_storage_attributes := fun _ => [] |}.

Definition empty_attrs : Attrs :=
  {| log_group := None; _head_node_instance_profile := "";
     _compute_instance_profiles := [];
     _head_security_group := None; _compute_security_group := None;
     _head_eni := None; scheduler_resources := None; compute_fleet_resources := None;
     byos_stack := None; wait_condition_handle := None; head_node_instance := None |}.

(** The object before [__init__] runs. *)
Definition new_stack (cluster_config : ClusterConfig.t) : stack :=
  {| config := cluster_config; log_group_name := PNone;
     storage := empty_storage; attrs := empty_attrs |}.

(** [ClusterCdkStack(scope, construct_id, stack_name, cluster_config, bucket,
    log_group_name)]: the object after synthesis with the trace of the run,
    or the exception raised. *)
Definition ClusterCdkStack (e : Env) (clock : nat -> datetime) (cluster_config : ClusterConfig.t)
  : outcome unit :=
  __init__ clock e (new_stack cluster_config).

(** * Sample inputs

    Concrete collaborators and configurations on which the model is run. *)

Module Sample.

(** Stand-ins for the helpers of [cdk_builder_utils]: the ids and the
    options of a storage type are its recorded ids and its option string, or
    "NONE" when there is none. *)
Definition helpers : Utils :=
  {| OS_MAPPING_user := fun _ => "ec2-user";
     CW_LOG_GROUP_NAME_PREFIX := "/aws/parallelcluster/";
     CW_LOGS_CFN_PARAM_NAME := "ClusterCWLogGroup";
     artifacts_config_name := PStr "cluster-config.yaml";
     byos_template_url := "https://bucket.s3.amazonaws.com/templates/byos-substack.cfn";
     create_hash_suffix := fun s => s;
     join_shell_args := join " ";
     get_user_data_content := fun path => path;
     get_common_user_data_env_head := fun _ => [];
     get_common_user_data_env_queue := fun _ _ => [];
     get_shared_storage_ids_by_type :=
       fun mappings t =>
         match mappings t with
         | [] => Ok NONE
         | l => match join_ids l with
                | Ok ids => Ok (PStr ids)
                | Raise x => Raise x
                end
         end;
     get_shared_storage_options_by_type :=
       fun options t => if truthy (PStr (options t)) then PStr (options t) else NONE;
     get_queue_security_groups_full :=
       fun sg queue =>
         (match QueueNetworking.security_groups (Queue.networking queue), sg with
          | Some (g :: gs), _ => g :: gs
          | _, Some sg => [Ref sg]
          | _, None => []
          end
          ++ list_or_nil (QueueNetworking.additional_security_groups (Queue.networking queue)))%list
  |}.

(** subnet-a and subnet-b lie in one zone, subnet-c in another; the file
    system fs-1 already has a mount target in the first zone. *)
Definition aws : AWSApi :=
  {| get_subnet_avail_zone :=
       fun subnet => if subnet =? "subnet-c" then "us-east-1b" else "us-east-1a";
     get_efs_mount_target_id :=
       fun fs az =>
         if eq_str fs "fs-1" && (az =? "us-east-1a") then PStr "fsmt-1" else PNone;
     get_eip_allocation_id := fun _ => "eipalloc-1" |}.

Definition env (log_group_name : pyval) : Env :=
  {| api := aws; utils := helpers;
     bucket := {| S3Bucket.name := "bucket"; S3Bucket.artifact_directory := "artifacts" |};
     cdk_stack_name := "cluster"; arg_stack_name := "cluster";
     arg_log_group_name := log_group_name |}.

(** A clock that starts on 2021-11-05 09:00 at second [s0] and advances one
    second per reading. *)
Definition clock (s0 : nat) (n : nat) : datetime :=
  {| year := 2021; month := 11; day := 5; hour := 9; minute := 0; second := s0 + n |}.

Definition compute_resource (name : string) (interfaces : nat) (efa : bool)
  : ComputeResource.t :=
  {| ComputeResource.name := name;
     ComputeResource.instance_type := "c5n.18xlarge";
     ComputeResource.max_network_interface_count := interfaces;
     ComputeResource.efa :=
       if efa then Some {| Efa.enabled := true; Efa.gdr_support := false |} else None;
     ComputeResource.spot_price := PNone;
     ComputeResource.vcpus := 36;
     ComputeResource.pass_cpu_options_in_launch_template := false;
     ComputeResource.is_ebs_optimized := true;
     ComputeResource.disable_simultaneous_multithreading_manually := false |}.

Definition queue (name : string) (security_groups : option (list string))
    (compute_resources : list ComputeResource.t) : Queue.t :=
  {| Queue.name := name;
     Queue.networking :=
       {| QueueNetworking.security_groups := security_groups;
          QueueNetworking.additional_security_groups := None;
          QueueNetworking.placement_group := None;
          QueueNetworking.assign_public_ip := PNone;
          QueueNetworking.subnet_ids := ["subnet-a"] |};
     Queue.compute_resources := compute_resources;
     Queue.custom_actions := None;
     Queue.capacity_type := ONDEMAND;
     Queue.ephemeral_volume_mount_dir := None |}.

Definition head_node (security_groups additional_security_groups : option (list string))
  : HeadNode.t :=
  {| HeadNode.networking :=
       {| HeadNodeNetworking.security_groups := security_groups;
          HeadNodeNetworking.additional_security_groups := additional_security_groups;
          HeadNodeNetworking.subnet_id := "subnet-b";
          HeadNodeNetworking.elastic_ip := PNone;
          HeadNodeNetworking.availability_zone := "us-east-1a";
          HeadNodeNetworking.proxy := None |};
     HeadNode.ssh := {| Ssh.key_name := PStr "key"; Ssh.allowed_ips := "0.0.0.0/0" |};
     HeadNode.dcv := None;
     HeadNode.instance_type := "c5.xlarge";
     HeadNode.max_network_interface_count := 2;
     HeadNode.vcpus := 2;
     HeadNode.pass_cpu_options_in_launch_template := false;
     HeadNode.is_ebs_optimized := true;
     HeadNode.disable_simultaneous_multithreading_manually := false;
     HeadNode.custom_actions := None;
     HeadNode.ephemeral_volume_mount_dir := None;
     HeadNode.imds_secured := PBool true |}.

Definition cluster (scheduler : string) (head : HeadNode.t) (queues : list Queue.t)
    (shared_storage : option (list SharedStorage)) : ClusterConfig.t :=
  {| ClusterConfig.os := "alinux2";
     ClusterConfig.scheduler := scheduler;
     ClusterConfig.queues := queues;
     ClusterConfig.byos_template := PNone;
     ClusterConfig.head_node := head;
     ClusterConfig.shared_storage := shared_storage;
     ClusterConfig.vpc_id := "vpc-1";
     ClusterConfig.compute_subnet_ids := ["subnet-a"];
     ClusterConfig.compute_security_groups :=
       flat_map (fun q => list_or_nil (QueueNetworking.security_groups (Queue.networking q)))
         queues;
     ClusterConfig.additional_resources := PNone;
     ClusterConfig.lambda_functions_role := PNone;
     ClusterConfig.lambda_functions_role_implied := false;
     ClusterConfig.is_cw_logging_enabled := true;
     ClusterConfig.cloud_watch_enabled := true;
     ClusterConfig.is_cw_dashboard_enabled := true;
     ClusterConfig.is_dcv_enabled := false;
     ClusterConfig.is_intel_hpc_platform_enabled := false;
     ClusterConfig.head_node_ami := "ami-1";
     ClusterConfig.image_dict := map (fun q => (Queue.name q, "ami-1")) queues;
     ClusterConfig.original_config_version := "3.0.0";
     ClusterConfig.config_version := "v1";
     ClusterConfig.custom_node_package := PNone;
     ClusterConfig.custom_aws_batch_cli_package := PNone;
     ClusterConfig.extra_chef_attributes := "{}" |}.

Definition ebs (mount_dir volume_id : pyval) : SharedEbs.t :=
  {| SharedEbs.name := PStr "ebs"; SharedEbs.mount_dir := mount_dir;
     SharedEbs.volume_id := volume_id; SharedEbs.encrypted := PBool false;
     SharedEbs.iops := PNone; SharedEbs.throughput := PNone; SharedEbs.kms_key_id := PNone;
     SharedEbs.size := PInt 20; SharedEbs.snapshot_id := PNone;
     SharedEbs.volume_type := PStr "gp2"; SharedEbs.deletion_policy := PStr "Delete" |}.

Definition raid1 : Raid.t := {| Raid.raid_type := PInt 1; Raid.number_of_volumes := 2 |}.

Definition efs (mount_dir file_system_id encrypted : pyval) : SharedEfs.t :=
  {| SharedEfs.name := PStr "efs"; SharedEfs.mount_dir := mount_dir;
     SharedEfs.file_system_id := file_system_id; SharedEfs.encrypted := encrypted;
     SharedEfs.kms_key_id := PNone; SharedEfs.performance_mode := PNone;
     SharedEfs.provisioned_throughput := PNone; SharedEfs.throughput_mode := PNone |}.

Definition fsx (mount_dir file_system_id storage_type drive_cache_type : pyval) : SharedFsx.t :=
  {| SharedFsx.name := PStr "fsx"; SharedFsx.mount_dir := mount_dir;
     SharedFsx.file_system_id := file_system_id;
     SharedFsx.existing_mount_name := PStr ""; SharedFsx.existing_dns_name := PStr "";
     SharedFsx.fsx_storage_type := storage_type;
     SharedFsx.drive_cache_type := drive_cache_type;
     SharedFsx.storage_capacity := PInt 1200; SharedFsx.deployment_type := PNone;
     SharedFsx.data_compression_type := PNone; SharedFsx.imported_file_chunk_size := PNone;
     SharedFsx.export_path := PNone; SharedFsx.import_path := PNone;
     SharedFsx.weekly_maintenance_start_time := PNone;
     SharedFsx.automatic_backup_retention_days := PNone;
     SharedFsx.copy_tags_to_backups := PNone;
     SharedFsx.daily_automatic_backup_start_time := PNone;
     SharedFsx.per_unit_storage_throughput := PNone; SharedFsx.auto_import_policy := PNone;
     SharedFsx.backup_id := PNone; SharedFsx.kms_key_id := PNone |}.

(** A Slurm cluster with one queue and managed security groups on both
    sides. *)
Definition slurm_cluster (shared_storage : option (list SharedStorage)) : ClusterConfig.t :=
  cluster "slurm" (head_node None None) [queue "q1" None [compute_resource "cr1" 1 false]]
    shared_storage.

End Sample.

(** * Properties *)

(** ** Running the monad *)

Lemma bind_run {A B : Type} (m : M A) (k : A -> M B) e s a s' w :
  m e s = Done a s' w ->
  bind m k e s =
    match k a e s' with
    | Done b s'' w' => Done b s'' (w ++ w')
    | Raised x => Raised x
    end.
Proof. intros H. unfold bind. now rewrite H. Qed.

Lemma bind_raised {A B : Type} (m : M A) (k : A -> M B) e s x :
  m e s = Raised x -> bind m k e s = Raised x.
Proof. intros H. unfold bind. now rewrite H. Qed.

Lemma bind_inv {A B : Type} (m : M A) (k : A -> M B) e s b s'' w'' :
  bind m k e s = Done b s'' w'' ->
  exists a s' w w',
    m e s = Done a s' w /\ k a e s' = Done b s'' w' /\ w'' = (w ++ w')%list.
Proof.
  unfold bind. destruct (m e s) as [a s' w|x]; [|discriminate].
  destruct (k a e s') as [b' t w'|x] eqn:K; [|discriminate].
  intros H. inversion H; subst. now exists a, s', w, w'.
Qed.

(** ** Security groups *)

(** A cross-ingress rule lets one security group receive traffic from a
    different one. *)
Definition is_cross_ingress (r : resource) : bool :=
  match r with
  | CfnSecurityGroupIngress _ _ _ _ source group => negb (source =? group)
  | _ => false
  end.

Definition head_security_managed (c : ClusterConfig.t) : bool :=
  negb (truthy_list (HeadNodeNetworking.security_groups (head_networking c))).

Definition compute_security_managed (c : ClusterConfig.t) : bool :=
  existsb (fun queue => negb (truthy_list (QueueNetworking.security_groups (Queue.networking queue))))
    (ClusterConfig.queues c).

Definition dcv_well_formed (c : ClusterConfig.t) : Prop :=
  ClusterConfig.is_dcv_enabled c = true -> HeadNode.dcv (ClusterConfig.head_node c) <> None.

(** C1.  [_add_security_groups] returns, and among the resources it
    declares the cross-ingress rules are exactly two when both the head
    node's and the compute security group are managed (head accepts all
    protocols on ports 0-65535 from compute, and compute from head), and
    none when either side is supplied. *)
Theorem cross_ingress_rules e s :
  dcv_well_formed (config s) ->
  exists head compute w,
    _add_security_groups e s = Done (head, compute) s w /\
    filter is_cross_ingress (declared w) =
      if head_security_managed (config s) && compute_security_managed (config s)
      then [ CfnSecurityGroupIngress "HeadNodeSecurityGroupComputeIngress" "-1" 0 65535
               (Ref "ComputeSecurityGroup") (Ref "HeadNodeSecurityGroup");
             CfnSecurityGroupIngress "ComputeSecurityGroupHeadNodeIngress" "-1" 0 65535
               (Ref "HeadNodeSecurityGroup") (Ref "ComputeSecurityGroup") ]
      else [].
Proof.
  intros Hdcv. unfold dcv_well_formed in Hdcv.
  unfold _add_security_groups, head_security_managed, compute_security_managed.
  unfold _add_head_security_group, _add_compute_security_group.
  unfold bind, get, ret, add_resource, emit, raise.
  destruct (truthy_list (HeadNodeNetworking.security_groups (head_networking (config s)))); simpl.
  - destruct (existsb _ _); simpl; eauto.
  - destruct (ClusterConfig.is_dcv_enabled (config s)) eqn:D.
    + destruct (HeadNode.dcv (ClusterConfig.head_node (config s))) eqn:V;
        [|exfalso; now apply Hdcv].
      destruct (existsb _ _); simpl; eauto.
    + destruct (existsb _ _); simpl; eauto.
Qed.

(** ** FSx drive cache *)

(** The declaration creates a file system: no id is supplied and a mount
    directory is. *)
Definition fsx_creates (shared_fsx : SharedFsx.t) : bool :=
  negb (truthy (SharedFsx.file_system_id shared_fsx)) && truthy (SharedFsx.mount_dir shared_fsx).

(** The [drive_cache_type] the file systems declared by a trace carry. *)
Definition drive_cache_types (w : list event) : list pyval :=
  flat_map (fun r =>
              match r with
              | FsxCfnFileSystem _ _ lustre _ _ _ _ _ _ => [lustre_drive_cache_type lustre]
              | _ => []
              end) (declared w).

(** C7.  A file system that is created carries the drive cache type
    "NONE" when its storage type is HDD and no drive cache type is given,
    and no drive cache type at all when its storage type is SSD. *)
Theorem fsx_drive_cache_default id shared_fsx e s :
  fsx_creates shared_fsx = true ->
  exists s' w,
    _add_fsx_storage id shared_fsx e s = Done (PStr (Ref id)) s' w /\
    (SharedFsx.fsx_storage_type shared_fsx = PStr "HDD" ->
     truthy (SharedFsx.drive_cache_type shared_fsx) = false ->
     drive_cache_types w = [PStr "NONE"]) /\
    (SharedFsx.fsx_storage_type shared_fsx = PStr "SSD" ->
     drive_cache_types w = [PNone]).
Proof.
  unfold fsx_creates. intros Hnew.
  unfold _add_fsx_storage, _get_compute_security_groups, modify_storage, add_resource.
  unfold bind, get, ret, modify, emit. rewrite Hnew. simpl.
  destruct (_compute_security_group _); simpl.
  all: eexists; eexists; split; [reflexivity|]; simpl.
  all: unfold drive_cache_types, fsx_drive_cache_type; simpl.
  all: split; [intros -> ->|intros ->]; reflexivity.
Qed.

(** ** Storage ids and the ids output *)

Lemma ids_of_None_last (l : list StorageInfo) (info : StorageInfo) :
  id info = PNone -> ids_of (l ++ [info]) = Raise TypeError.
Proof.
  intros Hid. induction l as [|a l IH]; simpl.
  - now rewrite Hid.
  - rewrite IH. now destruct (id a).
Qed.

Lemma update_same {V : Type} (f : SharedStorageType -> V) t v : update f t v t = v.
Proof. unfold update. now destruct t. Qed.

Lemma update_other {V : Type} (f : SharedStorageType -> V) t t' v :
  t' <> t -> update f t v t' = f t'.
Proof. unfold update. destruct t, t'; simpl; congruence. Qed.

(** C10.  An EBS declaration with no volume id and no mount directory
    declares nothing and appends an entry whose id is None to the EBS
    mappings; joining the ids of those mappings then raises a TypeError, and
    so does [_add_outputs]. *)
Theorem ebs_without_id_and_mount_dir shared_ebs e s :
  SharedEbs.volume_id shared_ebs = PNone ->
  truthy (SharedEbs.mount_dir shared_ebs) = false ->
  exists s',
    _add_shared_storage (StorageEbs shared_ebs) e s = Done tt s' [] /\
    shared_storage_mappings (storage s') EBS =
      (shared_storage_mappings (storage s) EBS
         ++ [ {| id := PNone; storage_config := StorageEbs shared_ebs |} ])%list /\
    join_ids (shared_storage_mappings (storage s') EBS) = Raise TypeError /\
    _add_outputs e s' = Raised TypeError.
Proof.
  intros Hid Hdir.
  unfold _add_shared_storage, _add_ebs_volume, modify_storage.
  unfold bind, get, ret, modify. rewrite Hid, Hdir. simpl.
  eexists. split; [reflexivity|]. simpl.
  assert (J : join_ids
                (shared_storage_mappings (storage s) EBS
                   ++ [ {| id := PNone; storage_config := StorageEbs shared_ebs |} ])
              = Raise TypeError).
  { unfold join_ids. now rewrite ids_of_None_last. }
  split; [reflexivity|]. split; [exact J|].
  unfold _add_outputs, bind, get. simpl. unfold bind, lift. simpl.
  now rewrite update_same, J.
Qed.

(** Symbolic execution: the equations of the monad, oriented as rewrite
    rules. *)

Definition prepend {A : Type} (w : list event) (o : outcome A) : outcome A :=
  match o with
  | Done a s w' => Done a s (w ++ w')
  | Raised x => Raised x
  end.

Lemma prepend_nil {A : Type} (o : outcome A) : prepend [] o = o.
Proof. now destruct o. Qed.

Lemma prepend_prepend {A : Type} w1 w2 (o : outcome A) :
  prepend w1 (prepend w2 o) = prepend (w1 ++ w2) o.
Proof. destruct o; simpl; [now rewrite app_assoc|reflexivity]. Qed.

Lemma bind_prepend {A B : Type} (m : M A) (k : A -> M B) e s a s' w :
  m e s = Done a s' w -> bind m k e s = prepend w (k a e s').
Proof. intros H. unfold bind. now rewrite H. Qed.

Lemma bind_ret {A B : Type} (a : A) (k : A -> M B) e s : bind (ret a) k e s = k a e s.
Proof. unfold bind, ret. now destruct (k a e s). Qed.

Lemma bind_get {B : Type} (k : stack -> M B) e s : bind get k e s = k s e s.
Proof. unfold bind, get. now destruct (k s e s). Qed.

Lemma bind_ask {B : Type} (k : Env -> M B) e s : bind ask k e s = k e e s.
Proof. unfold bind, ask. now destruct (k e e s). Qed.

Lemma bind_modify {B : Type} f (k : unit -> M B) e s : bind (modify f) k e s = k tt e (f s).
Proof. unfold bind, modify. now destruct (k tt e (f s)). Qed.

Lemma bind_emit {B : Type} ev (k : unit -> M B) e s :
  bind (emit ev) k e s = prepend [ev] (k tt e s).
Proof. reflexivity. Qed.

Lemma bind_raise {A B : Type} x (k : A -> M B) e s : bind (raise x) k e s = Raised x.
Proof. reflexivity. Qed.

Lemma bind_lift_Ok {A B : Type} (a : A) (k : A -> M B) e s : bind (lift (Ok a)) k e s = k a e s.
Proof. unfold bind, lift. now destruct (k a e s). Qed.

Lemma bind_lift_Raise {A B : Type} x (k : A -> M B) e s :
  bind (lift (Raise x)) k e s = Raised x.
Proof. reflexivity. Qed.

Lemma bind_bind {A B C : Type} (m : M A) (f : A -> M B) (g : B -> M C) e s :
  bind (bind m f) g e s = bind m (fun a => bind (f a) g) e s.
Proof.
  unfold bind. destruct (m e s) as [a s' w|x]; [|reflexivity].
  destruct (f a e s') as [b s'' w'|x]; [|reflexivity].
  destruct (g b e s'') as [c s3 w3|x]; [|reflexivity].
  now rewrite app_assoc.
Qed.

Lemma ret_run {A : Type} (a : A) e s : ret a e s = Done a s [].
Proof. reflexivity. Qed.

Lemma modify_run f e s : modify f e s = Done tt (f s) [].
Proof. reflexivity. Qed.

Lemma emit_run ev e s : emit ev e s = Done tt s [ev].
Proof. reflexivity. Qed.

Lemma raise_run {A : Type} x e s : @raise A x e s = Raised x.
Proof. reflexivity. Qed.

Create Rewrite HintDb mrun.
#[export] Hint Rewrite @bind_bind @bind_ret @bind_get @bind_ask @bind_modify @bind_emit
  @bind_raise @bind_lift_Ok @bind_lift_Raise @ret_run modify_run emit_run @raise_run
  @prepend_nil @prepend_prepend : mrun.

Ltac mrun := autorewrite with mrun; cbn [prepend app].

(** ** EFS mount targets *)

Section MountTargets.

Variables (aws : AWSApi) (id : string) (fs : pyval) (sgs : list string) (new : bool).

Definition zone_of (subnet : string) : string := get_subnet_avail_zone aws subnet.

(** Whether a zone met for the first time gets a mount target. *)
Definition creates_mount_target (az : string) : bool :=
  new || negb (truthy (get_efs_mount_target_id aws fs az)).

(** The trace of one call of [_add_efs_mount_target]. *)
Definition mount_target_events (checked : list string) (subnet : string) : list event :=
  let az := zone_of subnet in
  Lookup (Call_get_subnet_avail_zone subnet)
  :: (if mem az checked then []
      else (if new then [] else [Lookup (Call_get_efs_mount_target_id fs az)])
           ++ (if creates_mount_target az
               then [Resource (CfnMountTarget (id ++ "MT" ++ az) fs sgs subnet)]
               else []))%list.

Definition checked_after (checked : list string) (subnet : string) : list string :=
  if mem (zone_of subnet) checked then checked else (checked ++ [zone_of subnet])%list.

Fixpoint checked_after_all (checked : list string) (subnets : list string) : list string :=
  match subnets with
  | [] => checked
  | subnet :: rest => checked_after_all (checked_after checked subnet) rest
  end.

Fixpoint mount_targets_events (checked : list string) (subnets : list string) : list event :=
  match subnets with
  | [] => []
  | subnet :: rest =>
      (mount_target_events checked subnet
         ++ mount_targets_events (checked_after checked subnet) rest)%list
  end.

End MountTargets.

Lemma _add_efs_mount_target_run id fs sgs subnet checked new e s :
  _add_efs_mount_target id fs sgs subnet checked new e s =
    Done (checked_after (api e) checked subnet) s
      (mount_target_events (api e) id fs sgs new checked subnet).
Proof.
  unfold _add_efs_mount_target, api_get_subnet_avail_zone, api_get_efs_mount_target_id,
    checked_after, mount_target_events, creates_mount_target, zone_of, when, add_resource.
  unfold bind, ask, emit, ret. simpl.
  destruct (mem (get_subnet_avail_zone (api e) subnet) checked); simpl; [reflexivity|].
  destruct new; simpl; [reflexivity|].
  destruct (truthy (get_efs_mount_target_id (api e) fs (get_subnet_avail_zone (api e) subnet)));
    reflexivity.
Qed.

Lemma _add_efs_mount_targets_run id fs sgs subnets new e s : forall checked,
  _add_efs_mount_targets id fs sgs subnets checked new e s =
    Done (checked_after_all (api e) checked subnets) s
      (mount_targets_events (api e) id fs sgs new checked subnets).
Proof.
  induction subnets as [|subnet rest IH]; intros checked; simpl; [reflexivity|].
  erewrite bind_run by apply _add_efs_mount_target_run.
  now rewrite IH.
Qed.

Lemma checked_after_all_app aws checked l1 l2 :
  checked_after_all aws checked (l1 ++ l2) =
    checked_after_all aws (checked_after_all aws checked l1) l2.
Proof. revert checked. induction l1; intros; simpl; auto. Qed.

Lemma mount_targets_events_app aws id fs sgs new checked l1 l2 :
  mount_targets_events aws id fs sgs new checked (l1 ++ l2) =
    (mount_targets_events aws id fs sgs new checked l1
       ++ mount_targets_events aws id fs sgs new (checked_after_all aws checked l1) l2)%list.
Proof.
  revert checked. induction l1 as [|x l1 IH]; intros; simpl; [reflexivity|].
  now rewrite IH, app_assoc.
Qed.

(** The subnets mount targets are considered for: the compute subnets, then
    the head node's. *)
Definition efs_subnets (c : ClusterConfig.t) : list string :=
  (ClusterConfig.compute_subnet_ids c ++ [HeadNodeNetworking.subnet_id (head_networking c)])%list.

Definition efs_creates (shared_efs : SharedEfs.t) : bool :=
  negb (truthy (SharedEfs.file_system_id shared_efs)) && truthy (SharedEfs.mount_dir shared_efs).

Definition efs_id_of (id : string) (shared_efs : SharedEfs.t) : pyval :=
  if efs_creates shared_efs then PStr (Ref id) else SharedEfs.file_system_id shared_efs.

Definition compute_security_groups_of (s : stack) : list string :=
  match _compute_security_group (attrs s) with
  | Some sg => (ClusterConfig.compute_security_groups (config s) ++ [Ref sg])%list
  | None => ClusterConfig.compute_security_groups (config s)
  end.

Definition efs_file_system_events (id : string) (shared_efs : SharedEfs.t) : list event :=
  if efs_creates shared_efs
  then [Resource
          (EfsCfnFileSystem id (SharedEfs.encrypted shared_efs) (SharedEfs.kms_key_id shared_efs)
             (SharedEfs.performance_mode shared_efs) (SharedEfs.provisioned_throughput shared_efs)
             (SharedEfs.throughput_mode shared_efs) (SharedEfs.name shared_efs))]
  else [].

(** [_add_efs_storage] never raises; it leaves the configuration and the
    attributes alone, writes the EFS option string, and its trace is the
    file system, if created, followed by the mount-target loop. *)
Lemma _add_efs_storage_run id shared_efs e s :
  _add_efs_storage id shared_efs e s =
    Done (efs_id_of id shared_efs)
      (with_storage
         (set_options EFS (join_str (efs_option_items shared_efs (efs_id_of id shared_efs)))
            (storage s)) s)
      (efs_file_system_events id shared_efs
         ++ mount_targets_events (api e) id (efs_id_of id shared_efs)
              (compute_security_groups_of s) (is_None (SharedEfs.file_system_id shared_efs))
              [] (efs_subnets (config s))).
Proof.
  unfold _add_efs_storage, efs_id_of, efs_file_system_events, efs_creates, efs_subnets,
    compute_security_groups_of, _get_compute_security_groups, modify_storage, add_resource.
  rewrite mount_targets_events_app. cbn [mount_targets_events]. rewrite app_nil_r.
  destruct (negb (truthy (SharedEfs.file_system_id shared_efs))
            && truthy (SharedEfs.mount_dir shared_efs)).
  all: mrun.
  all: destruct (_compute_security_group (attrs s)); mrun.
  all: erewrite bind_prepend by apply _add_efs_mount_targets_run; mrun.
  all: erewrite bind_prepend by apply _add_efs_mount_target_run; mrun.
  all: now rewrite ?app_nil_r.
Qed.

(** The zones met for the first time by the loop, in order. *)
Fixpoint newly_checked (aws : AWSApi) (checked : list string) (subnets : list string)
  : list string :=
  match subnets with
  | [] => []
  | subnet :: rest =>
      if mem (zone_of aws subnet) checked then newly_checked aws checked rest
      else zone_of aws subnet :: newly_checked aws (checked ++ [zone_of aws subnet]) rest
  end.

(** The zones of the mount targets a trace declares, and the zones it asks
    the inventory about. *)
Fixpoint mount_target_zones (aws : AWSApi) (w : list event) : list string :=
  match w with
  | [] => []
  | Resource (CfnMountTarget _ _ _ subnet) :: w' => zone_of aws subnet :: mount_target_zones aws w'
  | _ :: w' => mount_target_zones aws w'
  end.

Fixpoint mount_target_lookup_zones (w : list event) : list string :=
  match w with
  | [] => []
  | Lookup (Call_get_efs_mount_target_id _ az) :: w' => az :: mount_target_lookup_zones w'
  | _ :: w' => mount_target_lookup_zones w'
  end.

Lemma mem_In x l : mem x l = true <-> In x l.
Proof.
  unfold mem. rewrite existsb_exists. split.
  - intros (y & Hy & E). apply String.eqb_eq in E. now subst.
  - intros H. exists x. split; [assumption|apply String.eqb_refl].
Qed.

Lemma mem_not_In x l : mem x l = false <-> ~ In x l.
Proof.
  rewrite <- mem_In. destruct (mem x l); split; intros; congruence.
Qed.

Lemma checked_after_all_newly aws subnets : forall checked,
  checked_after_all aws checked subnets = (checked ++ newly_checked aws checked subnets)%list.
Proof.
  induction subnets as [|x rest IH]; intros checked; simpl.
  - now rewrite app_nil_r.
  - unfold checked_after. destruct (mem (zone_of aws x) checked); [apply IH|].
    rewrite IH. now rewrite <- app_assoc.
Qed.

Lemma newly_checked_NoDup aws subnets : forall checked,
  NoDup checked -> NoDup (checked ++ newly_checked aws checked subnets).
Proof.
  induction subnets as [|x rest IH]; intros checked Hnd; simpl.
  - now rewrite app_nil_r.
  - destruct (mem (zone_of aws x) checked) eqn:Hm; [now apply IH|].
    apply mem_not_In in Hm.
    replace (checked ++ zone_of aws x :: newly_checked aws (checked ++ [zone_of aws x]) rest)%list
      with ((checked ++ [zone_of aws x])
              ++ newly_checked aws (checked ++ [zone_of aws x]) rest)%list
      by now rewrite <- app_assoc.
    apply IH. apply NoDup_app; [assumption|constructor; [easy|constructor]|].
    intros a Ha [<-|[]]. contradiction.
Qed.

Lemma newly_checked_covers aws subnets : forall checked az,
  In az (checked ++ newly_checked aws checked subnets) <->
  In az checked \/ In az (map (zone_of aws) subnets).
Proof.
  induction subnets as [|x rest IH]; intros checked az; simpl.
  - rewrite app_nil_r. tauto.
  - destruct (mem (zone_of aws x) checked) eqn:Hm.
    + rewrite IH. apply mem_In in Hm. split; [tauto|].
      intros [H|[<-|H]]; tauto.
    + replace (checked ++ zone_of aws x :: newly_checked aws (checked ++ [zone_of aws x]) rest)%list
        with ((checked ++ [zone_of aws x])
                ++ newly_checked aws (checked ++ [zone_of aws x]) rest)%list
        by now rewrite <- app_assoc.
      rewrite IH, in_app_iff. simpl. tauto.
Qed.

Lemma mount_target_zones_app aws w1 w2 :
  mount_target_zones aws (w1 ++ w2) = (mount_target_zones aws w1 ++ mount_target_zones aws w2)%list.
Proof.
  induction w1 as [|ev w1 IH]; simpl; [reflexivity|].
  destruct ev as [r|c]; [|assumption]. destruct r; simpl; now rewrite ?IH.
Qed.

Lemma mount_target_lookup_zones_app w1 w2 :
  mount_target_lookup_zones (w1 ++ w2) =
    (mount_target_lookup_zones w1 ++ mount_target_lookup_zones w2)%list.
Proof.
  induction w1 as [|ev w1 IH]; simpl; [reflexivity|].
  destruct ev as [r|c]; [assumption|]. destruct c; simpl; now rewrite ?IH.
Qed.

Lemma mount_targets_events_zones aws id fs sgs new subnets : forall checked,
  mount_target_zones aws (mount_targets_events aws id fs sgs new checked subnets) =
    filter (creates_mount_target aws fs new) (newly_checked aws checked subnets).
Proof.
  induction subnets as [|x rest IH]; intros checked; [reflexivity|].
  cbn [mount_targets_events newly_checked]. rewrite mount_target_zones_app, IH.
  unfold mount_target_events, checked_after.
  destruct (mem (zone_of aws x) checked); [reflexivity|].
  cbn [filter]. destruct new, (creates_mount_target aws fs _ (zone_of aws x)); reflexivity.
Qed.

Lemma mount_targets_events_lookups aws id fs sgs new subnets : forall checked,
  mount_target_lookup_zones (mount_targets_events aws id fs sgs new checked subnets) =
    if new then [] else newly_checked aws checked subnets.
Proof.
  induction subnets as [|x rest IH]; intros checked; [now destruct new|].
  cbn [mount_targets_events newly_checked]. rewrite mount_target_lookup_zones_app, IH.
  unfold mount_target_events, checked_after.
  destruct (mem (zone_of aws x) checked); [reflexivity|].
  destruct new, (creates_mount_target aws fs _ (zone_of aws x)); reflexivity.
Qed.

Lemma newly_checked_nil_NoDup aws subnets : NoDup (newly_checked aws [] subnets).
Proof. apply (newly_checked_NoDup aws subnets []). constructor. Qed.

Lemma newly_checked_nil_In aws subnets az :
  In az (newly_checked aws [] subnets) <-> In az (map (zone_of aws) subnets).
Proof. rewrite (newly_checked_covers aws subnets [] az). simpl. tauto. Qed.

(** C5.  For an EFS declaration that reuses a file system id, no zone is
    looked up twice and no zone gets two mount targets: the zones looked up
    are those of the compute subnets and of the head node's subnet, each
    once, and a mount target is declared in such a zone exactly when the
    inventory reports none there. *)
Theorem efs_mount_targets_per_zone id shared_efs e s :
  SharedEfs.file_system_id shared_efs <> PNone ->
  exists efs_id s' w,
    _add_efs_storage id shared_efs e s = Done efs_id s' w /\
    NoDup (mount_target_zones (api e) w) /\
    NoDup (mount_target_lookup_zones w) /\
    (forall az,
       In az (mount_target_lookup_zones w) <->
       In az (map (zone_of (api e)) (efs_subnets (config s)))) /\
    (forall az,
       In az (mount_target_zones (api e) w) <->
       In az (map (zone_of (api e)) (efs_subnets (config s))) /\
       truthy (get_efs_mount_target_id (api e) efs_id az) = false).
Proof.
  intros Hreuse. rewrite _add_efs_storage_run. do 3 eexists. split; [reflexivity|].
  assert (Hnew : is_None (SharedEfs.file_system_id shared_efs) = false)
    by now destruct (SharedEfs.file_system_id shared_efs).
  rewrite Hnew, mount_target_zones_app, mount_target_lookup_zones_app.
  rewrite mount_targets_events_zones, mount_targets_events_lookups.
  replace (mount_target_zones (api e) (efs_file_system_events id shared_efs)) with (@nil string)
    by (unfold efs_file_system_events; now destruct (efs_creates shared_efs)).
  replace (mount_target_lookup_zones (efs_file_system_events id shared_efs)) with (@nil string)
    by (unfold efs_file_system_events; now destruct (efs_creates shared_efs)).
  cbn [app]. repeat split.
  - apply NoDup_filter, newly_checked_nil_NoDup.
  - apply newly_checked_nil_NoDup.
  - apply newly_checked_nil_In.
  - apply newly_checked_nil_In.
  - rewrite filter_In, newly_checked_nil_In in H. tauto.
  - rewrite filter_In in H. destruct H as [_ H]. unfold creates_mount_target in H.
    simpl in H. now apply negb_true_iff in H.
  - intros [Hin Hmt]. rewrite filter_In, newly_checked_nil_In. split; [assumption|].
    unfold creates_mount_target. simpl. now rewrite Hmt.
Qed.

Open Scope list_scope.

(** ** What each storage method does to the object *)

Definition cfn_volume (id : string) (availability_zone : string) (shared_ebs : SharedEbs.t)
  : resource :=
  CfnVolume id availability_zone
    (SharedEbs.encrypted shared_ebs) (SharedEbs.iops shared_ebs)
    (SharedEbs.throughput shared_ebs) (SharedEbs.kms_key_id shared_ebs)
    (SharedEbs.size shared_ebs) (SharedEbs.snapshot_id shared_ebs)
    (SharedEbs.volume_type shared_ebs) (SharedEbs.name shared_ebs)
    (SharedEbs.deletion_policy shared_ebs).

Definition head_availability_zone (s : stack) : string :=
  HeadNodeNetworking.availability_zone (head_networking (config s)).

Lemma _add_cfn_volume_run id shared_ebs e s :
  _add_cfn_volume id shared_ebs e s =
    Done (PStr (Ref id)) s [Resource (cfn_volume id (head_availability_zone s) shared_ebs)].
Proof. unfold _add_cfn_volume, add_resource. now mrun. Qed.

Definition ebs_creates (shared_ebs : SharedEbs.t) : bool :=
  negb (truthy (SharedEbs.volume_id shared_ebs)) && truthy (SharedEbs.mount_dir shared_ebs).

Definition ebs_id_of (id : string) (shared_ebs : SharedEbs.t) : pyval :=
  if ebs_creates shared_ebs then PStr (Ref id) else SharedEbs.volume_id shared_ebs.

(** [options += f",{mount_dir}" if options else f"{mount_dir}"] *)
Definition append_dir (current dir : string) : string :=
  if truthy (PStr current) then (current ++ "," ++ dir)%string else dir.

Lemma _add_ebs_volume_run id shared_ebs e s :
  _add_ebs_volume id shared_ebs e s =
    Done (ebs_id_of id shared_ebs)
      (with_storage
         (set_options EBS
            (append_dir (shared_storage_options (storage s) EBS)
               (str (SharedEbs.mount_dir shared_ebs)))
            (storage s)) s)
      (if ebs_creates shared_ebs
       then [Resource (cfn_volume id (head_availability_zone s) shared_ebs)] else []).
Proof.
  unfold _add_ebs_volume, ebs_id_of, ebs_creates, modify_storage, append_dir.
  destruct (negb (truthy (SharedEbs.volume_id shared_ebs))
            && truthy (SharedEbs.mount_dir shared_ebs)).
  - erewrite bind_prepend by apply _add_cfn_volume_run. now mrun.
  - now mrun.
Qed.

(** The volumes of a RAID declaration, from [index] on. *)
Fixpoint raid_volumes (id_prefix : string) (index count : nat) : list string :=
  match count with
  | O => []
  | S count' =>
      (id_prefix ++ "Volume" ++ str_of_nat index)%string :: raid_volumes id_prefix (S index) count'
  end.

Definition raid_infos (id_prefix : string) (shared_ebs : SharedEbs.t) (raid : Raid.t)
    (index count : nat) : list StorageInfo :=
  map (fun v => {| id := PStr (Ref v); storage_config := StorageRaid shared_ebs raid |})
    (raid_volumes id_prefix index count).

Lemma _add_raid_volumes_run id_prefix shared_ebs raid e s count : forall index ebs_ids,
  _add_raid_volumes id_prefix shared_ebs raid index count ebs_ids e s =
    Done (ebs_ids ++ raid_infos id_prefix shared_ebs raid index count) s
      (map (fun v => Resource (cfn_volume v (head_availability_zone s) shared_ebs))
         (raid_volumes id_prefix index count)).
Proof.
  unfold raid_infos.
  induction count as [|count IH]; intros index ebs_ids; simpl.
  - now rewrite app_nil_r.
  - erewrite bind_prepend by apply _add_cfn_volume_run. rewrite IH. simpl.
    now rewrite <- app_assoc.
Qed.

Lemma _add_raid_volume_run id_prefix shared_ebs raid e s :
  _add_raid_volume id_prefix shared_ebs raid e s =
    Done (raid_infos id_prefix shared_ebs raid 0 (Raid.number_of_volumes raid))
      (with_storage (set_options RAID (join_str (raid_option_items shared_ebs raid)) (storage s)) s)
      (map (fun v => Resource (cfn_volume v (head_availability_zone s) shared_ebs))
         (raid_volumes id_prefix 0 (Raid.number_of_volumes raid))).
Proof.
  unfold _add_raid_volume, modify_storage.
  erewrite bind_prepend by apply _add_raid_volumes_run. mrun. now rewrite app_nil_r.
Qed.

Definition fsx_id_of (id : string) (shared_fsx : SharedFsx.t) : pyval :=
  if fsx_creates shared_fsx then PStr (Ref id) else SharedFsx.file_system_id shared_fsx.

Definition fsx_mount_name_of (id : string) (shared_fsx : SharedFsx.t) : pyval :=
  if fsx_creates shared_fsx then PStr (GetAtt id "LustreMountName")
  else SharedFsx.existing_mount_name shared_fsx.

Definition fsx_file_system (id : string) (shared_fsx : SharedFsx.t) (s : stack) : resource :=
  FsxCfnFileSystem id (SharedFsx.storage_capacity shared_fsx)
    {| lustre_deployment_type := SharedFsx.deployment_type shared_fsx;
       lustre_data_compression_type := SharedFsx.data_compression_type shared_fsx;
       lustre_imported_file_chunk_size := SharedFsx.imported_file_chunk_size shared_fsx;
       lustre_export_path := SharedFsx.export_path shared_fsx;
       lustre_import_path := SharedFsx.import_path shared_fsx;
       lustre_weekly_maintenance_start_time := SharedFsx.weekly_maintenance_start_time shared_fsx;
       lustre_automatic_backup_retention_days :=
         SharedFsx.automatic_backup_retention_days shared_fsx;
       lustre_copy_tags_to_backups := SharedFsx.copy_tags_to_backups shared_fsx;
       lustre_daily_automatic_backup_start_time :=
         SharedFsx.daily_automatic_backup_start_time shared_fsx;
       lustre_per_unit_storage_throughput := SharedFsx.per_unit_storage_throughput shared_fsx;
       lustre_auto_import_policy := SharedFsx.auto_import_policy shared_fsx;
       lustre_drive_cache_type := fsx_drive_cache_type shared_fsx |}
    (SharedFsx.backup_id shared_fsx) (SharedFsx.kms_key_id shared_fsx)
    (SharedFsx.fsx_storage_type shared_fsx)
    (ClusterConfig.compute_subnet_ids (config s)) (compute_security_groups_of s)
    (SharedFsx.name shared_fsx).

(** The storage record after an FSx declaration: attributes first, then the
    option string. *)
Definition fsx_storage_after (id : string) (shared_fsx : SharedFsx.t) (st : Storage) : Storage :=
  let st1 := set_attribute FSX "DNSName" (SharedFsx.existing_dns_name shared_fsx)
               (set_attribute FSX "MountName" (SharedFsx.existing_mount_name shared_fsx) st) in
  let st2 := if fsx_creates shared_fsx
             then set_attribute FSX "MountName" (PStr (GetAtt id "LustreMountName")) st1
             else st1 in
  set_options FSX (join_str (fsx_option_items shared_fsx (fsx_id_of id shared_fsx))) st2.

Lemma _add_fsx_storage_run id shared_fsx e s :
  _add_fsx_storage id shared_fsx e s =
    Done (fsx_id_of id shared_fsx)
      (with_storage (fsx_storage_after id shared_fsx (storage s)) s)
      (if fsx_creates shared_fsx then [Resource (fsx_file_system id shared_fsx s)] else []).
Proof.
  unfold _add_fsx_storage, fsx_storage_after, fsx_id_of, fsx_file_system, fsx_creates,
    compute_security_groups_of, _get_compute_security_groups, modify_storage, add_resource.
  destruct (negb (truthy (SharedFsx.file_system_id shared_fsx))
            && truthy (SharedFsx.mount_dir shared_fsx)).
  - mrun. cbn [attrs config with_storage].
    destruct (_compute_security_group (attrs s)); now mrun.
  - now mrun.
Qed.

(** The logical id [_add_shared_storage] derives for a declaration: the
    name of its type and the number of ids recorded for that type. *)
Definition cfn_resource_id (d : SharedStorage) (st : Storage) : string :=
  (type_name (shared_storage_type d)
     ++ str_of_nat (List.length (shared_storage_mappings st (shared_storage_type d))))%string.

(** The storage record after one declaration. *)
Definition storage_after (d : SharedStorage) (st : Storage) : Storage :=
  let cid := cfn_resource_id d st in
  let record i after :=
    set_mappings (shared_storage_type d)
      (shared_storage_mappings st (shared_storage_type d) ++ i) after in
  match d with
  | StorageFsx f =>
      record [ {| id := fsx_id_of cid f; storage_config := d |} ] (fsx_storage_after cid f st)
  | StorageEbs b =>
      record [ {| id := ebs_id_of cid b; storage_config := d |} ]
        (set_options EBS
           (append_dir (shared_storage_options st EBS) (str (SharedEbs.mount_dir b))) st)
  | StorageEfs f =>
      record [ {| id := efs_id_of cid f; storage_config := d |} ]
        (set_options EFS (join_str (efs_option_items f (efs_id_of cid f))) st)
  | StorageRaid b r =>
      record (raid_infos cid b r 0 (Raid.number_of_volumes r))
        (set_options RAID (join_str (raid_option_items b r)) st)
  end.

(** The trace of one declaration. *)
Definition storage_events (d : SharedStorage) (e : Env) (s : stack) : list event :=
  let cid := cfn_resource_id d (storage s) in
  match d with
  | StorageFsx f => if fsx_creates f then [Resource (fsx_file_system cid f s)] else []
  | StorageEbs b =>
      if ebs_creates b then [Resource (cfn_volume cid (head_availability_zone s) b)] else []
  | StorageEfs f =>
      efs_file_system_events cid f
        ++ mount_targets_events (api e) cid (efs_id_of cid f) (compute_security_groups_of s)
             (is_None (SharedEfs.file_system_id f)) [] (efs_subnets (config s))
  | StorageRaid b r =>
      map (fun v => Resource (cfn_volume v (head_availability_zone s) b))
        (raid_volumes cid 0 (Raid.number_of_volumes r))
  end.

Lemma _add_shared_storage_run d e s :
  _add_shared_storage d e s =
    Done tt (with_storage (storage_after d (storage s)) s) (storage_events d e s).
Proof.
  unfold _add_shared_storage, storage_after, storage_events, cfn_resource_id, modify_storage.
  mrun. destruct d as [b|b r|f|f]; cbn [shared_storage_type]; mrun.
  - erewrite bind_prepend by apply _add_ebs_volume_run. mrun. rewrite app_nil_r. reflexivity.
  - erewrite bind_prepend by apply _add_raid_volume_run. mrun. rewrite app_nil_r. reflexivity.
  - erewrite bind_prepend by apply _add_efs_storage_run. mrun. rewrite app_nil_r. reflexivity.
  - erewrite bind_prepend by apply _add_fsx_storage_run. mrun. rewrite app_nil_r.
    unfold fsx_storage_after. destruct (fsx_creates f); reflexivity.
Qed.

Definition storage_after_all (l : list SharedStorage) (st : Storage) : Storage :=
  fold_left (fun st d => storage_after d st) l st.

Fixpoint storages_events (l : list SharedStorage) (e : Env) (s : stack) : list event :=
  match l with
  | [] => []
  | d :: rest =>
      storage_events d e s
        ++ storages_events rest e (with_storage (storage_after d (storage s)) s)
  end.

Lemma with_storage_id s : with_storage (storage s) s = s.
Proof. now destruct s. Qed.

(** The loop over the declarations never raises and touches nothing but
    the storage record. *)
Lemma for_each_storage_run l e : forall s,
  for_each l _add_shared_storage e s =
    Done tt (with_storage (storage_after_all l (storage s)) s) (storages_events l e s).
Proof.
  induction l as [|d rest IH]; intros s; simpl.
  - now rewrite with_storage_id.
  - erewrite bind_prepend by apply _add_shared_storage_run. now rewrite IH.
Qed.

(** Frame: a declaration writes only the entries of its own type. *)
Lemma storage_after_options_other d st t :
  t <> shared_storage_type d ->
  shared_storage_options (storage_after d st) t = shared_storage_options st t.
Proof.
  intros Ht. destruct d; simpl in *; unfold fsx_storage_after; simpl;
    try destruct (fsx_creates f); simpl; now rewrite update_other.
Qed.

Lemma storage_after_attributes_other d st :
  shared_storage_type d <> FSX ->
  shared_storage_attributes (storage_after d st) = shared_storage_attributes st.
Proof. intros H. destruct d; simpl in *; congruence. Qed.

Lemma storage_after_mappings d st t :
  exists added,
    shared_storage_mappings (storage_after d st) t = shared_storage_mappings st t ++ added.
Proof.
  destruct (SharedStorageType_eqb t (shared_storage_type d)) eqn:E.
  - assert (t = shared_storage_type d) as -> by (destruct t, d; simpl in *; congruence).
    destruct d; simpl; rewrite update_same; eauto.
  - assert (Ht : t <> shared_storage_type d) by (destruct t, d; simpl in *; congruence).
    exists []. rewrite app_nil_r.
    destruct d; simpl in *; rewrite update_other by assumption;
      unfold fsx_storage_after; try destruct (fsx_creates f); reflexivity.
Qed.

Definition no_later (t : SharedStorageType) (l : list SharedStorage) : Prop :=
  forall d, In d l -> shared_storage_type d <> t.

Lemma storage_after_all_options l t : forall st,
  no_later t l ->
  shared_storage_options (storage_after_all l st) t = shared_storage_options st t.
Proof.
  induction l as [|d rest IH]; intros st Hno; simpl; [reflexivity|].
  rewrite IH by (intros d' Hd'; apply Hno; now right).
  apply storage_after_options_other. intros ->. now apply (Hno d); [left|].
Qed.

Lemma storage_after_all_attributes l : forall st,
  no_later FSX l ->
  shared_storage_attributes (storage_after_all l st) = shared_storage_attributes st.
Proof.
  induction l as [|d rest IH]; intros st Hno; simpl; [reflexivity|].
  rewrite IH by (intros d' Hd'; apply Hno; now right).
  apply storage_after_attributes_other. apply Hno. now left.
Qed.

Lemma storage_after_all_mappings l t : forall st,
  exists added,
    shared_storage_mappings (storage_after_all l st) t = shared_storage_mappings st t ++ added.
Proof.
  induction l as [|d rest IH]; intros st; simpl.
  - exists []. now rewrite app_nil_r.
  - destruct (IH (storage_after d st)) as [a2 ->].
    destruct (storage_after_mappings d st t) as [a1 ->].
    exists (a1 ++ a2). now rewrite app_assoc.
Qed.

Lemma storage_after_all_app l1 l2 st :
  storage_after_all (l1 ++ l2) st = storage_after_all l2 (storage_after_all l1 st).
Proof. apply fold_left_app. Qed.

(** ** Option strings *)

(** The comma-separated fields of an option string. *)
Fixpoint fields (s : string) : list string :=
  match s with
  | EmptyString => [EmptyString]
  | String c s' =>
      if Ascii.eqb c ","%char then EmptyString :: fields s'
      else match fields s' with
           | f :: fs => String c f :: fs
           | [] => [String c EmptyString]
           end
  end.

Definition field (n : nat) (options : string) : string := nth n (fields options) "".

(** The rendering the specification asks for: "NONE" for an absent value,
    the lowercase name for a boolean. *)
Definition rendered_as_specified (v : pyval) (text : string) : Prop :=
  match v with
  | PNone => text = "NONE"
  | PBool b => text = if b then "true" else "false"
  | _ => True
  end.

(** What the source does with a field: [x or "NONE"], [x if x is not None
    else "NONE"], or [x] as it is, each under [str]. *)
Definition or_NONE (v : pyval) : string := if truthy v then str v else "NONE".
Definition not_None_or_NONE (v : pyval) : string :=
  match v with
  | PNone => "NONE"
  | _ => str v
  end.

Lemma str_py_or_NONE v : str (py_or v NONE) = or_NONE v.
Proof. unfold py_or, or_NONE. now destruct (truthy v). Qed.

Lemma str_if_not_None v : str (if_not_None v) = not_None_or_NONE v.
Proof. now destruct v. Qed.

Lemma or_NONE_absent : or_NONE PNone = "NONE".
Proof. reflexivity. Qed.

Lemma not_None_or_NONE_bool b : not_None_or_NONE (PBool b) = if b then "True" else "False".
Proof. now destruct b. Qed.

(** C4, as the code has it.  The option strings of EFS, FSx and RAID are
    the comma-joined fields below, and EBS appends its mount directory: a
    field guarded by [or "NONE"] renders "NONE" when it is absent or falsy,
    a boolean guarded by [is not None] renders "NONE" when absent and
    Python's "True" or "False" when set, and the unguarded fields render
    under [str], None as "None". *)
Theorem option_strings e s :
  (forall id shared_efs,
     exists efs_id s' w,
       _add_efs_storage id shared_efs e s = Done efs_id s' w /\
       shared_storage_options (storage s') EFS =
         join ","
           [ str (SharedEfs.mount_dir shared_efs);
             str efs_id;
             or_NONE (SharedEfs.performance_mode shared_efs);
             or_NONE (SharedEfs.kms_key_id shared_efs);
             or_NONE (SharedEfs.provisioned_throughput shared_efs);
             not_None_or_NONE (SharedEfs.encrypted shared_efs);
             or_NONE (SharedEfs.throughput_mode shared_efs);
             "NONE";
             "NONE" ]) /\
  (forall id shared_fsx,
     exists fsx_id s' w,
       _add_fsx_storage id shared_fsx e s = Done fsx_id s' w /\
       shared_storage_options (storage s') FSX =
         join ","
           [ str (SharedFsx.mount_dir shared_fsx);
             str fsx_id;
             or_NONE (SharedFsx.storage_capacity shared_fsx);
             or_NONE (SharedFsx.kms_key_id shared_fsx);
             or_NONE (SharedFsx.imported_file_chunk_size shared_fsx);
             or_NONE (SharedFsx.export_path shared_fsx);
             or_NONE (SharedFsx.import_path shared_fsx);
             or_NONE (SharedFsx.weekly_maintenance_start_time shared_fsx);
             or_NONE (SharedFsx.deployment_type shared_fsx);
             or_NONE (SharedFsx.per_unit_storage_throughput shared_fsx);
             or_NONE (SharedFsx.daily_automatic_backup_start_time shared_fsx);
             or_NONE (SharedFsx.automatic_backup_retention_days shared_fsx);
             not_None_or_NONE (SharedFsx.copy_tags_to_backups shared_fsx);
             or_NONE (SharedFsx.backup_id shared_fsx);
             or_NONE (SharedFsx.auto_import_policy shared_fsx);
             or_NONE (SharedFsx.fsx_storage_type shared_fsx);
             or_NONE (SharedFsx.drive_cache_type shared_fsx);
             str (SharedFsx.existing_mount_name shared_fsx);
             str (SharedFsx.existing_dns_name shared_fsx) ]) /\
  (forall id shared_ebs raid,
     exists ids s' w,
       _add_raid_volume id shared_ebs raid e s = Done ids s' w /\
       shared_storage_options (storage s') RAID =
         join ","
           [ str (SharedEbs.mount_dir shared_ebs);
             str (Raid.raid_type raid);
             str_of_nat (Raid.number_of_volumes raid);
             str (SharedEbs.volume_type shared_ebs);
             str (SharedEbs.size shared_ebs);
             str (SharedEbs.iops shared_ebs);
             not_None_or_NONE (SharedEbs.encrypted shared_ebs);
             or_NONE (SharedEbs.kms_key_id shared_ebs);
             str (SharedEbs.throughput shared_ebs) ]) /\
  (forall id shared_ebs,
     exists ebs_id s' w,
       _add_ebs_volume id shared_ebs e s = Done ebs_id s' w /\
       shared_storage_options (storage s') EBS =
         append_dir (shared_storage_options (storage s) EBS)
           (str (SharedEbs.mount_dir shared_ebs))) /\
  or_NONE PNone = "NONE" /\
  not_None_or_NONE PNone = "NONE" /\
  str PNone = "None" /\
  (forall b, not_None_or_NONE (PBool b) = if b then "True" else "False").
Proof.
  split; [|split; [|split; [|split; [|repeat (split; [reflexivity|])]]]].
  - intros id shared_efs. rewrite _add_efs_storage_run. do 3 eexists. split; [reflexivity|].
    cbn [storage with_storage shared_storage_options set_options]. rewrite update_same.
    unfold join_str, efs_option_items. cbn [map].
    now rewrite !str_py_or_NONE, str_if_not_None.
  - intros id shared_fsx. rewrite _add_fsx_storage_run. do 3 eexists. split; [reflexivity|].
    unfold fsx_storage_after.
    cbn [storage with_storage shared_storage_options set_options]. rewrite update_same.
    unfold join_str, fsx_option_items. cbn [map].
    now rewrite !str_py_or_NONE, str_if_not_None.
  - intros id shared_ebs raid. rewrite _add_raid_volume_run. do 3 eexists.
    split; [reflexivity|].
    cbn [storage with_storage shared_storage_options set_options]. rewrite update_same.
    unfold join_str, raid_option_items. cbn [map].
    now rewrite !str_py_or_NONE, str_if_not_None.
  - intros id shared_ebs. rewrite _add_ebs_volume_run. do 3 eexists. split; [reflexivity|].
    cbn [storage with_storage shared_storage_options set_options]. now rewrite update_same.
  - intros b. now destruct b.
Qed.

(** An encrypted EFS file system to create, and a RAID array whose volumes
    leave [iops] unset: what the two methods write as option strings. *)
Definition efs_options_sample : string :=
  match _add_efs_storage "EFS0" (Sample.efs (PStr "/efs") PNone (PBool true))
          (Sample.env PNone) (new_stack (Sample.slurm_cluster None)) with
  | Done _ s _ => shared_storage_options (storage s) EFS
  | Raised _ => ""
  end.

Definition raid_options_sample : string :=
  match _add_raid_volume "RAID0" (Sample.ebs (PStr "/raid") PNone) Sample.raid1
          (Sample.env PNone) (new_stack (Sample.slurm_cluster None)) with
  | Done _ s _ => shared_storage_options (storage s) RAID
  | Raised _ => ""
  end.

(** C4, as the specification has it, does not hold: an EFS declaration
    with encryption set renders "True", not "true", and a RAID declaration
    without iops renders "None", not "NONE". *)
Lemma option_strings_counterexample :
  efs_options_sample = "/efs,{Ref:EFS0},NONE,NONE,NONE,True,NONE,NONE,NONE" /\
  ~ rendered_as_specified (PBool true) (field 5 efs_options_sample) /\
  raid_options_sample = "/raid,1,2,gp2,20,None,False,NONE,None" /\
  ~ rendered_as_specified PNone (field 5 raid_options_sample).
Proof.
  repeat split; try reflexivity.
  - vm_compute. discriminate.
  - vm_compute. discriminate.
Qed.


(** ** Overwriting and accumulating option strings *)

(** The mount directories of the EBS declarations of a list, in order. *)
Definition ebs_mount_dirs (l : list SharedStorage) : list string :=
  flat_map (fun d =>
              match d with
              | StorageEbs b => [str (SharedEbs.mount_dir b)]
              | _ => []
              end) l.

Lemma storage_after_all_ebs_options l : forall st,
  shared_storage_options (storage_after_all l st) EBS =
    fold_left append_dir (ebs_mount_dirs l) (shared_storage_options st EBS).
Proof.
  induction l as [|d rest IH]; intros st; [reflexivity|].
  cbn [storage_after_all fold_left] in *. rewrite IH.
  destruct d; cbn [ebs_mount_dirs flat_map app fold_left].
  - cbn [storage_after shared_storage_type shared_storage_options set_mappings set_options].
    now rewrite update_same.
  - now rewrite storage_after_options_other.
  - now rewrite storage_after_options_other.
  - now rewrite storage_after_options_other.
Qed.

Lemma string_app_assoc (a b c : string) : ((a ++ b) ++ c = a ++ (b ++ c))%string.
Proof. induction a as [|x a IH]; simpl; [reflexivity|now rewrite IH]. Qed.

Lemma append_dir_nonempty current dir : dir <> "" -> append_dir current dir <> "".
Proof.
  unfold append_dir. destruct current as [|c current]; simpl; [easy|discriminate].
Qed.

(** Once a first non-empty directory is in, the accumulation is a join. *)
Lemma fold_append_dir dirs : forall current,
  current <> "" ->
  Forall (fun dir => dir <> "") dirs ->
  fold_left append_dir dirs current = join "," (current :: dirs).
Proof.
  induction dirs as [|dir rest IH]; intros current Hc Hd; [reflexivity|].
  inversion Hd as [|? ? Hdir Hrest]; subst. cbn [fold_left].
  rewrite IH by (try apply append_dir_nonempty; assumption).
  unfold append_dir. destruct current as [|c current]; [contradiction|].
  cbn [truthy String.eqb negb]. unfold join. cbn [concat].
  destruct rest; now rewrite ?string_app_assoc.
Qed.

Lemma fold_append_dir_empty dirs :
  Forall (fun dir => dir <> "") dirs -> fold_left append_dir dirs "" = join "," dirs.
Proof.
  destruct dirs as [|dir rest]; intros Hd; [reflexivity|].
  inversion Hd; subst. cbn [fold_left]. unfold append_dir at 2. cbn [truthy String.eqb negb].
  now apply fold_append_dir.
Qed.

Lemma dict_get_set_same {V : Type} k (v : V) d : dict_get k (dict_set k v d) = Some v.
Proof.
  induction d as [|[k' v'] d IH]; simpl.
  - now rewrite String.eqb_refl.
  - destruct (k' =? k)%string eqn:E; simpl; rewrite ?String.eqb_refl, ?E; auto.
Qed.

Lemma dict_get_set_other {V : Type} k k' (v : V) d :
  k' <> k -> dict_get k' (dict_set k v d) = dict_get k' d.
Proof.
  intros Hk. induction d as [|[k0 v0] d IH]; simpl.
  - apply String.eqb_neq in Hk. rewrite String.eqb_sym. now rewrite Hk.
  - destruct (k0 =? k)%string eqn:E; simpl.
    + apply String.eqb_eq in E. subst k0.
      assert (E' : (k =? k')%string = false)
        by (apply String.eqb_neq; congruence).
      now rewrite E'.
    + destruct (k0 =? k')%string; auto.
Qed.

(** The option record a declaration of a type other than EBS writes, given
    the id recorded for it. *)
Definition option_record (d : SharedStorage) (i : pyval) : string :=
  match d with
  | StorageFsx f => join_str (fsx_option_items f i)
  | StorageEfs f => join_str (efs_option_items f i)
  | StorageRaid b r => join_str (raid_option_items b r)
  | StorageEbs b => str (SharedEbs.mount_dir b)
  end.

(** The id [_add_shared_storage] records for a declaration processed when
    the storage record is [st]; a RAID declaration records one id per
    volume and none of them enters its option record. *)
Definition recorded_id (d : SharedStorage) (st : Storage) : pyval :=
  match d with
  | StorageFsx f => fsx_id_of (cfn_resource_id d st) f
  | StorageEfs f => efs_id_of (cfn_resource_id d st) f
  | StorageEbs b => ebs_id_of (cfn_resource_id d st) b
  | StorageRaid _ _ => PNone
  end.

Lemma storage_after_options d st :
  shared_storage_type d <> EBS ->
  shared_storage_options (storage_after d st) (shared_storage_type d) =
    option_record d (recorded_id d st).
Proof.
  intros Ht. destruct d; [now contradiction Ht| | |];
    cbn [storage_after shared_storage_type shared_storage_options set_mappings set_options
         option_record recorded_id];
    unfold fsx_storage_after; try destruct (fsx_creates f);
    cbn [shared_storage_options set_options set_attribute]; now rewrite update_same.
Qed.

Lemma storage_after_fsx_attributes f st :
  let attributes := shared_storage_attributes (storage_after (StorageFsx f) st) FSX in
  dict_get "MountName" attributes =
    Some (fsx_mount_name_of (cfn_resource_id (StorageFsx f) st) f) /\
  dict_get "DNSName" attributes = Some (SharedFsx.existing_dns_name f).
Proof.
  cbn [storage_after shared_storage_type shared_storage_attributes set_mappings].
  unfold fsx_storage_after, fsx_mount_name_of.
  destruct (fsx_creates f);
    cbn [shared_storage_attributes set_options set_attribute]; rewrite !update_same.
  - split; [apply dict_get_set_same|].
    rewrite dict_get_set_other by discriminate. apply dict_get_set_same.
  - split; [|apply dict_get_set_same].
    rewrite dict_get_set_other by discriminate. apply dict_get_set_same.
Qed.

(** C9.  Over a list of declarations, the option string of a type other
    than EBS is the record of the last declaration of that type, the earlier
    ones being overwritten (and so are the FSx mount name and DNS name),
    while the EBS option string accumulates the mount directories of all
    EBS declarations, comma-separated, in order. *)
Theorem option_strings_overwritten_or_accumulated e s :
  (forall l1 d l2,
     shared_storage_type d <> EBS ->
     no_later (shared_storage_type d) l2 ->
     exists s1 w1 s' w,
       for_each l1 _add_shared_storage e s = Done tt s1 w1 /\
       for_each (l1 ++ d :: l2) _add_shared_storage e s = Done tt s' w /\
       shared_storage_options (storage s') (shared_storage_type d) =
         option_record d (recorded_id d (storage s1)) /\
       match d with
       | StorageFsx f =>
           dict_get "MountName" (shared_storage_attributes (storage s') FSX) =
             Some (fsx_mount_name_of (cfn_resource_id d (storage s1)) f) /\
           dict_get "DNSName" (shared_storage_attributes (storage s') FSX) =
             Some (SharedFsx.existing_dns_name f)
       | _ => True
       end) /\
  (forall l,
     shared_storage_options (storage s) EBS = "" ->
     Forall (fun dir => dir <> "") (ebs_mount_dirs l) ->
     exists s' w,
       for_each l _add_shared_storage e s = Done tt s' w /\
       shared_storage_options (storage s') EBS = join "," (ebs_mount_dirs l)).
Proof.
  split.
  - intros l1 d l2 Ht Hno. rewrite !for_each_storage_run. do 4 eexists.
    split; [reflexivity|]. split; [reflexivity|].
    cbn [storage with_storage]. rewrite storage_after_all_app.
    change (storage_after_all (d :: l2) ?st) with (storage_after_all l2 (storage_after d st)).
    rewrite storage_after_all_options by assumption.
    split; [now apply storage_after_options|].
    destruct d; try exact I.
    rewrite storage_after_all_attributes by assumption.
    apply storage_after_fsx_attributes.
  - intros l H0 Hd. rewrite for_each_storage_run. do 2 eexists. split; [reflexivity|].
    cbn [storage with_storage]. rewrite storage_after_all_ebs_options, H0.
    now apply fold_append_dir_empty.
Qed.

(** ** Network interfaces of a compute resource *)

Lemma map_device_index_seq {A : Type} (f : nat -> A) (g : A -> nat) start len :
  (forall n, g (f n) = n) -> map g (map f (seq start len)) = seq start len.
Proof. intros H. rewrite map_map. rewrite (map_ext _ (fun n => n)) by assumption. apply map_id. Qed.

(** C8, as the code has it.  A compute resource gets
    max(1, [max_network_interface_count]) network interfaces, with device
    indices 0, 1, ...: the first carries no network card index, and the
    interface of each further device index i lies on network card i; each
    is in the queue's first subnet with the queue's security groups.  The
    only failure is an IndexError for a queue without subnets, never a
    ValidationError, and the launch template holds exactly those
    interfaces. *)
Theorem compute_network_interfaces u self queue compute_resource pre post sgs placement profiles :
  let count := Nat.max 1 (ComputeResource.max_network_interface_count compute_resource) in
  (forall subnet rest,
     QueueNetworking.subnet_ids (Queue.networking queue) = subnet :: rest ->
     exists interfaces,
       ComputeFleetConstruct.compute_lt_nw_interfaces queue compute_resource sgs = Ok interfaces /\
       map device_index interfaces = seq 0 count /\
       map network_card_index interfaces = None :: map Some (seq 1 (count - 1)) /\
       Forall (fun i => groups i = Some sgs /\ nic_subnet_id i = Some subnet) interfaces) /\
  (QueueNetworking.subnet_ids (Queue.networking queue) = [] ->
   ComputeFleetConstruct.compute_lt_nw_interfaces queue compute_resource sgs = Raise IndexError) /\
  (forall path,
     ComputeFleetConstruct.compute_lt_nw_interfaces queue compute_resource sgs
       <> Raise (ValidationError path)) /\
  (forall template,
     ComputeFleetConstruct._add_compute_resource_launch_template u self queue compute_resource
       pre post sgs placement profiles = Ok template ->
     exists rid name data metadata,
       template = CfnLaunchTemplate rid name data metadata /\
       ComputeFleetConstruct.compute_lt_nw_interfaces queue compute_resource sgs =
         Ok (lt_network_interfaces data)).
Proof.
  intros count. unfold ComputeFleetConstruct.compute_lt_nw_interfaces.
  repeat split.
  - intros subnet rest ->. cbn [first rbind]. eexists. split; [reflexivity|]. split; [|split].
    + cbn [map device_index]. rewrite map_device_index_seq by reflexivity.
      subst count.
      destruct (ComputeResource.max_network_interface_count compute_resource) as [|[|n]];
        reflexivity.
    + cbn [map network_card_index]. rewrite map_map. cbn [network_card_index].
      subst count.
      destruct (ComputeResource.max_network_interface_count compute_resource) as [|[|n]];
        reflexivity.
    + constructor; [now split|]. apply Forall_forall. intros i Hi.
      apply in_map_iff in Hi. destruct Hi as (n & <- & _). now split.
  - intros ->. reflexivity.
  - intros path. destruct (QueueNetworking.subnet_ids (Queue.networking queue)); discriminate.
  - intros template. unfold ComputeFleetConstruct._add_compute_resource_launch_template.
    unfold ComputeFleetConstruct.compute_lt_nw_interfaces.
    destruct (first (QueueNetworking.subnet_ids (Queue.networking queue))); [|discriminate].
    cbn [rbind].
    destruct (dict_lookup (Queue.name queue) _); [|discriminate]. cbn [rbind].
    destruct (dict_lookup (Queue.name queue) profiles); [|discriminate]. cbn [rbind].
    destruct (ComputeFleetConstruct.compute_user_data_env _ _ _ _ _ _); [|discriminate].
    cbn [rbind]. intros H. inversion H. do 4 eexists. split; reflexivity.
Qed.

(** C8, as the specification has it, does not hold.  No table of what an
    instance type supports is consulted: with one interface supported and
    three asked for, three are built and nothing is raised. *)
Lemma network_interface_count_counterexample :
  let compute_resource := Sample.compute_resource "cr1" 3 false in
  let queue := Sample.queue "q1" None [compute_resource] in
  ~ (forall supported : string -> nat,
       supported (ComputeResource.instance_type compute_resource)
         < ComputeResource.max_network_interface_count compute_resource ->
       exists path,
         ComputeFleetConstruct.compute_lt_nw_interfaces queue compute_resource
           ["sg-1"] = Raise (ValidationError path)).
Proof.
  intros compute_resource queue H.
  destruct (H (fun _ => 1)) as [path Hpath]; [simpl; lia|].
  discriminate Hpath.
Qed.

(** ** The configuration after synthesis *)

(** Reading the full head-node group set hands out the configuration's own
    list and extends it in place: the configuration holds the additional
    groups once more after every read. *)
Lemma _get_head_node_security_groups_full_run e s g gs a additional :
  HeadNodeNetworking.security_groups (head_networking (config s)) = Some (g :: gs) ->
  HeadNodeNetworking.additional_security_groups (head_networking (config s))
    = Some (a :: additional) ->
  _get_head_node_security_groups_full e s =
    Done ConfigHeadSecurityGroups
      (with_config
         (set_head_security_groups (Some ((g :: gs) ++ a :: additional)) (config s)) s) [].
Proof.
  intros Hsg Hadd.
  unfold _get_head_node_security_groups_full, _get_head_node_security_groups, list_extend,
    list_read.
  mrun. rewrite Hsg. cbn [truthy_list]. mrun. rewrite Hadd. cbn [truthy_list list_or_nil]. mrun.
  now rewrite Hsg.
Qed.

(** A head node with one security group of the user's and one additional
    group, on two network interfaces. *)
Definition cluster_with_head_security_groups : ClusterConfig.t :=
  Sample.cluster "slurm" (Sample.head_node (Some ["sg-user"]) (Some ["sg-extra"]))
    [Sample.queue "q1" None [Sample.compute_resource "cr1" 1 false]] None.

(** The group sets of the head node's network interface and of the
    interfaces of its launch template. *)
Definition head_group_sets (w : list event) : list (list string) :=
  flat_map (fun r =>
              match r with
              | CfnNetworkInterface "HeadNodeENI" _ group_set => [group_set]
              | CfnLaunchTemplate "HeadNodeLaunchTemplate" _ data _ =>
                  flat_map (fun i => match groups i with Some g => [g] | None => [] end)
                    (lt_network_interfaces data)
              | _ => []
              end) (declared w).

(** C3.  Synthesis changes the configuration: for a head node with
    security groups ["sg-user"], additional groups ["sg-extra"] and two
    network interfaces, the configuration holds ["sg-user"; "sg-extra";
    "sg-extra"] after the run, and the two reads of the full group set gave
    two different lists. *)
Theorem head_security_groups_accumulate :
  exists s w,
    ClusterCdkStack (Sample.env PNone) (Sample.clock 0) cluster_with_head_security_groups
      = Done tt s w /\
    HeadNodeNetworking.security_groups (head_networking cluster_with_head_security_groups)
      = Some ["sg-user"] /\
    HeadNodeNetworking.security_groups (head_networking (config s))
      = Some ["sg-user"; "sg-extra"; "sg-extra"] /\
    head_group_sets w = [["sg-user"; "sg-extra"]; ["sg-user"; "sg-extra"; "sg-extra"]].
Proof.
  do 2 eexists. split; [vm_compute; reflexivity|]. repeat split.
Qed.

(** ** Scheduler-specific resources

    The resource graph of a run: every resource it declares, with the
    children of the constructs. *)

Fixpoint nodes (r : resource) : list resource :=
  r :: match r with
       | Construct _ children => flat_map nodes children
       | _ => []
       end.

Definition graph (w : list event) : list resource := flat_map nodes (declared w).

Definition is_slurm_only (r : resource) : bool :=
  match r with
  | CfnHostedZone _ | CfnTable _ => true
  | Construct rid _ => (rid =? "Slurm")%string
  | _ => false
  end.

Definition is_batch_only (r : resource) : bool :=
  match r with
  | CfnComputeEnvironment _ | CfnJobQueue _ => true
  | Construct rid _ => (rid =? "AwsBatch")%string
  | _ => false
  end.

Definition is_compute_fleet (r : resource) : bool :=
  match r with
  | Construct rid _ => (rid =? "ComputeFleet")%string
  | _ => false
  end.

(** A resource that belongs to no scheduler: a leaf other than the
    scheduler's own and the head node instance, or a construct of
    [cdk_builder_utils]. *)
Definition plain (r : resource) : bool :=
  match r with
  | CfnHostedZone _ | CfnTable _ | CfnComputeEnvironment _ | CfnJobQueue _
  | CfnInstance _ _ _ _ => false
  | Construct rid children =>
      match children with
      | [] => negb ((rid =? "Slurm") || (rid =? "AwsBatch") || (rid =? "ComputeFleet"))%string
      | _ => false
      end
  | _ => true
  end.

Definition scheduler_of (s : stack) : string := ClusterConfig.scheduler (config s).

(** A method that declares only plain resources and leaves the scheduler
    kind of the configuration as it is. *)
Definition plain_method {A : Type} (m : M A) : Prop :=
  forall e s a s' w,
    m e s = Done a s' w ->
    forallb plain (declared w) = true /\ scheduler_of s' = scheduler_of s.

Lemma declared_app w1 w2 : declared (w1 ++ w2) = declared w1 ++ declared w2.
Proof.
  induction w1 as [|ev w1 IH]; [reflexivity|]. destruct ev; simpl; now rewrite IH.
Qed.

Lemma plain_ret {A : Type} (a : A) : plain_method (ret a).
Proof. intros e s a' s' w H. inversion H; subst. now split. Qed.

Lemma plain_get : plain_method get.
Proof. intros e s a' s' w H. inversion H; subst. now split. Qed.

Lemma plain_ask : plain_method ask.
Proof. intros e s a' s' w H. inversion H; subst. now split. Qed.

Lemma plain_raise {A : Type} x : plain_method (@raise A x).
Proof. intros e s a' s' w H. discriminate H. Qed.

Lemma plain_lift {A : Type} (r : result A) : plain_method (lift r).
Proof. intros e s a' s' w H. unfold lift in H. destruct r; inversion H; subst. now split. Qed.

Lemma plain_modify f :
  (forall s, scheduler_of (f s) = scheduler_of s) -> plain_method (modify f).
Proof. intros Hf e s a' s' w H. inversion H; subst. now split. Qed.

Lemma plain_add_resource r : plain r = true -> plain_method (add_resource r).
Proof. intros Hr e s a' s' w H. inversion H; subst. simpl. now rewrite Hr. Qed.

Lemma plain_lookup c : plain_method (emit (Lookup c)).
Proof. intros e s a' s' w H. inversion H; subst. now split. Qed.

Lemma plain_bind {A B : Type} (m : M A) (k : A -> M B) :
  plain_method m -> (forall a, plain_method (k a)) -> plain_method (bind m k).
Proof.
  intros Hm Hk e s b s'' w H.
  apply bind_inv in H. destruct H as (a & s' & w1 & w2 & H1 & H2 & ->).
  destruct (Hm _ _ _ _ _ H1) as [P1 S1]. destruct (Hk a _ _ _ _ _ H2) as [P2 S2].
  rewrite declared_app, forallb_app, P1, P2. split; [reflexivity|congruence].
Qed.

Lemma plain_when b m : plain_method m -> plain_method (when b m).
Proof. intros Hm. destruct b; [exact Hm|apply plain_ret]. Qed.

Lemma plain_for_each {A : Type} (l : list A) (body : A -> M unit) :
  (forall x, plain_method (body x)) -> plain_method (for_each l body).
Proof.
  intros Hb. induction l as [|x l IH]; simpl; [apply plain_ret|].
  apply plain_bind; [apply Hb|intros _; exact IH].
Qed.

Create HintDb plain.
#[export] Hint Resolve plain_ret plain_get plain_ask plain_raise plain_lift plain_lookup : plain.

(** One step of a proof that a method is plain: by a lemma already known,
    by the shape of the program, or by cases on what it branches on. *)
Ltac plain_step :=
  first
    [ solve [auto with plain]
    | apply plain_bind; [|intros ?]
    | apply plain_add_resource; reflexivity
    | apply plain_modify; intros ?; reflexivity
    | apply plain_when
    | apply plain_for_each; intros ?
    | match goal with
      | |- plain_method (if ?c then _ else _) => destruct c
      | |- plain_method (match ?x with _ => _ end) => destruct x
      | |- plain_method (let '(_, _) := ?x in _) => destruct x
      end ].

Ltac plain_auto := repeat plain_step.

Lemma plain_condition_is_slurm : plain_method _condition_is_slurm.
Proof. unfold _condition_is_slurm. plain_auto. Qed.

Lemma plain_condition_is_batch : plain_method _condition_is_batch.
Proof. unfold _condition_is_batch. plain_auto. Qed.

Lemma plain_condition_is_byos : plain_method _condition_is_byos.
Proof. unfold _condition_is_byos. plain_auto. Qed.

Lemma plain_condition_create_lambda_iam_role : plain_method _condition_create_lambda_iam_role.
Proof. unfold _condition_create_lambda_iam_role. plain_auto. Qed.

#[export] Hint Resolve plain_condition_is_slurm plain_condition_is_batch plain_condition_is_byos
  plain_condition_create_lambda_iam_role : plain.

Lemma plain_ref_of x : plain_method (ref_of x).
Proof. unfold ref_of. plain_auto. Qed.

Lemma plain_list_read o : plain_method (list_read o).
Proof. unfold list_read. plain_auto. Qed.

#[export] Hint Resolve plain_ref_of plain_list_read : plain.

Lemma plain_list_extend o items : plain_method (list_extend o items).
Proof. unfold list_extend. plain_auto. Qed.

#[export] Hint Resolve plain_list_extend : plain.

Lemma plain_get_head_node_security_groups_full :
  plain_method _get_head_node_security_groups_full.
Proof.
  unfold _get_head_node_security_groups_full, _get_head_node_security_groups. plain_auto.
Qed.

Lemma plain_get_compute_security_groups : plain_method _get_compute_security_groups.
Proof. unfold _get_compute_security_groups. plain_auto. Qed.

Lemma plain_add_parameters : plain_method _add_parameters.
Proof. unfold _add_parameters. plain_auto. Qed.

Lemma plain_add_cluster_log_group : plain_method _add_cluster_log_group.
Proof. unfold _add_cluster_log_group. plain_auto. Qed.

Lemma plain_set_attrs f : plain_method (set_attrs f).
Proof. unfold set_attrs. plain_auto. Qed.

#[export] Hint Resolve plain_get_head_node_security_groups_full
  plain_get_compute_security_groups plain_add_parameters plain_add_cluster_log_group
  plain_set_attrs : plain.

Lemma plain_add_iam_resources : plain_method _add_iam_resources.
Proof. unfold _add_iam_resources. plain_auto. Qed.

Lemma plain_add_cleanup_resources_lambda : plain_method _add_cleanup_resources_lambda.
Proof. unfold _add_cleanup_resources_lambda. plain_auto. Qed.

Lemma plain_add_security_groups : plain_method _add_security_groups.
Proof.
  unfold _add_security_groups, _add_head_security_group, _add_compute_security_group.
  plain_auto.
Qed.

Lemma plain_add_head_eni : plain_method _add_head_eni.
Proof.
  unfold _add_head_eni, api_get_eip_allocation_id. plain_auto.
Qed.

Lemma plain_add_byos_substack : plain_method _add_byos_substack.
Proof. unfold _add_byos_substack. plain_auto. Qed.

Lemma plain_add_wait_condition ts : plain_method (_add_wait_condition ts).
Proof. unfold _add_wait_condition. plain_auto. Qed.

#[export] Hint Resolve plain_add_iam_resources plain_add_cleanup_resources_lambda
  plain_add_security_groups plain_add_head_eni plain_add_byos_substack
  plain_add_wait_condition : plain.

Lemma plain_add_cfn_volume id shared_ebs : plain_method (_add_cfn_volume id shared_ebs).
Proof. unfold _add_cfn_volume. plain_auto. Qed.

#[export] Hint Resolve plain_add_cfn_volume : plain.

Lemma plain_modify_storage f : plain_method (modify_storage f).
Proof. unfold modify_storage. plain_auto. Qed.

#[export] Hint Resolve plain_modify_storage : plain.

Lemma plain_add_ebs_volume id shared_ebs : plain_method (_add_ebs_volume id shared_ebs).
Proof. unfold _add_ebs_volume. plain_auto. Qed.

Lemma plain_add_raid_volumes id_prefix shared_ebs raid count : forall index ebs_ids,
  plain_method (_add_raid_volumes id_prefix shared_ebs raid index count ebs_ids).
Proof. induction count as [|count IH]; intros index ebs_ids; simpl; plain_auto. Qed.

#[export] Hint Resolve plain_add_ebs_volume plain_add_raid_volumes : plain.

Lemma plain_add_raid_volume id_prefix shared_ebs raid :
  plain_method (_add_raid_volume id_prefix shared_ebs raid).
Proof. unfold _add_raid_volume. plain_auto. Qed.

Lemma plain_add_efs_mount_target id fs sgs subnet checked new :
  plain_method (_add_efs_mount_target id fs sgs subnet checked new).
Proof.
  unfold _add_efs_mount_target, api_get_subnet_avail_zone, api_get_efs_mount_target_id.
  plain_auto.
Qed.

#[export] Hint Resolve plain_add_raid_volume plain_add_efs_mount_target : plain.

Lemma plain_add_efs_mount_targets id fs sgs subnets new : forall checked,
  plain_method (_add_efs_mount_targets id fs sgs subnets checked new).
Proof. induction subnets as [|x rest IH]; intros checked; simpl; plain_auto. Qed.

#[export] Hint Resolve plain_add_efs_mount_targets : plain.

Lemma plain_add_efs_storage id shared_efs : plain_method (_add_efs_storage id shared_efs).
Proof. unfold _add_efs_storage. plain_auto. Qed.

Lemma plain_add_fsx_storage id shared_fsx : plain_method (_add_fsx_storage id shared_fsx).
Proof. unfold _add_fsx_storage. plain_auto. Qed.

#[export] Hint Resolve plain_add_efs_storage plain_add_fsx_storage : plain.

Lemma plain_add_shared_storage d : plain_method (_add_shared_storage d).
Proof. unfold _add_shared_storage. plain_auto. Qed.

Lemma plain_add_outputs : plain_method _add_outputs.
Proof. unfold _add_outputs. plain_auto. Qed.

Lemma plain_dna_json : plain_method dna_json.
Proof. unfold dna_json. plain_auto. Qed.

Lemma plain_cfn_init dna ltc : plain_method (cfn_init dna ltc).
Proof. unfold cfn_init. plain_auto. Qed.

Lemma plain_get_launch_templates_config : plain_method _get_launch_templates_config.
Proof. unfold _get_launch_templates_config. plain_auto. Qed.

#[export] Hint Resolve plain_add_shared_storage plain_add_outputs plain_dna_json plain_cfn_init
  plain_get_launch_templates_config : plain.

(** *** The compute fleet declares leaves only *)

Lemma plain_placement_groups u queues : forall d,
  forallb plain (snd (ComputeFleetConstruct._add_placement_groups u queues d)) = true.
Proof.
  induction queues as [|queue rest IH]; intros d; simpl; [reflexivity|].
  destruct (ComputeFleetConstruct.placement_group_enabled queue
            && negb (truthy (ComputeFleetConstruct.placement_group_id queue))); [|apply IH].
  specialize (IH (dict_set (Queue.name queue)
                    ("PlacementGroup" ++ create_hash_suffix u (Queue.name queue))%string d)).
  destruct (ComputeFleetConstruct._add_placement_groups u rest _). simpl in *. exact IH.
Qed.

Lemma plain_compute_resource_launch_template u self queue cr pre post sgs pg profiles r :
  ComputeFleetConstruct._add_compute_resource_launch_template u self queue cr pre post sgs pg
    profiles = Ok r ->
  plain r = true.
Proof.
  unfold ComputeFleetConstruct._add_compute_resource_launch_template.
  destruct (ComputeFleetConstruct.compute_lt_nw_interfaces queue cr sgs); [|discriminate].
  cbn [rbind]. destruct (dict_lookup (Queue.name queue) _); [|discriminate]. cbn [rbind].
  destruct (dict_lookup (Queue.name queue) profiles); [|discriminate]. cbn [rbind].
  destruct (ComputeFleetConstruct.compute_user_data_env _ _ _ _ _ _); [|discriminate].
  cbn [rbind]. intros H. inversion H. reflexivity.
Qed.

Lemma plain_queue_launch_templates u self queue crs sgs pg profiles : forall templates r,
  ComputeFleetConstruct._add_queue_launch_templates u self queue crs sgs pg profiles templates
    = Ok r ->
  forallb plain (snd r) = true.
Proof.
  induction crs as [|cr rest IH]; intros templates r; simpl.
  - intros H. inversion H. reflexivity.
  - destruct (ComputeFleetConstruct._add_compute_resource_launch_template _ _ _ _ _ _ _ _ _)
      as [lt|] eqn:Hlt; [|discriminate].
    cbn [rbind].
    destruct (ComputeFleetConstruct._add_queue_launch_templates _ _ _ rest _ _ _ _)
      as [q|] eqn:Hq; [|discriminate].
    cbn [rbind]. intros H. inversion H. simpl.
    rewrite (plain_compute_resource_launch_template _ _ _ _ _ _ _ _ _ _ Hlt).
    exact (IH _ _ Hq).
Qed.

Lemma plain_launch_templates u self queues placement profiles : forall templates r,
  ComputeFleetConstruct._add_launch_templates u self queues placement profiles templates = Ok r ->
  forallb plain (snd r) = true.
Proof.
  induction queues as [|queue rest IH]; intros templates r; simpl.
  - intros H. inversion H. reflexivity.
  - match goal with
    | |- rbind ?x _ = _ -> _ => destruct x as [group|]; [|discriminate]
    end.
    cbn [rbind].
    destruct (ComputeFleetConstruct._add_queue_launch_templates _ _ _ _ _ _ _ _)
      as [q|] eqn:Hq; [|discriminate].
    cbn [rbind].
    destruct (ComputeFleetConstruct._add_launch_templates _ _ rest _ _ _)
      as [r'|] eqn:Hr; [|discriminate].
    cbn [rbind]. intros H. inversion H. simpl.
    rewrite forallb_app, (plain_queue_launch_templates _ _ _ _ _ _ _ _ _ Hq).
    exact (IH _ _ Hr).
Qed.

Lemma plain_compute_fleet_children u self r :
  ComputeFleetConstruct._add_resources u self = Ok r -> forallb plain (snd r) = true.
Proof.
  unfold ComputeFleetConstruct._add_resources.
  pose proof (plain_placement_groups u (ClusterConfig.queues (ComputeFleetConstruct._config self))
                []) as Hpg.
  destruct (ComputeFleetConstruct._add_placement_groups u _ []) as [d pgs]. simpl in Hpg.
  destruct (ComputeFleetConstruct._add_launch_templates _ _ _ _ _ _) as [lt|] eqn:Hlt;
    [|discriminate].
  cbn [rbind]. intros H. inversion H. simpl.
  rewrite !forallb_app, Hpg, (plain_launch_templates _ _ _ _ _ _ _ Hlt). reflexivity.
Qed.

(** *** What a run may declare under each scheduler kind *)

Definition slurm_construct : resource :=
  Construct "Slurm" [CfnHostedZone "ClusterHostedZone"; CfnTable "DynamoDBTable"].

Definition batch_construct : resource :=
  Construct "AwsBatch" [CfnComputeEnvironment "ComputeEnvironment"; CfnJobQueue "JobQueue"].

Definition is_nil {A : Type} (l : list A) : bool :=
  match l with
  | [] => true
  | _ => false
  end.

(** Beside plain resources: the scheduler's own construct, the compute
    fleet unless the scheduler is AWS Batch, and the head node instance,
    which under AWS Batch depends on nothing. *)
Definition allowed (sched : string) (r : resource) : bool :=
  plain r
  || match r with
     | Construct rid children =>
         if (rid =? "Slurm")%string then
           (sched =? "slurm")%string
           && match children with
              | [CfnHostedZone _; CfnTable _] => true
              | _ => false
              end
         else if (rid =? "AwsBatch")%string then
           (sched =? "awsbatch")%string
           && match children with
              | [CfnComputeEnvironment _; CfnJobQueue _] => true
              | _ => false
              end
         else if (rid =? "ComputeFleet")%string then
           negb (sched =? "awsbatch")%string && forallb plain children
         else false
     | CfnInstance _ _ _ dependencies => negb (sched =? "awsbatch")%string || is_nil dependencies
     | _ => false
     end.

Lemma plain_allowed sched r : plain r = true -> allowed sched r = true.
Proof. intros H. unfold allowed. now rewrite H. Qed.

Lemma forallb_plain_allowed sched l : forallb plain l = true -> forallb (allowed sched) l = true.
Proof.
  rewrite !forallb_forall. intros H r Hr. apply plain_allowed. now apply H.
Qed.

(** *** Stepping through a run that ended well *)

Lemma _condition_is_slurm_inv e s a s' w :
  _condition_is_slurm e s = Done a s' w ->
  a = (scheduler_of s =? "slurm")%string /\ s' = s /\ w = [].
Proof. unfold _condition_is_slurm. mrun. intros H. now inversion H. Qed.

Lemma _condition_is_batch_inv e s a s' w :
  _condition_is_batch e s = Done a s' w ->
  a = (scheduler_of s =? "awsbatch")%string /\ s' = s /\ w = [].
Proof. unfold _condition_is_batch. mrun. intros H. now inversion H. Qed.

Lemma _condition_is_byos_inv e s a s' w :
  _condition_is_byos e s = Done a s' w ->
  a = (scheduler_of s =? "byos")%string /\ s' = s /\ w = [].
Proof. unfold _condition_is_byos. mrun. intros H. now inversion H. Qed.

Lemma get_inv e s a s' w : get e s = Done a s' w -> a = s /\ s' = s /\ w = [].
Proof. intros H. now inversion H. Qed.

Lemma ask_inv e s a s' w : ask e s = Done a s' w -> a = e /\ s' = s /\ w = [].
Proof. intros H. now inversion H. Qed.

Lemma ret_inv {A : Type} (v : A) e s a s' w : ret v e s = Done a s' w -> a = v /\ s' = s /\ w = [].
Proof. intros H. now inversion H. Qed.

(** Split a run of [m ;; k] into the run of [m] and the run of [k]. *)
Ltac split_run H H1 :=
  apply bind_inv in H;
  let a := fresh "a" in
  let s := fresh "s" in
  let w1 := fresh "w" in
  let w2 := fresh "w" in
  destruct H as (a & s & w1 & w2 & H1 & H & ->).

(** What is known of the run [H1] of one step. *)
Ltac learn H1 :=
  lazymatch type of H1 with
  | get _ _ = _ => apply get_inv in H1; destruct H1 as (-> & -> & ->)
  | ask _ _ = _ => apply ask_inv in H1; destruct H1 as (-> & -> & ->)
  | ret _ _ _ = _ => apply ret_inv in H1; destruct H1 as (-> & -> & ->)
  | _condition_is_slurm _ _ = _ =>
      apply _condition_is_slurm_inv in H1; destruct H1 as (-> & -> & ->)
  | _condition_is_batch _ _ = _ =>
      apply _condition_is_batch_inv in H1; destruct H1 as (-> & -> & ->)
  | _condition_is_byos _ _ = _ =>
      apply _condition_is_byos_inv in H1; destruct H1 as (-> & -> & ->)
  | ?m ?e ?s = Done ?a ?s' ?w =>
      let P := fresh "P" in
      assert (P : plain_method m) by (plain_auto);
      let Hp := fresh "Hplain" in
      let Hs := fresh "Hsched" in
      destruct (P e s a s' w H1) as [Hp Hs]; clear P H1
  end.

Ltac step H := let H1 := fresh "Hstep" in split_run H H1; learn H1.

Lemma _add_compute_fleet_inv role lambda e s a s' w :
  _add_compute_fleet role lambda e s = Done a s' w ->
  exists children,
    declared w = [Construct "ComputeFleet" children] /\
    forallb plain children = true /\
    scheduler_of s' = scheduler_of s.
Proof.
  unfold _add_compute_fleet. mrun.
  match goal with
  | |- context [ComputeFleetConstruct._add_resources ?u ?self] =>
      destruct (ComputeFleetConstruct._add_resources u self) as [built|] eqn:B
  end; mrun; [|discriminate].
  intros H. inversion H; subst. exists (snd built). split; [reflexivity|].
  split; [|reflexivity]. exact (plain_compute_fleet_children _ _ _ B).
Qed.

Lemma _add_head_node_inv e s a s' w :
  _add_head_node e s = Done a s' w ->
  forallb (allowed (scheduler_of s)) (declared w) = true /\ scheduler_of s' = scheduler_of s.
Proof.
  unfold _add_head_node. intros H.
  step H. step H. step H. step H. step H. step H. step H. step H. step H. step H.
  split_run H Hfleet. step H.
  apply bind_inv in H. destruct H as (? & ? & ? & ? & Hinstance & Hret & ->).
  inversion Hinstance; subst; clear Hinstance. inversion Hret; subst; clear Hret.
  assert (E3 : scheduler_of s3 = scheduler_of s) by congruence.
  rewrite E3 in Hfleet.
  destruct (scheduler_of s =? "awsbatch")%string eqn:B; cbn [negb] in Hfleet.
  - inversion Hfleet; subst; clear Hfleet.
    assert (Hs : scheduler_of s' = scheduler_of s) by congruence.
    split; [|exact Hs]. rewrite Hs.
    apply String.eqb_eq in B. rewrite B.
    rewrite !declared_app, !forallb_app.
    repeat match goal with
           | Hp : forallb plain (declared _) = true |- _ =>
               rewrite (forallb_plain_allowed _ _ Hp); clear Hp
           end.
    destruct (byos_stack (attrs s0)); reflexivity.
  - assert (Hs : scheduler_of s' = scheduler_of s).
    { destruct (compute_fleet_resources (attrs s0)); inversion Hfleet; subst. congruence. }
    split; [|exact Hs].
    assert (Hw6 : declared w6 = []).
    { destruct (compute_fleet_resources (attrs s0)); inversion Hfleet; subst. reflexivity. }
    rewrite !declared_app, !forallb_app, Hw6.
    repeat match goal with
           | Hp : forallb plain (declared _) = true |- _ =>
               rewrite (forallb_plain_allowed _ _ Hp); clear Hp
           end.
    cbn [declared forallb andb]. unfold allowed. rewrite B. reflexivity.
Qed.

(** Rewrite every scheduler kind met along a run into the one it started
    with. *)
Ltac chain_scheduler sched Esched :=
  repeat match goal with
         | Hs : scheduler_of ?x = scheduler_of _ |- _ =>
             rewrite Hs in *; clear Hs; try clear x
         end;
  rewrite <- ?Esched in *.

Ltac use_plain sched :=
  repeat match goal with
         | Hp : forallb plain (declared _) = true |- _ =>
             rewrite (forallb_plain_allowed sched _ Hp); clear Hp
         end.

Lemma slurm_step_inv (b : bool) e s a s' w :
  (if b
   then let '(construct, exposed) := SlurmConstruct "Slurm" in
        add_resource construct ;; set_attrs (attrs_with_scheduler_resources (Some exposed))
   else ret tt) e s = Done a s' w ->
  declared w = (if b then [slurm_construct] else []) /\ scheduler_of s' = scheduler_of s.
Proof.
  destruct b; cbn [SlurmConstruct]; unfold add_resource, set_attrs; mrun;
    intros H; inversion H; subst; now split.
Qed.

Lemma batch_step_inv (b : bool) e s a s' w :
  (if b
   then let '(construct, exposed) := AwsBatchConstruct "AwsBatch" in
        add_resource construct ;; set_attrs (attrs_with_scheduler_resources (Some exposed))
   else ret tt) e s = Done a s' w ->
  declared w = (if b then [batch_construct] else []) /\ scheduler_of s' = scheduler_of s.
Proof.
  destruct b; cbn [AwsBatchConstruct]; unfold add_resource, set_attrs; mrun;
    intros H; inversion H; subst; now split.
Qed.

Lemma fleet_step_inv (b : bool) role lambda e s a s' w :
  (if negb b then _add_compute_fleet role lambda else ret tt) e s = Done a s' w ->
  exists children,
    declared w = (if b then [] else [Construct "ComputeFleet" children]) /\
    forallb plain children = true /\
    scheduler_of s' = scheduler_of s.
Proof.
  destruct b; cbn [negb].
  - intros H. inversion H; subst. now exists [].
  - apply _add_compute_fleet_inv.
Qed.

(** One pass over [_add_resources]: what it declares is allowed for the
    scheduler kind, and the scheduler's construct is among it. *)
Lemma _add_resources_inv ts e s a s' w :
  _add_resources ts e s = Done a s' w ->
  forallb (allowed (scheduler_of s)) (declared w) = true /\
  scheduler_of s' = scheduler_of s /\
  (scheduler_of s = "slurm" -> In slurm_construct (declared w)) /\
  (scheduler_of s = "awsbatch" -> In batch_construct (declared w)).
Proof.
  unfold _add_resources. intros H.
  remember (scheduler_of s) as sched eqn:Esched.
  step H. step H. step H. step H. step H. step H. step H. step H. step H. step H.
  step H. step H. step H. step H.
  split_run H Hslurm. step H. step H. split_run H Hfleet. step H. step H. step H.
  split_run H Hhead. step H. split_run H Hbatch. step H. learn H.
  apply slurm_step_inv in Hslurm. destruct Hslurm as [Hslurm Hsched_slurm].
  apply fleet_step_inv in Hfleet. destruct Hfleet as (children & Hfleet & Hchildren & Hsched_fleet).
  apply batch_step_inv in Hbatch. destruct Hbatch as [Hbatch Hsched_batch].
  apply _add_head_node_inv in Hhead. destruct Hhead as [Hhead Hsched_head].
  chain_scheduler sched Esched.
  rewrite !declared_app, !forallb_app, Hslurm, Hfleet, Hbatch.
  use_plain sched. rewrite Hhead. cbn [declared forallb andb app].
  split; [|split; [reflexivity|split]].
  - unfold allowed, slurm_construct, batch_construct. cbn [plain orb String.eqb Ascii.eqb Bool.eqb].
    destruct (sched =? "slurm")%string, (sched =? "awsbatch")%string; cbn; rewrite ?Hchildren;
      try reflexivity; destruct children; reflexivity.
  - intros ->. cbn. rewrite !in_app_iff. cbn. tauto.
  - intros ->. cbn. rewrite !in_app_iff. cbn. tauto.
Qed.

Lemma __init___inv clock e s a s' w :
  __init__ clock e s = Done a s' w ->
  forallb (allowed (scheduler_of s)) (declared w) = true /\
  (scheduler_of s = "slurm" -> In slurm_construct (declared w)) /\
  (scheduler_of s = "awsbatch" -> In batch_construct (declared w)).
Proof.
  unfold __init__. intros H.
  remember (scheduler_of s) as sched eqn:Esched.
  step H. step H. step H. step H. split_run H Hresources. learn H.
  apply _add_resources_inv in Hresources.
  destruct Hresources as (Hallowed & Hsched_resources & Hslurm & Hbatch).
  chain_scheduler sched Esched.
  rewrite !declared_app, !forallb_app. use_plain sched. rewrite Hallowed.
  repeat split.
  - intros Hs. specialize (Hslurm Hs). rewrite !in_app_iff. tauto.
  - intros Hs. specialize (Hbatch Hs). rewrite !in_app_iff. tauto.
Qed.

(** *** From what is declared to the graph *)

Lemma plain_nodes r :
  plain r = true ->
  nodes r = [r] /\ is_slurm_only r = false /\ is_batch_only r = false /\
  is_compute_fleet r = false /\
  (forall rid lt v deps, r <> CfnInstance rid lt v deps).
Proof.
  destruct r; cbn [plain]; try discriminate; intros H;
    try (repeat split; try reflexivity; intros; discriminate).
  destruct children; [|discriminate]. apply negb_true_iff in H.
  apply orb_false_iff in H. destruct H as [H Hf]. apply orb_false_iff in H. destruct H as [Hs Hb].
  repeat split; try assumption. intros; discriminate.
Qed.

Lemma plain_children_nodes children :
  forallb plain children = true -> flat_map nodes children = children.
Proof.
  induction children as [|c rest IH]; [reflexivity|]. cbn [forallb flat_map].
  intros H. apply andb_true_iff in H. destruct H as [Hc Hrest].
  destruct (plain_nodes c Hc) as [-> _]. now rewrite IH.
Qed.

Lemma in_graph w r r' : In r (declared w) -> In r' (nodes r) -> In r' (graph w).
Proof. intros Hr Hr'. unfold graph. apply in_flat_map. now exists r. Qed.

Lemma graph_inv w r' : In r' (graph w) -> exists r, In r (declared w) /\ In r' (nodes r).
Proof. unfold graph. intros H. now apply in_flat_map in H. Qed.

Lemma allowed_slurm_nodes r r' :
  allowed "slurm" r = true -> In r' (nodes r) -> is_batch_only r' = false.
Proof.
  unfold allowed. intros H Hin. apply orb_true_iff in H. destruct H as [H|H].
  - destruct (plain_nodes r H) as (Hn & _ & Hb & _). rewrite Hn in Hin.
    destruct Hin as [<-|[]]. exact Hb.
  - destruct r; try discriminate.
    + destruct Hin as [<-|[]]. reflexivity.
    + destruct (rid =? "Slurm")%string eqn:Es.
      * apply String.eqb_eq in Es. subst rid.
        destruct children as [|[] [|[] [|]]]; try discriminate.
        cbn in Hin. destruct Hin as [<-|[<-|[<-|[]]]]; reflexivity.
      * destruct (rid =? "AwsBatch")%string eqn:Eb; [discriminate|].
        destruct (rid =? "ComputeFleet")%string eqn:Ef; [|discriminate].
        cbn [negb andb String.eqb Ascii.eqb Bool.eqb] in H.
        cbn [nodes] in Hin. rewrite (plain_children_nodes _ H) in Hin.
        destruct Hin as [<-|Hin]; [exact Eb|].
        rewrite forallb_forall in H. exact (proj1 (proj2 (proj2 (plain_nodes _ (H _ Hin))))).
Qed.

Lemma allowed_batch_nodes r r' :
  allowed "awsbatch" r = true -> In r' (nodes r) ->
  is_slurm_only r' = false /\ is_compute_fleet r' = false /\
  (forall rid lt v deps, r' = CfnInstance rid lt v deps -> deps = []).
Proof.
  unfold allowed. intros H Hin. apply orb_true_iff in H. destruct H as [H|H].
  - destruct (plain_nodes r H) as (Hn & Hs & _ & Hf & Hi). rewrite Hn in Hin.
    destruct Hin as [<-|[]]. repeat split; try assumption.
    intros rid lt v deps E. now apply Hi in E.
  - destruct r; try discriminate.
    + destruct Hin as [<-|[]]. repeat split. intros ? ? ? ? E. inversion E; subst.
      cbn in H. now destruct deps.
    + destruct (rid =? "Slurm")%string eqn:Es; [discriminate|].
      destruct (rid =? "AwsBatch")%string eqn:Eb.
      * apply String.eqb_eq in Eb. subst rid.
        destruct children as [|[] [|[] [|]]]; try discriminate.
        cbn in Hin. destruct Hin as [<-|[<-|[<-|[]]]]; repeat split; intros; discriminate.
      * destruct (rid =? "ComputeFleet")%string; discriminate.
Qed.

(** C6.  In the resource graph of a finished run, a Slurm cluster has the
    hosted zone and the table and no resource of AWS Batch; an AWS Batch
    cluster has the compute environment and the job queue, no resource of
    Slurm and no compute fleet, and its head node does not depend on one. *)
Theorem scheduler_kind_resources e clock cluster_config s w :
  ClusterCdkStack e clock cluster_config = Done tt s w ->
  (ClusterConfig.scheduler cluster_config = "slurm" ->
   In (CfnHostedZone "ClusterHostedZone") (graph w) /\
   In (CfnTable "DynamoDBTable") (graph w) /\
   forall r, In r (graph w) -> is_batch_only r = false) /\
  (ClusterConfig.scheduler cluster_config = "awsbatch" ->
   In (CfnComputeEnvironment "ComputeEnvironment") (graph w) /\
   In (CfnJobQueue "JobQueue") (graph w) /\
   (forall r, In r (graph w) -> is_slurm_only r = false /\ is_compute_fleet r = false) /\
   (forall rid launch_template version dependencies,
      In (CfnInstance rid launch_template version dependencies) (graph w) ->
      ~ In "ComputeFleet" dependencies)).
Proof.
  unfold ClusterCdkStack. intros H. apply __init___inv in H.
  change (scheduler_of (new_stack cluster_config)) with (ClusterConfig.scheduler cluster_config)
    in H.
  destruct H as (Hallowed & Hslurm & Hbatch). rewrite forallb_forall in Hallowed. split.
  - intros E. rewrite E in *. specialize (Hslurm eq_refl). repeat split.
    + apply (in_graph w slurm_construct); [assumption|cbn; tauto].
    + apply (in_graph w slurm_construct); [assumption|cbn; tauto].
    + intros r' Hr'. apply graph_inv in Hr'. destruct Hr' as (r & Hr & Hin).
      exact (allowed_slurm_nodes r r' (Hallowed r Hr) Hin).
  - intros E. rewrite E in *. specialize (Hbatch eq_refl). repeat split.
    + apply (in_graph w batch_construct); [assumption|cbn; tauto].
    + apply (in_graph w batch_construct); [assumption|cbn; tauto].
    + apply graph_inv in H. destruct H as (r0 & Hr & Hin).
      exact (proj1 (allowed_batch_nodes r0 r (Hallowed r0 Hr) Hin)).
    + apply graph_inv in H. destruct H as (r0 & Hr & Hin).
      exact (proj1 (proj2 (allowed_batch_nodes r0 r (Hallowed r0 Hr) Hin))).
    + intros rid lt v deps Hi. apply graph_inv in Hi. destruct Hi as (r0 & Hr & Hin).
      destruct (allowed_batch_nodes r0 _ (Hallowed r0 Hr) Hin) as (_ & _ & Hd).
      rewrite (Hd _ _ _ _ eq_refl). intros [].
Qed.

(** ** Synthesising twice

    Two runs over one configuration and one inventory differ by what their
    clocks read.  The timestamp enters the logical id of the wait condition
    handle; the handle is stored in the object and read back only when the
    [AWS::CloudFormation::Init] metadata of the head node is built. *)

Definition set_handle (h : option string) (s : stack) : stack :=
  with_attrs (attrs_with_wait_condition_handle h (attrs s)) s.

Definition map_state {A : Type} (f : stack -> stack) (o : outcome A) : outcome A :=
  match o with
  | Done a s w => Done a (f s) w
  | Raised x => Raised x
  end.

(** A method that neither reads nor writes the handle. *)
Definition handle_blind {A : Type} (m : M A) : Prop :=
  forall e s h, m e (set_handle h s) = map_state (set_handle h) (m e s).

Lemma blind_ret {A : Type} (a : A) : handle_blind (ret a).
Proof. now intros e s h. Qed.

Lemma blind_ask : handle_blind ask.
Proof. now intros e s h. Qed.

Lemma blind_raise {A : Type} x : handle_blind (@raise A x).
Proof. now intros e s h. Qed.

Lemma blind_lift {A : Type} (r : result A) : handle_blind (lift r).
Proof. intros e s h. now destruct r. Qed.

Lemma blind_emit ev : handle_blind (emit ev).
Proof. now intros e s h. Qed.

Lemma blind_modify f :
  (forall s h, f (set_handle h s) = set_handle h (f s)) -> handle_blind (modify f).
Proof. intros Hf e s h. unfold modify. cbn. now rewrite Hf. Qed.

Lemma blind_bind {A B : Type} (m : M A) (k : A -> M B) :
  handle_blind m -> (forall a, handle_blind (k a)) -> handle_blind (bind m k).
Proof.
  intros Hm Hk e s h. unfold bind. rewrite Hm. destruct (m e s) as [a s' w|x]; [|reflexivity].
  cbn. rewrite Hk. now destruct (k a e s').
Qed.

Lemma blind_bind_get {B : Type} (k : stack -> M B) :
  (forall s h, k (set_handle h s) = k s) -> (forall s, handle_blind (k s)) ->
  handle_blind (bind get k).
Proof.
  intros Heq Hk e s h. rewrite !bind_get, Heq. apply Hk.
Qed.

Lemma blind_when b m : handle_blind m -> handle_blind (when b m).
Proof. intros Hm. destruct b; [exact Hm|apply blind_ret]. Qed.

Lemma blind_for_each {A : Type} (l : list A) (body : A -> M unit) :
  (forall x, handle_blind (body x)) -> handle_blind (for_each l body).
Proof.
  intros Hb. induction l as [|x l IH]; simpl; [apply blind_ret|].
  apply blind_bind; [apply Hb|intros _; exact IH].
Qed.

Create HintDb blind.
#[export] Hint Resolve blind_ret blind_ask blind_raise blind_lift blind_emit : blind.

Ltac blind_step :=
  first
    [ solve [auto with blind]
    | apply blind_bind_get; [intros ? ?; reflexivity|intros ?]
    | apply blind_bind; [|intros ?]
    | apply blind_modify; intros ? ?; reflexivity
    | apply blind_when
    | apply blind_for_each; intros ?
    | match goal with
      | |- handle_blind (if ?c then _ else _) => destruct c
      | |- handle_blind (match ?x with _ => _ end) => destruct x
      | |- handle_blind (let '(_, _) := ?x in _) => destruct x
      end ].

Ltac blind_auto := repeat blind_step.

Lemma blind_condition_is_batch : handle_blind _condition_is_batch.
Proof. unfold _condition_is_batch. blind_auto. Qed.

Lemma blind_condition_is_byos : handle_blind _condition_is_byos.
Proof. unfold _condition_is_byos. blind_auto. Qed.

Lemma blind_condition_is_slurm : handle_blind _condition_is_slurm.
Proof. unfold _condition_is_slurm. blind_auto. Qed.

Lemma blind_ref_of x : handle_blind (ref_of x).
Proof. unfold ref_of. blind_auto. Qed.

Lemma blind_list_read o : handle_blind (list_read o).
Proof. unfold list_read. blind_auto. Qed.

Lemma blind_list_extend o items : handle_blind (list_extend o items).
Proof. unfold list_extend. blind_auto. Qed.

#[export] Hint Resolve blind_condition_is_batch blind_condition_is_byos blind_condition_is_slurm
  blind_ref_of blind_list_read blind_list_extend : blind.

Lemma blind_get_head_node_security_groups_full :
  handle_blind _get_head_node_security_groups_full.
Proof.
  unfold _get_head_node_security_groups_full, _get_head_node_security_groups. blind_auto.
Qed.

Lemma blind_dna_json : handle_blind dna_json.
Proof. unfold dna_json. blind_auto. Qed.

Lemma blind_get_launch_templates_config : handle_blind _get_launch_templates_config.
Proof. unfold _get_launch_templates_config. blind_auto. Qed.

Lemma blind_set_attrs_head_node_instance x :
  handle_blind (set_attrs (attrs_with_head_node_instance x)).
Proof. unfold set_attrs. blind_auto. Qed.

Lemma blind_set_attrs_scheduler_resources x :
  handle_blind (set_attrs (attrs_with_scheduler_resources x)).
Proof. unfold set_attrs. blind_auto. Qed.

Lemma blind_add_resource r : handle_blind (add_resource r).
Proof. unfold add_resource. blind_auto. Qed.

#[export] Hint Resolve blind_get_head_node_security_groups_full blind_dna_json
  blind_get_launch_templates_config blind_set_attrs_head_node_instance
  blind_set_attrs_scheduler_resources blind_add_resource : blind.

Lemma blind_add_outputs : handle_blind _add_outputs.
Proof. unfold _add_outputs. blind_auto. Qed.

#[export] Hint Resolve blind_add_outputs : blind.

Definition head_node_template (data : LaunchTemplateData) (init : doc) : event :=
  Resource
    (CfnLaunchTemplate "HeadNodeLaunchTemplate" None data
       [("Comment", DS "AWS ParallelCluster Head Node"); ("AWS::CloudFormation::Init", init)]).

Definition handle_id (timestamp : string) : string :=
  ("HeadNodeWaitConditionHandle" ++ timestamp)%string.

Definition wait_condition_events (timestamp : string) : list event :=
  [ Resource (CfnWaitConditionHandle (handle_id timestamp));
    Resource (CfnWaitCondition ("HeadNodeWaitCondition" ++ timestamp)%string 1
               (Ref (handle_id timestamp)) "1800") ].

Section TwoRuns.

Variables (stack_name ts1 ts2 : string).


(** Two traces that hold the head node's launch template at the same place
    and differ only by the handle its Init metadata refers to. *)
Definition differ_by_handle (w1 w2 : list event) : Prop :=
  exists pre data extra dna ltc post,
    w1 = pre ++ head_node_template data
                  (cfn_init_doc stack_name extra (Ref (handle_id ts1)) dna ltc) :: post /\
    w2 = pre ++ head_node_template data
                  (cfn_init_doc stack_name extra (Ref (handle_id ts2)) dna ltc) :: post.

(** The same, with the wait condition of each run declared before. *)
Definition differ_by_timestamp (w1 w2 : list event) : Prop :=
  exists pre mid data extra dna ltc post,
    w1 = pre ++ wait_condition_events ts1 ++ mid
           ++ head_node_template data
                (cfn_init_doc stack_name extra (Ref (handle_id ts1)) dna ltc) :: post /\
    w2 = pre ++ wait_condition_events ts2 ++ mid
           ++ head_node_template data
                (cfn_init_doc stack_name extra (Ref (handle_id ts2)) dna ltc) :: post.

(** Two outcomes that raise the same exception, or return the same value
    with objects equal up to the handle and traces related by [T]. *)
Definition related {A : Type} (T : list event -> list event -> Prop) (o1 o2 : outcome A) : Prop :=
  match o1, o2 with
  | Done a1 s1 w1, Done a2 s2 w2 =>
      a1 = a2 /\ (exists s, s1 = set_handle (Some (handle_id ts1)) s /\ s2 = set_handle (Some (handle_id ts2)) s) /\ T w1 w2
  | Raised x, Raised y => x = y
  | _, _ => False
  end.

Definition stable (T : list event -> list event -> Prop) : Prop :=
  forall pre w1 w2 post, T w1 w2 -> T (pre ++ w1 ++ post) (pre ++ w2 ++ post).

Lemma stable_eq : stable eq.
Proof. intros pre w1 w2 post ->. reflexivity. Qed.

Lemma stable_differ_by_handle : stable differ_by_handle.
Proof.
  intros pre w1 w2 post (p & data & extra & dna & ltc & q & -> & ->).
  exists (pre ++ p), data, extra, dna, ltc, (q ++ post).
  now rewrite <- !app_assoc, <- !app_comm_cons.
Qed.

Lemma stable_differ_by_timestamp : stable differ_by_timestamp.
Proof.
  intros pre w1 w2 post (p & mid & data & extra & dna & ltc & q & -> & ->).
  exists (pre ++ p), mid, data, extra, dna, ltc, (q ++ post).
  cbn [wait_condition_events app]. now rewrite <- !app_assoc, <- !app_comm_cons, <- !app_assoc.
Qed.

Lemma blind_related {A : Type} (m : M A) e s :
  handle_blind m -> related eq (m e (set_handle (Some (handle_id ts1)) s)) (m e (set_handle (Some (handle_id ts2)) s)).
Proof.
  intros Hm. rewrite !Hm. destruct (m e s) as [a s' w|x]; cbn [related map_state];
    [|reflexivity].
  repeat split. now exists s'.
Qed.

(** A blind step first, then related continuations. *)
Lemma related_after_blind {A B : Type} T (m : M A) (k : A -> M B) e s :
  stable T -> handle_blind m ->
  (forall a s', related T (k a e (set_handle (Some (handle_id ts1)) s')) (k a e (set_handle (Some (handle_id ts2)) s'))) ->
  related T (bind m k e (set_handle (Some (handle_id ts1)) s)) (bind m k e (set_handle (Some (handle_id ts2)) s)).
Proof.
  intros HT Hm Hk. unfold bind. rewrite !Hm.
  destruct (m e s) as [a s' w|x]; cbn [related map_state]; [|reflexivity].
  specialize (Hk a s').
  destruct (k a e (set_handle (Some (handle_id ts1)) s')), (k a e (set_handle (Some (handle_id ts2)) s')); cbn [related] in *;
    try assumption.
  destruct Hk as (Ha & Hs & Hw). repeat split; try assumption.
  specialize (HT w _ _ [] Hw). now rewrite !app_nil_r in HT.
Qed.

Lemma related_after_get {B : Type} T (k : stack -> M B) e s :
  (forall s h, k (set_handle h s) = k s) ->
  related T (k s e (set_handle (Some (handle_id ts1)) s)) (k s e (set_handle (Some (handle_id ts2)) s)) ->
  related T (bind get k e (set_handle (Some (handle_id ts1)) s)) (bind get k e (set_handle (Some (handle_id ts2)) s)).
Proof. intros Hk H. now rewrite !bind_get, !Hk. Qed.

(** Related runs first, then a blind continuation. *)
Lemma related_then_blind {A B : Type} T (m1 m2 : M A) (k : A -> M B) e s1 s2 :
  stable T -> related T (m1 e s1) (m2 e s2) -> (forall a, handle_blind (k a)) ->
  related T (bind m1 k e s1) (bind m2 k e s2).
Proof.
  intros HT Ho Hk. unfold bind.
  destruct (m1 e s1) as [a1 t1 w1|x1], (m2 e s2) as [a2 t2 w2|x2]; cbn [related] in *;
    try assumption; try contradiction.
  destruct Ho as (<- & (s & -> & ->) & Hw). rewrite !Hk.
  destruct (k a1 e s) as [b s' w'|x]; cbn [related map_state]; [|reflexivity].
  split; [reflexivity|]. split; [now exists s'|].
  exact (HT [] _ _ w' Hw).
Qed.

(** The same step on the same object first, then related continuations. *)
Lemma related_after_same {A B : Type} T (m : M A) (k1 k2 : A -> M B) e s :
  stable T ->
  (forall a s', related T (k1 a e s') (k2 a e s')) ->
  related T (bind m k1 e s) (bind m k2 e s).
Proof.
  intros HT Hk. unfold bind. destruct (m e s) as [a s' w|x]; cbn [related]; [|reflexivity].
  specialize (Hk a s'). destruct (k1 a e s'), (k2 a e s'); cbn [related] in *; try assumption.
  destruct Hk as (Ha & Hs & Hw). repeat split; try assumption.
  specialize (HT w _ _ [] Hw). now rewrite !app_nil_r in HT.
Qed.

Lemma cfn_init_run dna ltc e s h :
  cfn_init dna ltc e (set_handle (Some h) s) =
    Done (cfn_init_doc (arg_stack_name e) (ClusterConfig.extra_chef_attributes (config s))
            (Ref h) dna ltc)
      (set_handle (Some h) s) [].
Proof. unfold cfn_init. now mrun. Qed.

Lemma bind_cfn_init {B : Type} dna ltc (k : doc -> M B) e s h :
  bind (cfn_init dna ltc) k e (set_handle (Some h) s) =
    k (cfn_init_doc (arg_stack_name e) (ClusterConfig.extra_chef_attributes (config s))
         (Ref h) dna ltc) e (set_handle (Some h) s).
Proof. erewrite bind_prepend by apply cfn_init_run. apply prepend_nil. Qed.

(** The launch template, each run with its handle, then a blind rest. *)
Lemma related_template {A : Type} (r : M A) data extra dna ltc e s :
  handle_blind r ->
  related differ_by_handle
    (prepend [head_node_template data
                (cfn_init_doc stack_name extra (Ref (handle_id ts1)) dna ltc)]
       (r e (set_handle (Some (handle_id ts1)) s)))
    (prepend [head_node_template data
                (cfn_init_doc stack_name extra (Ref (handle_id ts2)) dna ltc)]
       (r e (set_handle (Some (handle_id ts2)) s))).
Proof.
  intros Hr. rewrite !Hr. destruct (r e s) as [a s' w|x]; cbn [related map_state prepend];
    [|reflexivity].
  split; [reflexivity|]. split; [now exists s'|].
  now exists [], data, extra, dna, ltc, w.
Qed.

Ltac blind_then :=
  apply related_after_blind; [apply stable_differ_by_handle|blind_auto|intros ? ?].

Lemma _add_head_node_related e s :
  arg_stack_name e = stack_name ->
  related differ_by_handle
    (_add_head_node e (set_handle (Some (handle_id ts1)) s))
    (_add_head_node e (set_handle (Some (handle_id ts2)) s)).
Proof.
  intros Hname. unfold _add_head_node.
  blind_then. blind_then.
  apply related_after_get; [intros ? ?; reflexivity|].
  blind_then. blind_then. blind_then. blind_then. blind_then.
  rewrite !bind_cfn_init, Hname. unfold add_resource. rewrite !bind_emit.
  lazymatch goal with
  | |- related _ (prepend [Resource (CfnLaunchTemplate _ _ ?data [_; (_, cfn_init_doc _ ?extra _ ?dna ?ltc)])]
                    (?r ?e0 (set_handle _ ?s0))) _ =>
      apply (related_template r data extra dna ltc e0 s0)
  end.
  blind_auto.
Qed.

Lemma related_wait_condition {A : Type} (o1 o2 : outcome A) :
  related differ_by_handle o1 o2 ->
  related differ_by_timestamp
    (prepend (wait_condition_events ts1) o1) (prepend (wait_condition_events ts2) o2).
Proof.
  destruct o1 as [a1 s1 w1|x1], o2 as [a2 s2 w2|x2]; cbn [related prepend]; try easy.
  intros (Ha & Hs & (pre & data & extra & dna & ltc & post & -> & ->)).
  repeat split; try assumption.
  now exists [], pre, data, extra, dna, ltc, post.
Qed.

Lemma _add_resources_related e s :
  arg_stack_name e = stack_name ->
  related differ_by_timestamp (_add_resources ts1 e s) (_add_resources ts2 e s).
Proof.
  intros Hname. unfold _add_resources.
  repeat (apply related_after_same; [apply stable_differ_by_timestamp|intros ? ?]).
  unfold _add_wait_condition, add_resource, set_attrs. mrun.
  apply related_wait_condition.
  apply related_then_blind; [apply stable_differ_by_handle| |intros ?; blind_auto].
  now apply (_add_head_node_related e).
Qed.

End TwoRuns.

(** The log group has the same name in two runs when logging is off, when
    the name is passed in, or when both runs generate it within one minute. *)
Definition same_log_group_name (e : Env) (clock1 clock2 : nat -> datetime)
    (cluster_config : ClusterConfig.t) : Prop :=
  ClusterConfig.is_cw_logging_enabled cluster_config = false \/
  truthy (arg_log_group_name e) = true \/
  strftime_minutes (clock1 1) = strftime_minutes (clock2 1).

Lemma __init___related e clock1 clock2 cluster_config :
  same_log_group_name e clock1 clock2 cluster_config ->
  related (strftime_seconds (clock1 0)) (strftime_seconds (clock2 0))
    (differ_by_timestamp (arg_stack_name e)
       (strftime_seconds (clock1 0)) (strftime_seconds (clock2 0)))
    (ClusterCdkStack e clock1 cluster_config) (ClusterCdkStack e clock2 cluster_config).
Proof.
  intros Hlog. unfold ClusterCdkStack, __init__. rewrite !bind_ask, !bind_get.
  cbn [config new_stack].
  assert (Hminutes :
            ClusterConfig.is_cw_logging_enabled cluster_config = true ->
            truthy (arg_log_group_name e) = false ->
            strftime_minutes (clock2 1) = strftime_minutes (clock1 1)).
  { intros H1 H2. destruct Hlog as [H|[H|H]]; congruence. }
  destruct (ClusterConfig.is_cw_logging_enabled cluster_config);
    [destruct (truthy (arg_log_group_name e)); [|rewrite Hminutes by reflexivity]|];
    (apply related_after_same; [apply stable_differ_by_timestamp|intros ? ?]);
    (apply related_after_same; [apply stable_differ_by_timestamp|intros ? ?]);
    (apply related_then_blind;
     [apply stable_differ_by_timestamp
     |apply _add_resources_related; reflexivity
     |intros ?; blind_auto]).
Qed.

(** The launch templates of a trace with their data (the user data among
    them) and their metadata: what the nodes of each role boot from. *)
Definition launch_templates (w : list event)
  : list (string * LaunchTemplateData * list (string * doc)) :=
  flat_map (fun r =>
              match r with
              | CfnLaunchTemplate rid _ data metadata => [(rid, data, metadata)]
              | _ => []
              end) (graph w).

Definition bootstrap_payloads (o : outcome unit)
  : list (string * LaunchTemplateData * list (string * doc)) :=
  match o with
  | Done _ _ w => launch_templates w
  | Raised _ => []
  end.

Definition head_node_payload (data : LaunchTemplateData) (init : doc)
  : string * LaunchTemplateData * list (string * doc) :=
  ("HeadNodeLaunchTemplate", data,
   [("Comment", DS "AWS ParallelCluster Head Node"); ("AWS::CloudFormation::Init", init)]).

Lemma launch_templates_app w1 w2 :
  launch_templates (w1 ++ w2) = launch_templates w1 ++ launch_templates w2.
Proof. unfold launch_templates, graph. now rewrite declared_app, !flat_map_app. Qed.

Lemma launch_templates_differ stack_name ts1 ts2 w1 w2 :
  differ_by_timestamp stack_name ts1 ts2 w1 w2 ->
  exists before data extra dna ltc after,
    launch_templates w1 =
      before ++ head_node_payload data
                  (cfn_init_doc stack_name extra (Ref (handle_id ts1)) dna ltc) :: after /\
    launch_templates w2 =
      before ++ head_node_payload data
                  (cfn_init_doc stack_name extra (Ref (handle_id ts2)) dna ltc) :: after.
Proof.
  intros (pre & mid & data & extra & dna & ltc & post & -> & ->).
  exists (launch_templates pre ++ launch_templates mid), data, extra, dna, ltc,
    (launch_templates post).
  rewrite !launch_templates_app.
  change (launch_templates (wait_condition_events ts1)) with (@nil (string * LaunchTemplateData * list (string * doc))).
  change (launch_templates (wait_condition_events ts2)) with (@nil (string * LaunchTemplateData * list (string * doc))).
  cbn [app]. rewrite <- !app_assoc. split; reflexivity.
Qed.

(** C2, as the code has it.  Two runs over one configuration, one
    inventory and the same constructor arguments, with the log group named
    alike, raise the same exception or both finish, and then they declare the
    same resources in the same order except for the wait condition and its
    handle, whose logical ids carry the second the run started at, and for
    the Init metadata of the head node, which refers to that handle and is
    the same otherwise.  The launch templates are the same but for that one
    reference: the user data of every role is identical. *)
Theorem synthesis_twice e clock1 clock2 cluster_config :
  same_log_group_name e clock1 clock2 cluster_config ->
  match ClusterCdkStack e clock1 cluster_config, ClusterCdkStack e clock2 cluster_config with
  | Done _ _ w1, Done _ _ w2 =>
      differ_by_timestamp (arg_stack_name e)
        (strftime_seconds (clock1 0)) (strftime_seconds (clock2 0)) w1 w2 /\
      exists before data extra dna ltc after,
        launch_templates w1 =
          before ++ head_node_payload data
                      (cfn_init_doc (arg_stack_name e) extra
                         (Ref (handle_id (strftime_seconds (clock1 0)))) dna ltc) :: after /\
        launch_templates w2 =
          before ++ head_node_payload data
                      (cfn_init_doc (arg_stack_name e) extra
                         (Ref (handle_id (strftime_seconds (clock2 0)))) dna ltc) :: after
  | Raised x, Raised y => x = y
  | _, _ => False
  end.
Proof.
  intros Hlog. pose proof (__init___related e clock1 clock2 cluster_config Hlog) as H.
  destruct (ClusterCdkStack e clock1 cluster_config) as [[] s1 w1|x],
           (ClusterCdkStack e clock2 cluster_config) as [[] s2 w2|y];
    cbn [related] in H; try assumption.
  destruct H as (_ & _ & Hw). split; [exact Hw|]. now apply launch_templates_differ.
Qed.

(** C2, as the specification has it, does not hold.  With the log group
    name passed in, as on an update, two runs one second apart over the same
    configuration and inventory both finish, and the head node's payloads
    differ: the Init metadata holds the reference to the wait condition
    handle of each run. *)
Lemma synthesis_twice_counterexample :
  truthy (arg_log_group_name (Sample.env (PStr "log-group"))) = true /\
  (exists s w, ClusterCdkStack (Sample.env (PStr "log-group")) (Sample.clock 0)
                 (Sample.slurm_cluster None) = Done tt s w) /\
  (exists s w, ClusterCdkStack (Sample.env (PStr "log-group")) (Sample.clock 1)
                 (Sample.slurm_cluster None) = Done tt s w) /\
  bootstrap_payloads
    (ClusterCdkStack (Sample.env (PStr "log-group")) (Sample.clock 0)
       (Sample.slurm_cluster None))
  <> bootstrap_payloads
       (ClusterCdkStack (Sample.env (PStr "log-group")) (Sample.clock 1)
          (Sample.slurm_cluster None)).
Proof.
  split; [reflexivity|].
  split; [do 2 eexists; vm_compute; reflexivity|].
  split; [do 2 eexists; vm_compute; reflexivity|].
  intros H. vm_compute in H. discriminate H.
Qed.

(** ** The theorems at concrete inputs *)

Lemma cross_ingress_rules_witness :
  exists head compute w,
    _add_security_groups (Sample.env PNone) (new_stack (Sample.slurm_cluster None))
      = Done (head, compute) (new_stack (Sample.slurm_cluster None)) w /\
    filter is_cross_ingress (declared w) =
      [ CfnSecurityGroupIngress "HeadNodeSecurityGroupComputeIngress" "-1" 0 65535
          (Ref "ComputeSecurityGroup") (Ref "HeadNodeSecurityGroup");
        CfnSecurityGroupIngress "ComputeSecurityGroupHeadNodeIngress" "-1" 0 65535
          (Ref "HeadNodeSecurityGroup") (Ref "ComputeSecurityGroup") ].
Proof.
  apply (cross_ingress_rules (Sample.env PNone) (new_stack (Sample.slurm_cluster None))).
  intros H. discriminate H.
Defined.

Lemma fsx_drive_cache_default_witness :
  exists s' w,
    _add_fsx_storage "FSX0" (Sample.fsx (PStr "/fsx") PNone (PStr "HDD") PNone)
      (Sample.env PNone) (new_stack (Sample.slurm_cluster None))
      = Done (PStr (Ref "FSX0")) s' w /\
    drive_cache_types w = [PStr "NONE"].
Proof.
  destruct (fsx_drive_cache_default "FSX0" (Sample.fsx (PStr "/fsx") PNone (PStr "HDD") PNone)
              (Sample.env PNone) (new_stack (Sample.slurm_cluster None)) eq_refl)
    as (s' & w & Hrun & Hhdd & _).
  exists s', w. split; [exact Hrun|]. apply Hhdd; reflexivity.
Defined.

Lemma ebs_without_id_and_mount_dir_witness :
  exists s',
    _add_shared_storage (StorageEbs (Sample.ebs PNone PNone)) (Sample.env PNone)
      (new_stack (Sample.slurm_cluster None)) = Done tt s' [] /\
    shared_storage_mappings (storage s') EBS =
      [ {| id := PNone; storage_config := StorageEbs (Sample.ebs PNone PNone) |} ] /\
    join_ids (shared_storage_mappings (storage s') EBS) = Raise TypeError /\
    _add_outputs (Sample.env PNone) s' = Raised TypeError.
Proof.
  apply (ebs_without_id_and_mount_dir (Sample.ebs PNone PNone) (Sample.env PNone)
           (new_stack (Sample.slurm_cluster None))); reflexivity.
Defined.

(** The compute subnet and the head node's subnet lie in one zone, where
    fs-1 already has a mount target. *)
Lemma efs_mount_targets_per_zone_witness :
  exists efs_id s' w,
    _add_efs_storage "EFS0" (Sample.efs (PStr "/efs") (PStr "fs-1") PNone) (Sample.env PNone)
      (new_stack (Sample.slurm_cluster None)) = Done efs_id s' w /\
    NoDup (mount_target_zones Sample.aws w) /\
    NoDup (mount_target_lookup_zones w) /\
    (forall az,
       In az (mount_target_lookup_zones w) <->
       In az (map (zone_of Sample.aws) ["subnet-a"; "subnet-b"])) /\
    (forall az,
       In az (mount_target_zones Sample.aws w) <->
       In az (map (zone_of Sample.aws) ["subnet-a"; "subnet-b"]) /\
       truthy (get_efs_mount_target_id Sample.aws efs_id az) = false).
Proof.
  apply (efs_mount_targets_per_zone "EFS0" (Sample.efs (PStr "/efs") (PStr "fs-1") PNone)
           (Sample.env PNone) (new_stack (Sample.slurm_cluster None))).
  discriminate.
Defined.

(** With the log group name passed in, two runs one second apart. *)
Lemma synthesis_twice_witness :
  same_log_group_name (Sample.env (PStr "log-group")) (Sample.clock 0) (Sample.clock 1)
    (Sample.slurm_cluster None) /\
  exists s1 w1 s2 w2,
    ClusterCdkStack (Sample.env (PStr "log-group")) (Sample.clock 0) (Sample.slurm_cluster None)
      = Done tt s1 w1 /\
    ClusterCdkStack (Sample.env (PStr "log-group")) (Sample.clock 1) (Sample.slurm_cluster None)
      = Done tt s2 w2 /\
    differ_by_timestamp "cluster" "20211105090000" "20211105090001" w1 w2.
Proof.
  assert (Hlog : same_log_group_name (Sample.env (PStr "log-group")) (Sample.clock 0)
                   (Sample.clock 1) (Sample.slurm_cluster None))
    by (right; left; reflexivity).
  split; [exact Hlog|].
  pose proof (synthesis_twice (Sample.env (PStr "log-group")) (Sample.clock 0) (Sample.clock 1)
                (Sample.slurm_cluster None) Hlog) as H.
  assert (E1 : exists s w,
             ClusterCdkStack (Sample.env (PStr "log-group")) (Sample.clock 0)
               (Sample.slurm_cluster None) = Done tt s w)
    by (do 2 eexists; vm_compute; reflexivity).
  assert (E2 : exists s w,
             ClusterCdkStack (Sample.env (PStr "log-group")) (Sample.clock 1)
               (Sample.slurm_cluster None) = Done tt s w)
    by (do 2 eexists; vm_compute; reflexivity).
  destruct E1 as (s1 & w1 & E1), E2 as (s2 & w2 & E2).
  rewrite E1, E2 in H.
  exists s1, w1, s2, w2. split; [exact E1|]. split; [exact E2|]. exact (proj1 H).
Defined.

(** A Slurm cluster: the hosted zone and the table are declared. *)
Lemma scheduler_kind_resources_witness :
  exists s w,
    ClusterCdkStack (Sample.env PNone) (Sample.clock 0) (Sample.slurm_cluster None)
      = Done tt s w /\
    In (CfnHostedZone "ClusterHostedZone") (graph w) /\
    In (CfnTable "DynamoDBTable") (graph w) /\
    forall r, In r (graph w) -> is_batch_only r = false.
Proof.
  assert (E : exists s w,
            ClusterCdkStack (Sample.env PNone) (Sample.clock 0) (Sample.slurm_cluster None)
              = Done tt s w)
    by (do 2 eexists; vm_compute; reflexivity).
  destruct E as (s & w & E).
  exists s, w. split; [exact E|].
  exact (proj1 (scheduler_kind_resources (Sample.env PNone) (Sample.clock 0)
                  (Sample.slurm_cluster None) s w E) eq_refl).
Defined.

(** Two file systems and a volume: the second file system's record is the
    one kept; two volumes: both mount directories are kept. *)
Lemma option_strings_overwritten_or_accumulated_witness :
  (exists s1 w1 s' w,
     for_each [StorageEfs (Sample.efs (PStr "/efs1") PNone PNone)] _add_shared_storage
       (Sample.env PNone) (new_stack (Sample.slurm_cluster None)) = Done tt s1 w1 /\
     for_each [ StorageEfs (Sample.efs (PStr "/efs1") PNone PNone);
                StorageEfs (Sample.efs (PStr "/efs2") PNone PNone);
                StorageEbs (Sample.ebs (PStr "/ebs") PNone) ] _add_shared_storage
       (Sample.env PNone) (new_stack (Sample.slurm_cluster None)) = Done tt s' w /\
     shared_storage_options (storage s') EFS =
       option_record (StorageEfs (Sample.efs (PStr "/efs2") PNone PNone))
         (recorded_id (StorageEfs (Sample.efs (PStr "/efs2") PNone PNone)) (storage s1))) /\
  (exists s' w,
     for_each [ StorageEbs (Sample.ebs (PStr "/a") PNone);
                StorageEbs (Sample.ebs (PStr "/b") PNone) ] _add_shared_storage
       (Sample.env PNone) (new_stack (Sample.slurm_cluster None)) = Done tt s' w /\
     shared_storage_options (storage s') EBS = "/a,/b").
Proof.
  destruct (option_strings_overwritten_or_accumulated (Sample.env PNone)
              (new_stack (Sample.slurm_cluster None))) as [Hother Hebs].
  split.
  - destruct (Hother [StorageEfs (Sample.efs (PStr "/efs1") PNone PNone)]
                (StorageEfs (Sample.efs (PStr "/efs2") PNone PNone))
                [StorageEbs (Sample.ebs (PStr "/ebs") PNone)])
      as (s1 & w1 & s' & w & H1 & H & Hoptions & _).
    + discriminate.
    + intros d [<-|[]]. discriminate.
    + now exists s1, w1, s', w.
  - apply (Hebs [ StorageEbs (Sample.ebs (PStr "/a") PNone);
                  StorageEbs (Sample.ebs (PStr "/b") PNone) ]); [reflexivity|].
    repeat constructor; discriminate.
Defined.

(** * Further properties of the synthesis *)

(** * Logical ids *)

Lemma string_app_inv_head (p a b : string) : (p ++ a)%string = (p ++ b)%string -> a = b.
Proof. induction p as [|c p IH]; simpl; intros H; [assumption|]. injection H as H. auto. Qed.

Lemma str_of_nat_inj n m : str_of_nat n = str_of_nat m -> n = m.
Proof.
  unfold str_of_nat, str. intros H.
  assert (Hn : forall k, NilZero.int_of_string (NilZero.string_of_int (Z.to_int (Z.of_nat k)))
                         = Some (Z.to_int (Z.of_nat k))).
  { intros k. apply NilZero.isi.
    - destruct k; [discriminate|]. cbn. intros E. injection E as E.
      now apply DecimalPos.Unsigned.to_uint_nonnil in E.
    - destruct k; discriminate. }
  pose proof (Hn n) as H1. rewrite H, Hn in H1. injection H1 as H1.
  apply DecimalZ.to_int_inj in H1. lia.
Qed.

Lemma NoDup_map_injective {A B : Type} (f : A -> B) l :
  (forall x y, f x = f y -> x = y) -> NoDup l -> NoDup (map f l).
Proof.
  intros Hf Hl. induction Hl as [|x l Hx _ IH]; [constructor|].
  cbn [map]. constructor; [|exact IH].
  intros Hin. apply in_map_iff in Hin. destruct Hin as (y & Hy & Hin).
  apply Hf in Hy. now subst y.
Qed.


(** * Further properties of the storage methods *)

(** ** RAID volumes *)

Lemma raid_volumes_seq id_prefix count : forall index,
  raid_volumes id_prefix index count =
    map (fun i => (id_prefix ++ "Volume" ++ str_of_nat i)%string) (seq index count).
Proof. induction count as [|count IH]; intros index; simpl; [reflexivity|]. now rewrite IH. Qed.

(** The logical id of the [index]-th volume of a RAID declaration. *)
Definition raid_volume_id (id_prefix : string) (index : nat) : string :=
  (id_prefix ++ "Volume" ++ str_of_nat index)%string.

(** X1.  A RAID declaration creates [number_of_volumes] volumes whatever its
    volume id and mount directory are: they are named [id_prefix]Volume0,
    [id_prefix]Volume1, ... in this order, all lie in the head node's
    availability zone, no two have the same logical id, and one entry
    referring to each is returned; with no volume asked for, nothing is
    declared and nothing is returned.  The configuration is left alone. *)
Theorem raid_volumes_created id_prefix shared_ebs raid e s :
  exists ebs_ids s' w,
    _add_raid_volume id_prefix shared_ebs raid e s = Done ebs_ids s' w /\
    List.length ebs_ids = Raid.number_of_volumes raid /\
    map id ebs_ids =
      map (fun i => PStr (Ref (raid_volume_id id_prefix i)))
        (seq 0 (Raid.number_of_volumes raid)) /\
    Forall (fun info => storage_config info = StorageRaid shared_ebs raid) ebs_ids /\
    w = map (fun i => Resource (cfn_volume (raid_volume_id id_prefix i)
                                  (HeadNodeNetworking.availability_zone
                                     (head_networking (config s))) shared_ebs))
          (seq 0 (Raid.number_of_volumes raid)) /\
    NoDup (map (raid_volume_id id_prefix) (seq 0 (Raid.number_of_volumes raid))) /\
    config s' = config s.
Proof.
  rewrite _add_raid_volume_run. do 3 eexists. split; [reflexivity|].
  unfold raid_infos. rewrite raid_volumes_seq, !map_map. repeat split.
  - now rewrite length_map, length_seq.
  - apply Forall_forall. intros info Hin. apply in_map_iff in Hin.
    now destruct Hin as (i & <- & _).
  - apply NoDup_map_injective; [|apply seq_NoDup].
    intros x y H. unfold raid_volume_id in H.
    apply string_app_inv_head in H. apply (string_app_inv_head "Volume") in H.
    now apply str_of_nat_inj.
Qed.

(** ** EBS volumes *)

(** X2.  An EBS declaration with a volume id declares nothing and returns
    that id; one without a volume id and with a mount directory declares
    one volume, under the logical id it is given and in the head node's
    availability zone, and returns a reference to it.  In both cases the
    mount directory is appended to the EBS option string and the
    configuration is left alone. *)
Theorem ebs_volume_reused_or_created id shared_ebs e s :
  exists ebs_id s' w,
    _add_ebs_volume id shared_ebs e s = Done ebs_id s' w /\
    (truthy (SharedEbs.volume_id shared_ebs) = true ->
     ebs_id = SharedEbs.volume_id shared_ebs /\ w = []) /\
    (truthy (SharedEbs.volume_id shared_ebs) = false ->
     truthy (SharedEbs.mount_dir shared_ebs) = true ->
     ebs_id = PStr (Ref id) /\
     w = [Resource (cfn_volume id (HeadNodeNetworking.availability_zone
                                     (head_networking (config s))) shared_ebs)]) /\
    shared_storage_options (storage s') EBS =
      append_dir (shared_storage_options (storage s) EBS)
        (str (SharedEbs.mount_dir shared_ebs)) /\
    config s' = config s.
Proof.
  rewrite _add_ebs_volume_run. do 3 eexists. split; [reflexivity|].
  unfold ebs_id_of, ebs_creates. repeat split.
  - now rewrite H.
  - now rewrite H.
  - now rewrite H, H0.
  - now rewrite H, H0.
Qed.

Lemma ebs_volume_reused_or_created_witness :
  exists ebs_id s' w,
    _add_ebs_volume "EBS0" (Sample.ebs (PStr "/shared") (PStr "vol-1")) (Sample.env PNone)
      (new_stack (Sample.slurm_cluster None)) = Done ebs_id s' w /\
    ebs_id = PStr "vol-1" /\ w = [] /\
    shared_storage_options (storage s') EBS = "/shared".
Proof.
  destruct (ebs_volume_reused_or_created "EBS0" (Sample.ebs (PStr "/shared") (PStr "vol-1"))
              (Sample.env PNone) (new_stack (Sample.slurm_cluster None)))
    as (ebs_id & s' & w & Hrun & Hreused & _ & Hoptions & _).
  exists ebs_id, s', w. split; [exact Hrun|].
  destruct (Hreused eq_refl) as [-> ->]. repeat split. exact Hoptions.
Defined.

(** ** Recorded ids *)

(** The number of entries a declaration adds to the mappings of a type. *)
Definition entries (t : SharedStorageType) (d : SharedStorage) : nat :=
  if SharedStorageType_eqb (shared_storage_type d) t then
    match d with
    | StorageRaid _ raid => Raid.number_of_volumes raid
    | _ => 1
    end
  else 0.

Lemma SharedStorageType_eqb_eq a b : SharedStorageType_eqb a b = true <-> a = b.
Proof. destruct a, b; simpl; split; congruence. Qed.

Lemma storage_after_length d st t :
  List.length (shared_storage_mappings (storage_after d st) t) =
    List.length (shared_storage_mappings st t) + entries t d.
Proof.
  unfold entries. destruct (SharedStorageType_eqb (shared_storage_type d) t) eqn:E.
  - apply SharedStorageType_eqb_eq in E. subst t.
    destruct d; cbn [storage_after shared_storage_type shared_storage_mappings set_mappings];
      rewrite update_same, length_app; unfold raid_infos;
      rewrite ?length_map, ?raid_volumes_seq, ?length_map, ?length_seq; reflexivity.
  - assert (Ht : t <> shared_storage_type d).
    { intros ->. destruct (shared_storage_type d); discriminate. }
    destruct d; cbn [storage_after shared_storage_type shared_storage_mappings set_mappings] in *;
      rewrite update_other by assumption;
      unfold fsx_storage_after; try destruct (fsx_creates f); simpl; lia.
Qed.

(** X3.  When the processing of a list of declarations finishes, that is
    when every lookup it made of the inventory was answered, the
    configuration is as before and one id is recorded per declaration under
    its type, whether or not anything was created for it, except that a
    RAID declaration records one id per volume.  The logical id of the next
    declaration of a type is the type's name followed by the number of ids
    recorded so far. *)
Theorem recorded_ids_count l e s s' w :
  for_each l _add_shared_storage e s = Done tt s' w ->
  config s' = config s /\
  (forall t,
     List.length (shared_storage_mappings (storage s') t) =
       List.length (shared_storage_mappings (storage s) t) + list_sum (map (entries t) l)) /\
  (forall d,
     cfn_resource_id d (storage s') =
       (type_name (shared_storage_type d)
          ++ str_of_nat (List.length (shared_storage_mappings (storage s) (shared_storage_type d))
                         + list_sum (map (entries (shared_storage_type d)) l)))%string).
Proof.
  rewrite for_each_storage_run. intros Hrun.
  assert (Hs : s' = with_storage (storage_after_all l (storage s)) s) by congruence.
  subst s'. clear Hrun. split; [reflexivity|].
  cbn [storage with_storage].
  assert (Hcount : forall t,
            List.length (shared_storage_mappings (storage_after_all l (storage s)) t) =
              List.length (shared_storage_mappings (storage s) t) + list_sum (map (entries t) l)).
  { intros t. generalize (storage s). induction l as [|d rest IH]; intros st; simpl; [lia|].
    unfold storage_after_all in *. simpl. rewrite IH, storage_after_length. lia. }
  split; [exact Hcount|]. intros d. unfold cfn_resource_id. now rewrite Hcount.
Qed.

(** A volume, a RAID array of two and a reused EFS file system: one, two
    and one ids, and the next volume is EBS1. *)
Lemma recorded_ids_count_witness :
  exists s' w,
    for_each [ StorageEbs (Sample.ebs (PStr "/a") PNone);
               StorageRaid (Sample.ebs (PStr "/raid") PNone) Sample.raid1;
               StorageEfs (Sample.efs (PStr "/efs") (PStr "fs-1") PNone) ]
      _add_shared_storage (Sample.env PNone) (new_stack (Sample.slurm_cluster None))
      = Done tt s' w /\
    List.length (shared_storage_mappings (storage s') EBS) = 1 /\
    List.length (shared_storage_mappings (storage s') RAID) = 2 /\
    List.length (shared_storage_mappings (storage s') EFS) = 1 /\
    cfn_resource_id (StorageEbs (Sample.ebs (PStr "/b") PNone)) (storage s') = "EBS1".
Proof.
  assert (Hrun : exists s' w,
             for_each [ StorageEbs (Sample.ebs (PStr "/a") PNone);
                        StorageRaid (Sample.ebs (PStr "/raid") PNone) Sample.raid1;
                        StorageEfs (Sample.efs (PStr "/efs") (PStr "fs-1") PNone) ]
               _add_shared_storage (Sample.env PNone) (new_stack (Sample.slurm_cluster None))
               = Done tt s' w)
    by (do 2 eexists; vm_compute; reflexivity).
  destruct Hrun as (s' & w & Hrun). exists s', w. split; [exact Hrun|].
  destruct (recorded_ids_count _ _ _ _ _ Hrun) as (_ & Hcount & Hid).
  split; [exact (Hcount EBS)|]. split; [exact (Hcount RAID)|]. split; [exact (Hcount EFS)|].
  exact (Hid (StorageEbs (Sample.ebs (PStr "/b") PNone))).
Defined.

(** X4.  Two declarations of the same type never get the same logical
    id: the id of a declaration ends in the number of ids recorded for its
    type so far, and each declaration between the two records at least one
    id, the first one included unless it is a RAID declaration of no
    volume. *)
Theorem storage_logical_ids_distinct l1 d1 l2 d2 e s :
  shared_storage_type d1 = shared_storage_type d2 ->
  0 < entries (shared_storage_type d1) d1 ->
  exists s1 w1 s2 w2,
    for_each l1 _add_shared_storage e s = Done tt s1 w1 /\
    for_each (l1 ++ d1 :: l2) _add_shared_storage e s = Done tt s2 w2 /\
    cfn_resource_id d1 (storage s1) <> cfn_resource_id d2 (storage s2).
Proof.
  intros Htype Hentries. rewrite !for_each_storage_run. do 4 eexists.
  split; [reflexivity|]. split; [reflexivity|]. cbn [storage with_storage].
  unfold cfn_resource_id. rewrite <- Htype. intros Heq.
  apply string_app_inv_head, str_of_nat_inj in Heq.
  rewrite storage_after_all_app in Heq. cbn [storage_after_all fold_left] in Heq.
  fold (storage_after_all l2 (storage_after d1 (storage_after_all l1 (storage s)))) in Heq.
  set (st1 := storage_after_all l1 (storage s)) in *.
  assert (Hgrow : forall l st t,
            List.length (shared_storage_mappings st t)
            <= List.length (shared_storage_mappings (storage_after_all l st) t)).
  { induction l as [|d l IH]; intros st t; [apply Nat.le_refl|].
    cbn [storage_after_all fold_left]. fold (storage_after_all l (storage_after d st)).
    eapply Nat.le_trans; [|apply IH]. rewrite storage_after_length. lia. }
  specialize (Hgrow l2 (storage_after d1 st1) (shared_storage_type d1)).
  rewrite storage_after_length in Hgrow. lia.
Qed.

Lemma storage_logical_ids_distinct_witness :
  exists s1 w1 s2 w2,
    for_each [] _add_shared_storage (Sample.env PNone) (new_stack (Sample.slurm_cluster None))
      = Done tt s1 w1 /\
    for_each [ StorageEbs (Sample.ebs (PStr "/a") PNone);
               StorageEbs (Sample.ebs (PStr "/b") PNone) ] _add_shared_storage
      (Sample.env PNone) (new_stack (Sample.slurm_cluster None)) = Done tt s2 w2 /\
    cfn_resource_id (StorageEbs (Sample.ebs (PStr "/a") PNone)) (storage s1)
      <> cfn_resource_id (StorageEbs (Sample.ebs (PStr "/c") PNone)) (storage s2).
Proof.
  apply (storage_logical_ids_distinct []
           (StorageEbs (Sample.ebs (PStr "/a") PNone))
           [StorageEbs (Sample.ebs (PStr "/b") PNone)]
           (StorageEbs (Sample.ebs (PStr "/c") PNone))).
  - reflexivity.
  - cbn. lia.
Defined.


(** ** A new EFS file system *)

Lemma mount_target_zones_file_system aws id shared_efs :
  mount_target_zones aws (efs_file_system_events id shared_efs) = [].
Proof. unfold efs_file_system_events. now destruct (efs_creates shared_efs). Qed.

Lemma mount_target_lookup_zones_file_system id shared_efs :
  mount_target_lookup_zones (efs_file_system_events id shared_efs) = [].
Proof. unfold efs_file_system_events. now destruct (efs_creates shared_efs). Qed.

(** The file systems the mount targets of a trace belong to. *)
Definition mount_target_file_systems (w : list event) : list pyval :=
  flat_map (fun r =>
              match r with
              | CfnMountTarget _ file_system_id _ _ => [file_system_id]
              | _ => []
              end) (declared w).

Lemma mount_target_file_systems_app w1 w2 :
  mount_target_file_systems (w1 ++ w2) =
    mount_target_file_systems w1 ++ mount_target_file_systems w2.
Proof. unfold mount_target_file_systems. now rewrite declared_app, flat_map_app. Qed.

Lemma mount_targets_events_file_systems aws id fs sgs new subnets : forall checked,
  Forall (eq fs) (mount_target_file_systems (mount_targets_events aws id fs sgs new checked subnets)).
Proof.
  induction subnets as [|x rest IH]; intros checked; [constructor|].
  cbn [mount_targets_events]. rewrite mount_target_file_systems_app. apply Forall_app. split.
  - unfold mount_target_events.
    destruct (mem (zone_of aws x) checked); [constructor|].
    destruct new, (creates_mount_target aws fs _ (zone_of aws x)); repeat constructor.
  - apply IH.
Qed.

(** The file systems a trace declares. *)
Definition efs_file_systems (w : list event) : list string :=
  flat_map (fun r =>
              match r with
              | EfsCfnFileSystem rid _ _ _ _ _ _ => [rid]
              | _ => []
              end) (declared w).

Lemma efs_file_systems_app w1 w2 :
  efs_file_systems (w1 ++ w2) = efs_file_systems w1 ++ efs_file_systems w2.
Proof. unfold efs_file_systems. now rewrite declared_app, flat_map_app. Qed.

Lemma mount_targets_events_no_file_system aws id fs sgs new subnets : forall checked,
  efs_file_systems (mount_targets_events aws id fs sgs new checked subnets) = [].
Proof.
  induction subnets as [|x rest IH]; intros checked; [reflexivity|].
  cbn [mount_targets_events]. rewrite efs_file_systems_app, IH, app_nil_r.
  unfold mount_target_events.
  destruct (mem (zone_of aws x) checked); [reflexivity|].
  destruct new, (creates_mount_target aws fs _ (zone_of aws x)); reflexivity.
Qed.

Lemma filter_creates_new aws fs l : filter (creates_mount_target aws fs true) l = l.
Proof. induction l as [|x l IH]; [reflexivity|]. cbn [filter creates_mount_target orb]. now f_equal. Qed.

(** X5.  For an EFS declaration whose file system id is None, the inventory
    is never asked about mount targets: a mount target is declared in the
    zone of every compute subnet and of the head node's subnet, once per
    zone.  The file system itself is declared only when the declaration has
    a mount directory; without one the mount targets are still declared,
    for the file system id None. *)
Theorem efs_new_file_system_mount_targets id shared_efs e s :
  SharedEfs.file_system_id shared_efs = PNone ->
  exists efs_id s' w,
    _add_efs_storage id shared_efs e s = Done efs_id s' w /\
    efs_id = (if truthy (SharedEfs.mount_dir shared_efs) then PStr (Ref id) else PNone) /\
    efs_file_systems w = (if truthy (SharedEfs.mount_dir shared_efs) then [id] else []) /\
    mount_target_lookup_zones w = [] /\
    NoDup (mount_target_zones (api e) w) /\
    (forall az,
       In az (mount_target_zones (api e) w) <->
       In az (map (zone_of (api e)) (efs_subnets (config s)))) /\
    Forall (eq efs_id) (mount_target_file_systems w).
Proof.
  intros Hnew. rewrite _add_efs_storage_run. do 3 eexists. split; [reflexivity|].
  unfold efs_id_of, efs_creates. rewrite Hnew. cbn [truthy negb andb is_None].
  rewrite efs_file_systems_app, mount_targets_events_no_file_system, app_nil_r.
  rewrite mount_target_lookup_zones_app, mount_target_lookup_zones_file_system.
  rewrite mount_targets_events_lookups.
  rewrite mount_target_zones_app, mount_target_zones_file_system.
  rewrite mount_targets_events_zones.
  rewrite mount_target_file_systems_app.
  cbn [app].
  rewrite filter_creates_new. split; [reflexivity|]. split.
  { unfold efs_file_system_events, efs_creates. rewrite Hnew. cbn [truthy negb andb].
    now destruct (truthy (SharedEfs.mount_dir shared_efs)). }
  split; [reflexivity|]. split; [apply newly_checked_nil_NoDup|].
  split; [intros az; apply newly_checked_nil_In|].
  apply Forall_app. split; [|apply mount_targets_events_file_systems].
  unfold efs_file_system_events, efs_creates. rewrite Hnew. cbn [truthy negb andb].
  destruct (truthy (SharedEfs.mount_dir shared_efs)); constructor.
Qed.

(** With no mount directory: no file system, and a mount target for the
    file system id None in the one zone of the sample subnets. *)
Lemma efs_new_file_system_mount_targets_witness :
  exists s' w,
    _add_efs_storage "EFS0" (Sample.efs PNone PNone PNone) (Sample.env PNone)
      (new_stack (Sample.slurm_cluster None)) = Done PNone s' w /\
    efs_file_systems w = [] /\
    mount_target_lookup_zones w = [] /\
    mount_target_file_systems w = [PNone].
Proof.
  destruct (efs_new_file_system_mount_targets "EFS0" (Sample.efs PNone PNone PNone)
              (Sample.env PNone) (new_stack (Sample.slurm_cluster None)) eq_refl)
    as (efs_id & s' & w & Hrun & -> & Hfs & Hlookups & _).
  exists s', w. split; [exact Hrun|]. split; [exact Hfs|]. split; [exact Hlookups|].
  rewrite _add_efs_storage_run in Hrun. injection Hrun as _ <-. reflexivity.
Defined.

(** The logical ids of the mount targets a trace declares. *)
Definition mount_target_ids (w : list event) : list string :=
  flat_map (fun r =>
              match r with
              | CfnMountTarget rid _ _ _ => [rid]
              | _ => []
              end) (declared w).

Lemma mount_target_ids_app w1 w2 :
  mount_target_ids (w1 ++ w2) = mount_target_ids w1 ++ mount_target_ids w2.
Proof. unfold mount_target_ids. now rewrite declared_app, flat_map_app. Qed.

Lemma mount_targets_events_ids aws id fs sgs new subnets : forall checked,
  mount_target_ids (mount_targets_events aws id fs sgs new checked subnets) =
    map (fun az => (id ++ "MT" ++ az)%string)
      (filter (creates_mount_target aws fs new) (newly_checked aws checked subnets)).
Proof.
  induction subnets as [|x rest IH]; intros checked; [reflexivity|].
  cbn [mount_targets_events newly_checked]. rewrite mount_target_ids_app, IH.
  unfold mount_target_events, checked_after.
  destruct (mem (zone_of aws x) checked); [reflexivity|].
  cbn [filter]. destruct new, (creates_mount_target aws fs _ (zone_of aws x)); reflexivity.
Qed.

(** X6.  The mount targets of one EFS declaration have pairwise distinct
    logical ids: each is the declaration's id, "MT" and the availability
    zone, and no zone gets two mount targets. *)
Theorem efs_mount_target_ids_distinct id shared_efs e s :
  exists efs_id s' w,
    _add_efs_storage id shared_efs e s = Done efs_id s' w /\
    NoDup (mount_target_ids w) /\
    mount_target_ids w =
      map (fun az => (id ++ "MT" ++ az)%string) (mount_target_zones (api e) w).
Proof.
  rewrite _add_efs_storage_run. do 3 eexists. split; [reflexivity|].
  rewrite mount_target_ids_app, mount_target_zones_app, mount_target_zones_file_system.
  replace (mount_target_ids (efs_file_system_events id shared_efs)) with (@nil string)
    by (unfold efs_file_system_events; now destruct (efs_creates shared_efs)).
  cbn [app]. rewrite mount_targets_events_ids, mount_targets_events_zones.
  split; [|reflexivity].
  apply NoDup_map_injective.
  - intros x y H. apply string_app_inv_head in H. now apply (string_app_inv_head "MT") in H.
  - apply NoDup_filter, newly_checked_nil_NoDup.
Qed.

(** ** FSx file systems *)

(** X7.  An FSx declaration with a file system id, or with no mount
    directory, declares nothing: its id is the configured one and the mount
    name recorded is the existing one.  Otherwise one file system is
    declared, under the logical id given, in the compute subnets and with
    the compute security groups; the id is a reference to it and the mount
    name recorded is the attribute of the new file system.  The DNS name
    recorded is always the existing one, and the configuration is left
    alone. *)
Theorem fsx_reused_or_created id shared_fsx e s :
  exists fsx_id s' w,
    _add_fsx_storage id shared_fsx e s = Done fsx_id s' w /\
    config s' = config s /\
    dict_get "DNSName" (shared_storage_attributes (storage s') FSX)
      = Some (SharedFsx.existing_dns_name shared_fsx) /\
    (fsx_creates shared_fsx = false ->
     w = [] /\ fsx_id = SharedFsx.file_system_id shared_fsx /\
     dict_get "MountName" (shared_storage_attributes (storage s') FSX)
       = Some (SharedFsx.existing_mount_name shared_fsx)) /\
    (fsx_creates shared_fsx = true ->
     fsx_id = PStr (Ref id) /\
     dict_get "MountName" (shared_storage_attributes (storage s') FSX)
       = Some (PStr (GetAtt id "LustreMountName")) /\
     exists lustre,
       w = [Resource
              (FsxCfnFileSystem id (SharedFsx.storage_capacity shared_fsx) lustre
                 (SharedFsx.backup_id shared_fsx) (SharedFsx.kms_key_id shared_fsx)
                 (SharedFsx.fsx_storage_type shared_fsx)
                 (ClusterConfig.compute_subnet_ids (config s)) (compute_security_groups_of s)
                 (SharedFsx.name shared_fsx))]).
Proof.
  rewrite _add_fsx_storage_run. do 3 eexists. split; [reflexivity|]. split; [reflexivity|].
  unfold fsx_storage_after, fsx_id_of, fsx_file_system.
  destruct (fsx_creates shared_fsx);
    cbn [storage with_storage shared_storage_attributes set_options set_attribute];
    rewrite ?update_same.
  - split.
    { rewrite dict_get_set_other by discriminate. apply dict_get_set_same. }
    split; [discriminate|]. intros _. split; [reflexivity|].
    split; [apply dict_get_set_same|]. eexists. reflexivity.
  - split; [apply dict_get_set_same|].
    split; [|discriminate]. intros _. repeat split.
    rewrite dict_get_set_other by discriminate. apply dict_get_set_same.
Qed.

Lemma fsx_reused_or_created_witness :
  exists s',
    _add_fsx_storage "FSX0" (Sample.fsx (PStr "/fsx") (PStr "fs-0123") PNone PNone)
      (Sample.env PNone) (new_stack (Sample.slurm_cluster None)) = Done (PStr "fs-0123") s' [] /\
    dict_get "MountName" (shared_storage_attributes (storage s') FSX) = Some (PStr "").
Proof.
  destruct (fsx_reused_or_created "FSX0" (Sample.fsx (PStr "/fsx") (PStr "fs-0123") PNone PNone)
              (Sample.env PNone) (new_stack (Sample.slurm_cluster None)))
    as (fsx_id & s' & w & Hrun & _ & _ & Hreused & _).
  destruct (Hreused eq_refl) as (-> & -> & Hname).
  exists s'. split; [exact Hrun|exact Hname].
Defined.

(** * Further properties of the network resources *)

(** ** Managed security groups *)

(** The ingress rules of the head node's security group. *)
Definition head_security_group_ingress (c : ClusterConfig.t) : list IngressProperty :=
  {| ingress_ip_protocol := "tcp"; ingress_from_port := 22; ingress_to_port := 22;
     ingress_cidr_ip := Ssh.allowed_ips (HeadNode.ssh (ClusterConfig.head_node c)) |}
  :: (if ClusterConfig.is_dcv_enabled c then
        match HeadNode.dcv (ClusterConfig.head_node c) with
        | Some dcv =>
            [ {| ingress_ip_protocol := "tcp"; ingress_from_port := Dcv.port dcv;
                 ingress_to_port := Dcv.port dcv; ingress_cidr_ip := Dcv.allowed_ips dcv |} ]
        | None => []
        end
      else []).

(** The security groups a trace declares. *)
Definition security_groups_declared (w : list event) : list resource :=
  filter (fun r => match r with CfnSecurityGroup _ _ _ _ => true | _ => false end) (declared w).

(** X8.  The head node's security group is created exactly when the head
    node brings no security groups, in the cluster's VPC, open on port 22
    to the allowed SSH addresses and, with DCV enabled, on the DCV port to
    the allowed DCV addresses; with DCV enabled and no DCV section it cannot
    be built and an AttributeError is raised.  The compute security group is
    created exactly when some queue brings no security groups, so never for
    a cluster without queues.  The method returns the groups it created
    and leaves the object as it is. *)
Theorem managed_security_groups e s :
  (head_security_managed (config s) = true ->
   ClusterConfig.is_dcv_enabled (config s) = true ->
   HeadNode.dcv (ClusterConfig.head_node (config s)) = None ->
   _add_security_groups e s = Raised AttributeError) /\
  (head_security_managed (config s) = false \/ dcv_well_formed (config s) ->
   exists w,
     _add_security_groups e s =
       Done (if head_security_managed (config s) then Some "HeadNodeSecurityGroup" else None,
             if compute_security_managed (config s) then Some "ComputeSecurityGroup" else None)
         s w /\
     security_groups_declared w =
       (if head_security_managed (config s)
        then [CfnSecurityGroup "HeadNodeSecurityGroup" "Enable access to the head node"
                (ClusterConfig.vpc_id (config s)) (head_security_group_ingress (config s))]
        else [])
       ++ (if compute_security_managed (config s)
           then [CfnSecurityGroup "ComputeSecurityGroup" "Allow access to compute nodes"
                   (ClusterConfig.vpc_id (config s)) []]
           else [])) /\
  (ClusterConfig.queues (config s) = [] -> compute_security_managed (config s) = false).
Proof.
  unfold head_security_managed, compute_security_managed, dcv_well_formed,
    head_security_group_ingress.
  split; [|split].
  - intros Hhead Hdcv Hnone.
    unfold _add_security_groups, _add_head_security_group. mrun.
    rewrite Hhead. mrun. rewrite Hdcv, Hnone. now mrun.
  - intros Hok.
    unfold _add_security_groups, _add_head_security_group, _add_compute_security_group,
      add_resource.
    mrun.
    destruct (negb (truthy_list (HeadNodeNetworking.security_groups (head_networking (config s)))));
      destruct (existsb _ (ClusterConfig.queues (config s))); mrun.
    all: try (destruct (ClusterConfig.is_dcv_enabled (config s));
              [destruct (HeadNode.dcv (ClusterConfig.head_node (config s)));
               [|now destruct Hok as [Hok|Hok]; [discriminate Hok|contradiction Hok]]|];
              mrun).
    all: eexists; split; reflexivity.
  - intros ->. reflexivity.
Qed.

Lemma managed_security_groups_witness :
  exists w,
    _add_security_groups (Sample.env PNone) (new_stack (Sample.slurm_cluster None)) =
      Done (Some "HeadNodeSecurityGroup", Some "ComputeSecurityGroup")
        (new_stack (Sample.slurm_cluster None)) w /\
    security_groups_declared w =
      [ CfnSecurityGroup "HeadNodeSecurityGroup" "Enable access to the head node" "vpc-1"
          [ {| ingress_ip_protocol := "tcp"; ingress_from_port := 22; ingress_to_port := 22;
               ingress_cidr_ip := "0.0.0.0/0" |} ];
        CfnSecurityGroup "ComputeSecurityGroup" "Allow access to compute nodes" "vpc-1" [] ].
Proof.
  destruct (managed_security_groups (Sample.env PNone) (new_stack (Sample.slurm_cluster None)))
    as (_ & Hgroups & _).
  apply Hgroups. right. intros H. discriminate H.
Defined.

(** ** The head node's security groups and network interface *)

(** The configuration after one read of the head node's full group set:
    when the head node brings security groups and additional ones, the
    former list has been extended by the latter. *)
Definition extend_head_security_groups (c : ClusterConfig.t) : ClusterConfig.t :=
  let networking := head_networking c in
  if truthy_list (HeadNodeNetworking.security_groups networking)
     && truthy_list (HeadNodeNetworking.additional_security_groups networking)
  then set_head_security_groups
         (Some (list_or_nil (HeadNodeNetworking.security_groups networking)
                  ++ list_or_nil (HeadNodeNetworking.additional_security_groups networking))) c
  else c.

(** The full group set of the head node as one read returns it. *)
Definition head_group_set (s : stack) : result (list string) :=
  let networking := head_networking (config s) in
  (base <-
     (if truthy_list (HeadNodeNetworking.security_groups networking)
      then Ok (list_or_nil (HeadNodeNetworking.security_groups networking))
      else match _head_security_group (attrs s) with
           | Some sg => Ok [Ref sg]
           | None => Raise AttributeError
           end) ;;
   Ok (base ++ (if truthy_list (HeadNodeNetworking.additional_security_groups networking)
                then list_or_nil (HeadNodeNetworking.additional_security_groups networking)
                else [])))%result.

Lemma with_config_id s : with_config (config s) s = s.
Proof. now destruct s. Qed.

Lemma head_networking_set_head_security_groups l c :
  HeadNodeNetworking.security_groups (head_networking (set_head_security_groups l c)) = l.
Proof. reflexivity. Qed.

(** Reading the full group set and then the list it returned. *)
Lemma head_group_set_run {B : Type} (k : list string -> M B) e s :
  bind _get_head_node_security_groups_full
    (fun head_node_group_set => bind (list_read head_node_group_set) k) e s =
    match head_group_set s with
    | Ok group_set => k group_set e (with_config (extend_head_security_groups (config s)) s)
    | Raise x => Raised x
    end.
Proof.
  unfold _get_head_node_security_groups_full, _get_head_node_security_groups, head_group_set,
    extend_head_security_groups, ref_of, list_extend, list_read.
  mrun.
  destruct (truthy_list (HeadNodeNetworking.security_groups (head_networking (config s)))) eqn:Hsg;
    cbn [rbind andb]; mrun.
  - destruct (truthy_list
                (HeadNodeNetworking.additional_security_groups (head_networking (config s))));
      mrun.
    + cbn [config with_config]. rewrite head_networking_set_head_security_groups.
      reflexivity.
    + now rewrite app_nil_r, with_config_id.
  - rewrite with_config_id.
    destruct (_head_security_group (attrs s)); cbn [rbind]; mrun; [|reflexivity].
    destruct (truthy_list
                (HeadNodeNetworking.additional_security_groups (head_networking (config s))));
      now mrun.
Qed.

(** What is declared for the head node's elastic IP, and what is asked of
    the inventory for it. *)
Definition elastic_ip_resources (aws : AWSApi) (elastic_ip : pyval) : list resource :=
  match elastic_ip with
  | PBool true =>
      [ CfnEIP "HeadNodeEIP";
        CfnEIPAssociation "AssociateEIP" (GetAtt "HeadNodeEIP" "AllocationId")
          (Ref "HeadNodeENI") ]
  | _ =>
      if truthy elastic_ip
      then [ CfnEIPAssociation "AssociateEIP" (get_eip_allocation_id aws elastic_ip)
               (Ref "HeadNodeENI") ]
      else []
  end.

Definition elastic_ip_lookups (elastic_ip : pyval) : list api_call :=
  match elastic_ip with
  | PBool true => []
  | _ => if truthy elastic_ip then [Call_get_eip_allocation_id elastic_ip] else []
  end.

(** X9.  The head node's network interface lies in the head node's subnet
    and carries the head node's own security groups, or else the managed
    group, followed by the additional groups; with neither own groups nor a
    managed group an AttributeError is raised.  With the elastic IP set to
    True a new address is declared and associated; with any other truthy
    value its allocation id is asked of the inventory, once, and
    associated; otherwise nothing is associated and nothing is asked.  The
    configuration is the one a read of the full group set leaves. *)
Theorem head_network_interface e s :
  match head_group_set s with
  | Raise x => _add_head_eni e s = Raised x
  | Ok group_set =>
      let elastic_ip := HeadNodeNetworking.elastic_ip (head_networking (config s)) in
      exists w,
        _add_head_eni e s =
          Done "HeadNodeENI" (with_config (extend_head_security_groups (config s)) s) w /\
        declared w =
          CfnNetworkInterface "HeadNodeENI"
            (HeadNodeNetworking.subnet_id (head_networking (config s))) group_set
          :: elastic_ip_resources (api e) elastic_ip /\
        lookups w = elastic_ip_lookups elastic_ip
  end.
Proof.
  unfold _add_head_eni. rewrite head_group_set_run.
  destruct (head_group_set s) as [group_set|x]; [|reflexivity].
  cbv zeta. unfold add_resource, api_get_eip_allocation_id. mrun.
  assert (Hsame : head_networking (extend_head_security_groups (config s)) =
                  set_networking_security_groups
                    (HeadNodeNetworking.security_groups
                       (head_networking (extend_head_security_groups (config s))))
                    (head_networking (config s))).
  { unfold extend_head_security_groups.
    destruct (_ && _); [reflexivity|]. now destruct (head_networking (config s)). }
  cbn [config with_config]. rewrite Hsame.
  cbn [HeadNodeNetworking.subnet_id HeadNodeNetworking.elastic_ip set_networking_security_groups].
  unfold elastic_ip_resources, elastic_ip_lookups.
  destruct (HeadNodeNetworking.elastic_ip (head_networking (config s))) as [|[|]|z|ip];
    cbn [truthy]; mrun.
  all: try (eexists; split; [reflexivity|split; reflexivity]).
  - destruct (negb (z =? 0)%Z); mrun; (eexists; split; [reflexivity|split; reflexivity]).
  - destruct (negb (ip =? "")%string); mrun; (eexists; split; [reflexivity|split; reflexivity]).
Qed.

(** * Further properties of the outputs *)

Definition is_str (v : pyval) : bool :=
  match v with
  | PStr _ => true
  | _ => false
  end.

Definition text (v : pyval) : string :=
  match v with
  | PStr s => s
  | _ => ""
  end.

Lemma ids_of_strings l :
  forallb (fun info => is_str (id info)) l = true ->
  ids_of l = Ok (map (fun info => text (id info)) l).
Proof.
  induction l as [|info l IH]; simpl; [reflexivity|].
  intros H. apply andb_true_iff in H. destruct H as [Hinfo Hl].
  destruct (id info); try discriminate. now rewrite IH.
Qed.

Lemma ids_of_not_strings l :
  forallb (fun info => is_str (id info)) l = false -> ids_of l = Raise TypeError.
Proof.
  induction l as [|info l IH]; simpl; [discriminate|].
  intros H. apply andb_false_iff in H.
  destruct (id info); try reflexivity.
  destruct H as [H|H]; [discriminate|]. now rewrite IH.
Qed.

(** Whether every id recorded for every storage type is a string. *)
Definition ids_are_strings (st : Storage) : bool :=
  forallb (fun t => forallb (fun info => is_str (id info)) (shared_storage_mappings st t))
    SharedStorageTypes.

(** The output of the ids of a storage type. *)
Definition ids_output (st : Storage) (t : SharedStorageType) : resource :=
  CfnOutput (type_name t ++ "Ids")%string (type_name t ++ " Filesystem IDs")%string
    (join "," (map (fun info => text (id info)) (shared_storage_mappings st t))).

Lemma ids_outputs_run e s types :
  forallb (fun t => forallb (fun info => is_str (id info))
                      (shared_storage_mappings (storage s) t)) types = true ->
  for_each types
    (fun storage_type =>
       value <- lift (join_ids (shared_storage_mappings (storage s) storage_type)) ;;
       add_resource
         (CfnOutput (type_name storage_type ++ "Ids")%string
            (type_name storage_type ++ " Filesystem IDs")%string value)) e s =
    Done tt s (map (fun t => Resource (ids_output (storage s) t)) types).
Proof.
  unfold add_resource.
  induction types as [|t types IH]; intros H; simpl; [reflexivity|].
  apply andb_true_iff in H. destruct H as [Ht Htypes].
  unfold join_ids at 1. rewrite (ids_of_strings _ Ht). mrun.
  rewrite (IH Htypes). reflexivity.
Qed.

Lemma ids_outputs_raise e s types :
  forallb (fun t => forallb (fun info => is_str (id info))
                      (shared_storage_mappings (storage s) t)) types = false ->
  for_each types
    (fun storage_type =>
       value <- lift (join_ids (shared_storage_mappings (storage s) storage_type)) ;;
       add_resource
         (CfnOutput (type_name storage_type ++ "Ids")%string
            (type_name storage_type ++ " Filesystem IDs")%string value)) e s =
    Raised TypeError.
Proof.
  unfold add_resource.
  induction types as [|t types IH]; intros H; simpl; [discriminate|].
  apply andb_false_iff in H.
  destruct (forallb (fun info => is_str (id info)) (shared_storage_mappings (storage s) t))
    eqn:Ht.
  - destruct H as [H|H]; [discriminate|].
    unfold join_ids at 1. rewrite (ids_of_strings _ Ht). mrun.
    now rewrite (IH H).
  - unfold join_ids at 1. rewrite (ids_of_not_strings _ Ht). now mrun.
Qed.

(** X10.  The outputs are the ids of each storage type, comma-joined (the
    empty string for a type with no storage), then the id, the private IP
    and the private DNS name of the head node.  They are declared exactly
    when every recorded id is a string and the head node instance exists:
    an id that is not a string, such as the None of a declaration that
    neither names nor creates its storage, raises a TypeError before any
    head node output, whatever its storage type. *)
Theorem outputs_need_string_ids e s :
  (ids_are_strings (storage s) = false -> _add_outputs e s = Raised TypeError) /\
  (ids_are_strings (storage s) = true -> head_node_instance (attrs s) = None ->
   _add_outputs e s = Raised AttributeError) /\
  (forall i,
     ids_are_strings (storage s) = true -> head_node_instance (attrs s) = Some i ->
     _add_outputs e s =
       Done tt s
         (map (fun t => Resource (ids_output (storage s) t)) SharedStorageTypes
            ++ [ Resource (CfnOutput "HeadNodeInstanceID" "ID of the head node instance" (Ref i));
                 Resource (CfnOutput "HeadNodePrivateIP" "Private IP Address of the head node"
                             (GetAtt i "PrivateIp"));
                 Resource (CfnOutput "HeadNodePrivateDnsName" "Private DNS name of the head node"
                             (GetAtt i "PrivateDnsName")) ])).
Proof.
  unfold ids_are_strings, _add_outputs. split; [|split].
  - intros H. rewrite bind_get. unfold bind at 1. now rewrite (ids_outputs_raise e s _ H).
  - intros H Hnone. rewrite bind_get.
    erewrite bind_prepend by (apply ids_outputs_run; exact H).
    rewrite Hnone. now mrun.
  - intros i H Hsome. rewrite bind_get.
    erewrite bind_prepend by (apply ids_outputs_run; exact H).
    rewrite Hsome. unfold add_resource. mrun. reflexivity.
Qed.

(** An EFS declaration with neither id nor mount directory, then the
    outputs. *)
Lemma outputs_need_string_ids_witness :
  exists s' w,
    _add_shared_storage (StorageEfs (Sample.efs PNone PNone PNone)) (Sample.env PNone)
      (new_stack (Sample.slurm_cluster None)) = Done tt s' w /\
    ids_are_strings (storage s') = false /\
    _add_outputs (Sample.env PNone) s' = Raised TypeError.
Proof.
  rewrite _add_shared_storage_run. do 2 eexists. split; [reflexivity|].
  split; [reflexivity|].
  apply outputs_need_string_ids. reflexivity.
Defined.

(** * Further properties of the compute fleet *)

Module ComputeFleetFacts.

Import ComputeFleetConstruct.

(** A queue whose placement group the construct creates. *)
Definition managed_placement_group (queue : Queue.t) : bool :=
  placement_group_enabled queue && negb (truthy (placement_group_id queue)).

Definition placement_group_logical_id (u : Utils) (name : string) : string :=
  ("PlacementGroup" ++ create_hash_suffix u name)%string.

Lemma _add_placement_groups_resources u queues : forall d,
  snd (_add_placement_groups u queues d) =
    map (fun queue => CfnPlacementGroup (placement_group_logical_id u (Queue.name queue)) "cluster")
      (filter managed_placement_group queues).
Proof.
  induction queues as [|queue rest IH]; intros d; [reflexivity|].
  cbn [_add_placement_groups filter]. fold (managed_placement_group queue).
  destruct (managed_placement_group queue); [|apply IH].
  specialize (IH (dict_set (Queue.name queue)
                    ("PlacementGroup" ++ create_hash_suffix u (Queue.name queue))%string d)).
  destruct (_add_placement_groups u rest _) as [d' rs]. cbn [snd map] in *. now rewrite IH.
Qed.

Lemma _add_placement_groups_lookup u queues name : forall d,
  dict_get name (fst (_add_placement_groups u queues d)) =
    if existsb (fun queue => (Queue.name queue =? name)%string && managed_placement_group queue)
         queues
    then Some (placement_group_logical_id u name)
    else dict_get name d.
Proof.
  induction queues as [|queue rest IH]; intros d; [reflexivity|].
  cbn [_add_placement_groups existsb]. fold (managed_placement_group queue).
  destruct (managed_placement_group queue) eqn:Hm.
  - specialize (IH (dict_set (Queue.name queue)
                      ("PlacementGroup" ++ create_hash_suffix u (Queue.name queue))%string d)).
    destruct (_add_placement_groups u rest _) as [d' rs]. cbn [fst] in *. rewrite IH.
    rewrite andb_true_r.
    destruct (existsb _ rest); [now rewrite orb_true_r|]. rewrite orb_false_r.
    destruct (Queue.name queue =? name)%string eqn:E.
    + apply String.eqb_eq in E. subst name. apply dict_get_set_same.
    + apply String.eqb_neq in E. apply dict_get_set_other. congruence.
  - rewrite andb_false_r. cbn [orb]. apply IH.
Qed.

Lemma managed_placement_group_lookup u queues queue :
  In queue queues -> managed_placement_group queue = true ->
  dict_lookup (Queue.name queue) (fst (_add_placement_groups u queues [])) =
    Ok (placement_group_logical_id u (Queue.name queue)).
Proof.
  intros Hin Hm. unfold dict_lookup. rewrite _add_placement_groups_lookup.
  replace (existsb _ queues) with true; [reflexivity|].
  symmetry. apply existsb_exists. exists queue. split; [assumption|].
  now rewrite String.eqb_refl, Hm.
Qed.

(** X11.  A placement group is created for each queue whose placement
    group is enabled and has no id, in queue order and with the cluster
    strategy; its logical id is derived from the queue's name alone.  The
    dictionary returned maps a name to that logical id exactly when some
    queue of that name gets a placement group, so that the lookup of a
    queue's own managed group never fails. *)
Theorem managed_placement_groups u queues :
  snd (_add_placement_groups u queues []) =
    map (fun queue => CfnPlacementGroup (placement_group_logical_id u (Queue.name queue)) "cluster")
      (filter managed_placement_group queues) /\
  (forall name,
     dict_get name (fst (_add_placement_groups u queues [])) =
       if existsb (fun queue => (Queue.name queue =? name)%string && managed_placement_group queue)
            queues
       then Some (placement_group_logical_id u name)
       else None) /\
  (forall queue,
     In queue queues -> managed_placement_group queue = true ->
     dict_lookup (Queue.name queue) (fst (_add_placement_groups u queues [])) =
       Ok (placement_group_logical_id u (Queue.name queue))).
Proof.
  split; [apply _add_placement_groups_resources|].
  split; [intros name; apply _add_placement_groups_lookup|].
  intros queue. apply managed_placement_group_lookup.
Qed.

(** ** Building the construct *)

Definition launch_template_logical_id (u : Utils) (queue : Queue.t)
    (compute_resource : ComputeResource.t) : string :=
  ("LaunchTemplate"
     ++ create_hash_suffix u (Queue.name queue ++ ComputeResource.instance_type compute_resource))%string.

(** What a launch template of a queue needs: a subnet, an image and an
    instance profile under the queue's name. *)
Definition queue_ready (self : t) (queue : Queue.t) : Prop :=
  QueueNetworking.subnet_ids (Queue.networking queue) <> [] /\
  dict_get (Queue.name queue) (ClusterConfig.image_dict (_config self)) <> None /\
  dict_get (Queue.name queue) (_compute_node_instance_profiles self) <> None.

(** What the user data of every launch template needs: the ids of the EFS
    and FSx storage, and the log group when CloudWatch is enabled. *)
Definition user_data_ready (u : Utils) (self : t) : Prop :=
  (exists ids, get_shared_storage_ids_by_type u (_shared_storage_mappings self) EFS = Ok ids) /\
  (exists ids, get_shared_storage_ids_by_type u (_shared_storage_mappings self) FSX = Ok ids) /\
  (ClusterConfig.cloud_watch_enabled (_config self) = true -> _log_group self <> None).

Lemma _add_compute_resource_launch_template_ready u self queue compute_resource pre post sgs pg :
  queue_ready self queue -> user_data_ready u self ->
  exists name data,
    _add_compute_resource_launch_template u self queue compute_resource pre post sgs pg
      (_compute_node_instance_profiles self) =
      Ok (CfnLaunchTemplate (launch_template_logical_id u queue compute_resource) name data []).
Proof.
  intros (Hsubnet & Himage & Hprofile) ((efs & Hefs) & (fsx & Hfsx) & Hlog).
  unfold _add_compute_resource_launch_template, compute_lt_nw_interfaces, compute_user_data_env,
    dict_lookup.
  destruct (QueueNetworking.subnet_ids (Queue.networking queue)); [contradiction|].
  destruct (dict_get (Queue.name queue) (ClusterConfig.image_dict (_config self)));
    [|contradiction].
  destruct (dict_get (Queue.name queue) (_compute_node_instance_profiles self));
    [|contradiction].
  cbn [first rbind]. rewrite Hefs, Hfsx. cbn [rbind].
  destruct (ClusterConfig.cloud_watch_enabled (_config self)).
  - destruct (_log_group self); [|now contradiction Hlog].
    cbn [rbind]. do 2 eexists. reflexivity.
  - cbn [rbind]. do 2 eexists. reflexivity.
Qed.

Lemma _add_queue_launch_templates_ready u self queue sgs pg compute_resources :
  (compute_resources <> [] -> queue_ready self queue) -> user_data_ready u self ->
  forall templates,
  exists built,
    _add_queue_launch_templates u self queue compute_resources sgs pg
      (_compute_node_instance_profiles self) templates = Ok built /\
    map resource_id (snd built) = map (launch_template_logical_id u queue) compute_resources.
Proof.
  intros Hq Hu. induction compute_resources as [|cr rest IH]; intros templates.
  - eexists. split; reflexivity.
  - assert (Hready : queue_ready self queue) by (apply Hq; discriminate).
    cbn [_add_queue_launch_templates].
    destruct (_add_compute_resource_launch_template_ready u self queue cr
                (match Queue.custom_actions queue with
                 | Some a => CustomActions.on_node_start a
                 | None => None
                 end)
                (match Queue.custom_actions queue with
                 | Some a => CustomActions.on_node_configured a
                 | None => None
                 end) sgs pg Hready Hu) as (name & data & ->).
    cbn [rbind resource_id].
    destruct (IH (fun _ => Hready)
                (dict_set (ComputeResource.name cr) (launch_template_logical_id u queue cr)
                   templates)) as (built & -> & Hids).
    cbn [rbind]. eexists. split; [reflexivity|]. cbn [snd map resource_id]. now rewrite Hids.
Qed.

Lemma _add_launch_templates_ready u self all_queues queues :
  (forall queue, In queue queues -> In queue all_queues) ->
  (forall queue, In queue queues -> Queue.compute_resources queue <> [] -> queue_ready self queue) ->
  user_data_ready u self ->
  forall templates,
  exists built,
    _add_launch_templates u self queues (fst (_add_placement_groups u all_queues []))
      (_compute_node_instance_profiles self) templates = Ok built /\
    map resource_id (snd built) =
      flat_map (fun queue => map (launch_template_logical_id u queue)
                               (Queue.compute_resources queue)) queues.
Proof.
  intros Hall Hq Hu. induction queues as [|queue rest IH]; intros templates.
  - eexists. split; reflexivity.
  - cbn [_add_launch_templates flat_map].
    assert (Hpg : exists pg,
               (if placement_group_enabled queue then
                  if truthy (placement_group_id queue) then Ok (placement_group_id queue)
                  else (g <- dict_lookup (Queue.name queue)
                              (fst (_add_placement_groups u all_queues [])) ;;
                        Ok (PStr (Ref g)))%result
                else Ok PNone) = Ok pg).
    { destruct (placement_group_enabled queue) eqn:He; [|eexists; reflexivity].
      destruct (truthy (placement_group_id queue)) eqn:Hi; [eexists; reflexivity|].
      rewrite (managed_placement_group_lookup u all_queues queue).
      - eexists. reflexivity.
      - apply Hall. now left.
      - unfold managed_placement_group. now rewrite He, Hi. }
    destruct Hpg as (pg & ->). cbn [rbind].
    destruct (_add_queue_launch_templates_ready u self queue
                (get_queue_security_groups_full u (_compute_security_group self) queue) pg
                (Queue.compute_resources queue) (Hq queue (or_introl eq_refl)) Hu [])
      as (q & -> & Hqids).
    cbn [rbind].
    destruct (IH (fun x Hx => Hall x (or_intror Hx)) (fun x Hx => Hq x (or_intror Hx))
                (dict_set (Queue.name queue) (fst q) templates)) as (r & -> & Hrids).
    cbn [rbind]. eexists. split; [reflexivity|]. cbn [snd].
    now rewrite map_app, Hqids, Hrids.
Qed.

Lemma length_flat_map_map {A B C : Type} (f : A -> B -> C) (g : A -> list B) l :
  List.length (flat_map (fun a => map (f a) (g a)) l) =
    list_sum (map (fun a => List.length (g a)) l).
Proof.
  induction l as [|a l IH]; [reflexivity|].
  cbn [flat_map map list_sum]. now rewrite length_app, length_map, IH.
Qed.

(** X12.  When every queue with compute resources has a subnet, an image
    and an instance profile under its name, and the user data can be
    rendered, the construct is built: its children are the managed
    placement groups, then one launch template per compute resource, queue
    by queue, then the custom resource that terminates the fleet.  The
    logical id of a launch template is derived from the queue's name and
    the instance type; the custom resource is served by the cleanup
    function and depends on the managed placement groups and on the
    compute security group, if managed. *)
Theorem compute_fleet_built u self :
  (forall queue,
     In queue (ClusterConfig.queues (_config self)) ->
     Queue.compute_resources queue <> [] -> queue_ready self queue) ->
  user_data_ready u self ->
  exists templates launch_templates,
    _add_resources u self =
      Ok (templates,
          map (fun queue =>
                 CfnPlacementGroup (placement_group_logical_id u (Queue.name queue)) "cluster")
            (filter managed_placement_group (ClusterConfig.queues (_config self)))
          ++ launch_templates
          ++ [ CfnCustomResource "TerminateComputeFleetCustomResource"
                 (GetAtt (_cleanup_lambda self) "Arn")
                 [("StackName", stack_name self); ("Action", "TERMINATE_EC2_INSTANCES")]
                 (map snd (fst (_add_placement_groups u (ClusterConfig.queues (_config self)) []))
                  ++ match _compute_security_group self with
                     | Some sg => [sg]
                     | None => []
                     end) ]) /\
    map resource_id launch_templates =
      flat_map (fun queue => map (launch_template_logical_id u queue)
                               (Queue.compute_resources queue))
        (ClusterConfig.queues (_config self)) /\
    List.length launch_templates =
      list_sum (map (fun queue => List.length (Queue.compute_resources queue))
                  (ClusterConfig.queues (_config self))).
Proof.
  intros Hq Hu. unfold _add_resources.
  pose proof (_add_placement_groups_resources u (ClusterConfig.queues (_config self)) []) as Hpg.
  destruct (_add_launch_templates_ready u self (ClusterConfig.queues (_config self))
              (ClusterConfig.queues (_config self)) (fun _ H => H) Hq Hu []) as (built & Hbuilt & Hids).
  destruct (_add_placement_groups u (ClusterConfig.queues (_config self)) [])
    as [managed placement_groups]. cbn [fst snd] in *.
  rewrite Hbuilt. cbn [rbind]. subst placement_groups.
  exists (fst built), (snd built). split; [reflexivity|]. split; [exact Hids|].
  rewrite <- (length_map resource_id), Hids. apply length_flat_map_map.
Qed.

End ComputeFleetFacts.

(** * Errors of a launch template *)

(** X13.  A launch template of the compute fleet fails on the first thing
    missing, in this order: an IndexError for a queue without subnets, a
    KeyError on the queue's name when the cluster has no image for the
    queue, and the same KeyError when no instance profile is recorded for
    the queue. *)
Theorem launch_template_errors u self queue compute_resource pre post sgs placement profiles :
  let launch_template :=
    ComputeFleetConstruct._add_compute_resource_launch_template u self queue compute_resource
      pre post sgs placement profiles in
  (QueueNetworking.subnet_ids (Queue.networking queue) = [] ->
   launch_template = Raise IndexError) /\
  (QueueNetworking.subnet_ids (Queue.networking queue) <> [] ->
   dict_get (Queue.name queue) (ClusterConfig.image_dict (ComputeFleetConstruct._config self))
     = None ->
   launch_template = Raise (KeyError (Queue.name queue))) /\
  (QueueNetworking.subnet_ids (Queue.networking queue) <> [] ->
   dict_get (Queue.name queue) (ClusterConfig.image_dict (ComputeFleetConstruct._config self))
     <> None ->
   dict_get (Queue.name queue) profiles = None ->
   launch_template = Raise (KeyError (Queue.name queue))).
Proof.
  cbv zeta.
  unfold ComputeFleetConstruct._add_compute_resource_launch_template,
    ComputeFleetConstruct.compute_lt_nw_interfaces, dict_lookup.
  split; [|split].
  - intros ->. reflexivity.
  - intros Hsubnets Himage.
    destruct (QueueNetworking.subnet_ids (Queue.networking queue)); [contradiction|].
    cbn [first rbind]. now rewrite Himage.
  - intros Hsubnets Himage Hprofile.
    destruct (QueueNetworking.subnet_ids (Queue.networking queue)); [contradiction|].
    cbn [first rbind].
    destruct (dict_get (Queue.name queue) _); [|contradiction].
    cbn [rbind]. now rewrite Hprofile.
Qed.

(** * Further properties of the IAM resources *)

(** The instance profile of a queue's compute nodes. *)
Definition compute_instance_profile (name : string) : string :=
  GetAtt ("ComputeNodeIamResources" ++ name)%string "instance_profile".

Definition profiles_of (queues : list Queue.t) (d : list (string * string))
  : list (string * string) :=
  fold_left (fun d queue =>
               dict_set (Queue.name queue)
                 (GetAtt ("ComputeNodeIamResources" ++ Queue.name queue)%string "instance_profile")
                 d)
    queues d.

Lemma profiles_of_lookup queues name : forall d,
  dict_get name (profiles_of queues d) =
    if existsb (fun queue => (Queue.name queue =? name)%string) queues
    then Some (compute_instance_profile name)
    else dict_get name d.
Proof.
  induction queues as [|queue rest IH]; intros d; [reflexivity|].
  cbn [profiles_of fold_left existsb]. fold (profiles_of rest). rewrite IH.
  destruct (existsb _ rest); [now rewrite orb_true_r|]. rewrite orb_false_r.
  destruct (Queue.name queue =? name)%string eqn:E.
  - apply String.eqb_eq in E. subst name. apply dict_get_set_same.
  - apply String.eqb_neq in E. apply dict_get_set_other. congruence.
Qed.

Lemma for_each_constructs_run (queues : list Queue.t) e s :
  for_each queues
    (fun queue =>
       add_resource (Construct ("ComputeNodeIamResources" ++ Queue.name queue)%string [])) e s =
    Done tt s
      (map (fun queue =>
              Resource (Construct ("ComputeNodeIamResources" ++ Queue.name queue)%string []))
         queues).
Proof.
  unfold add_resource.
  induction queues as [|queue rest IH]; [reflexivity|].
  cbn [for_each map]. rewrite bind_emit, IH. reflexivity.
Qed.

(** X14.  The IAM resources of the head node are always declared.  Unless
    the scheduler is AWS Batch, one construct is declared per queue, in
    queue order, and the instance profiles recorded map the name of every
    queue to the profile of its construct, so that the launch templates of
    the compute fleet find the profile of any queue; with AWS Batch no
    construct is declared for the queues and the profiles recorded stay as
    they were.  The configuration is left alone. *)
Theorem iam_instance_profiles e s :
  exists s' w,
    _add_iam_resources e s = Done tt s' w /\
    config s' = config s /\
    _head_node_instance_profile (attrs s') = GetAtt "HeadNodeIamResources" "instance_profile" /\
    if (ClusterConfig.scheduler (config s) =? "awsbatch")%string then
      w = [Resource (Construct "HeadNodeIamResources" [])] /\
      _compute_instance_profiles (attrs s') = _compute_instance_profiles (attrs s)
    else
      w = Resource (Construct "HeadNodeIamResources" [])
          :: map (fun queue =>
                    Resource (Construct ("ComputeNodeIamResources" ++ Queue.name queue)%string []))
               (ClusterConfig.queues (config s)) /\
      forall queue,
        In queue (ClusterConfig.queues (config s)) ->
        dict_lookup (Queue.name queue) (_compute_instance_profiles (attrs s')) =
          Ok (compute_instance_profile (Queue.name queue)).
Proof.
  unfold _add_iam_resources, _condition_is_batch. unfold add_resource at 1. mrun.
  destruct (ClusterConfig.scheduler (config s) =? "awsbatch")%string; cbn [negb].
  - unfold set_attrs. mrun. do 2 eexists. split; [reflexivity|]. now repeat split.
  - rewrite (bind_prepend _ _ _ _ _ _ _ (for_each_constructs_run _ e s)).
    unfold set_attrs. mrun. do 2 eexists. split; [reflexivity|].
    split; [reflexivity|]. split; [reflexivity|]. split; [now rewrite app_nil_r|].
    intros queue Hin. cbn [attrs with_attrs _compute_instance_profiles attrs_with_instance_profiles].
    unfold dict_lookup. fold (profiles_of (ClusterConfig.queues (config s)) []).
    rewrite profiles_of_lookup.
    replace (existsb _ (ClusterConfig.queues (config s))) with true; [reflexivity|].
    symmetry. apply existsb_exists. exists queue. split; [assumption|apply String.eqb_refl].
Qed.


(** * Invariants of a run

    A state predicate that survives every write a run makes to the object,
    and an event predicate that holds of everything a run emits.  The
    configuration is written by the reads of the head node's full group set
    only, and the inventory is asked by the head node's network interface
    and by the EFS mount targets only. *)

(** Two configurations that differ at most by the head node's security
    groups. *)
Definition similar (c1 c2 : ClusterConfig.t) : Prop :=
  set_head_security_groups None c1 = set_head_security_groups None c2.

Lemma similar_refl c : similar c c.
Proof. reflexivity. Qed.

Lemma similar_extend c : similar (extend_head_security_groups c) c.
Proof. unfold similar, extend_head_security_groups. now destruct (_ && _). Qed.

Lemma similar_trans c1 c2 c3 : similar c1 c2 -> similar c2 c3 -> similar c1 c3.
Proof. unfold similar. congruence. Qed.

Lemma similar_shared_storage c1 c2 :
  similar c1 c2 -> ClusterConfig.shared_storage c1 = ClusterConfig.shared_storage c2.
Proof.
  intros H. change (ClusterConfig.shared_storage (set_head_security_groups None c1) =
                    ClusterConfig.shared_storage (set_head_security_groups None c2)).
  now rewrite H.
Qed.

Lemma similar_elastic_ip c1 c2 :
  similar c1 c2 ->
  HeadNodeNetworking.elastic_ip (head_networking c1) =
    HeadNodeNetworking.elastic_ip (head_networking c2).
Proof.
  intros H.
  change (HeadNodeNetworking.elastic_ip (head_networking (set_head_security_groups None c1)) =
          HeadNodeNetworking.elastic_ip (head_networking (set_head_security_groups None c2))).
  now rewrite H.
Qed.

Lemma similar_logging c1 c2 :
  similar c1 c2 ->
  ClusterConfig.is_cw_logging_enabled c1 = ClusterConfig.is_cw_logging_enabled c2.
Proof.
  intros H.
  change (ClusterConfig.is_cw_logging_enabled (set_head_security_groups None c1) =
          ClusterConfig.is_cw_logging_enabled (set_head_security_groups None c2)).
  now rewrite H.
Qed.

Lemma similar_efs_subnets c1 c2 : similar c1 c2 -> efs_subnets c1 = efs_subnets c2.
Proof.
  intros H.
  change (efs_subnets (set_head_security_groups None c1) =
          efs_subnets (set_head_security_groups None c2)).
  now rewrite H.
Qed.

Lemma _get_head_node_security_groups_full_inv e s o s' w :
  _get_head_node_security_groups_full e s = Done o s' w ->
  s' = with_config (extend_head_security_groups (config s)) s /\ w = [].
Proof.
  unfold _get_head_node_security_groups_full, _get_head_node_security_groups,
    extend_head_security_groups, ref_of, list_extend, list_read.
  mrun.
  destruct (truthy_list (HeadNodeNetworking.security_groups (head_networking (config s))));
    cbn [andb]; mrun.
  - destruct (truthy_list
                (HeadNodeNetworking.additional_security_groups (head_networking (config s))));
      mrun; intros H; inversion H; subst; split; try reflexivity.
    now rewrite with_config_id.
  - rewrite with_config_id.
    destruct (_head_security_group (attrs s)); mrun; [|discriminate].
    destruct (truthy_list
                (HeadNodeNetworking.additional_security_groups (head_networking (config s))));
      mrun; intros H; inversion H; subst; now split.
Qed.

(** Whether some EFS storage is declared, and whether some EFS storage
    declared has a file system id. *)
Definition has_efs (c : ClusterConfig.t) : bool :=
  existsb (fun d => match d with StorageEfs _ => true | _ => false end)
    (list_or_nil (ClusterConfig.shared_storage c)).

Definition reuses_efs (c : ClusterConfig.t) : bool :=
  existsb (fun d =>
             match d with
             | StorageEfs f => negb (is_None (SharedEfs.file_system_id f))
             | _ => false
             end)
    (list_or_nil (ClusterConfig.shared_storage c)).

Definition is_log_group (r : resource) : bool :=
  match r with
  | CfnLogGroup _ _ => true
  | _ => false
  end.

Create HintDb respects.

Section Respects.

Variables (c0 : ClusterConfig.t) (P : stack -> Prop) (E : event -> Prop).

Hypothesis P_similar : forall s, P s -> similar (config s) c0.
Hypothesis P_attrs : forall s a, P s -> P (with_attrs a s).
Hypothesis P_storage : forall s st, P s -> P (with_storage st s).
Hypothesis P_log_group_name : forall s n, P s -> P (with_log_group_name n s).
Hypothesis P_extend :
  forall s, P s -> P (with_config (extend_head_security_groups (config s)) s).
Hypothesis E_resource : forall r, is_log_group r = false -> E (Resource r).
Hypothesis E_log_group :
  ClusterConfig.is_cw_logging_enabled c0 = true ->
  forall s, P s -> E (Resource (CfnLogGroup "CloudWatchLogGroup" (log_group_name s))).
Hypothesis E_elastic_ip :
  let elastic_ip := HeadNodeNetworking.elastic_ip (head_networking c0) in
  truthy elastic_ip = true -> elastic_ip <> PBool true ->
  E (Lookup (Call_get_eip_allocation_id elastic_ip)).
Hypothesis E_subnet :
  forall subnet,
    has_efs c0 = true -> In subnet (efs_subnets c0) ->
    E (Lookup (Call_get_subnet_avail_zone subnet)).
Hypothesis E_mount_target :
  forall fs az, reuses_efs c0 = true -> E (Lookup (Call_get_efs_mount_target_id fs az)).

Definition respects {A : Type} (m : M A) : Prop :=
  forall e s a s' w, P s -> m e s = Done a s' w -> P s' /\ Forall E w.

Lemma respects_ret {A : Type} (a : A) : respects (ret a).
Proof. intros e s a' s' w HP H. inversion H; subst. now split. Qed.

Lemma respects_get : respects get.
Proof. intros e s a' s' w HP H. inversion H; subst. now split. Qed.

Lemma respects_ask : respects ask.
Proof. intros e s a' s' w HP H. inversion H; subst. now split. Qed.

Lemma respects_raise {A : Type} x : respects (@raise A x).
Proof. intros e s a' s' w HP H. discriminate H. Qed.

Lemma respects_lift {A : Type} (r : result A) : respects (lift r).
Proof. intros e s a' s' w HP H. unfold lift in H. destruct r; inversion H; subst. now split. Qed.

Lemma respects_add_resource r : is_log_group r = false -> respects (add_resource r).
Proof.
  intros Hr e s a' s' w HP H. inversion H; subst. split; [assumption|].
  constructor; [now apply E_resource|constructor].
Qed.

Lemma respects_set_attrs f : respects (set_attrs f).
Proof. intros e s a' s' w HP H. inversion H; subst. split; [now apply P_attrs|constructor]. Qed.

Lemma respects_modify_storage f : respects (modify_storage f).
Proof. intros e s a' s' w HP H. inversion H; subst. split; [now apply P_storage|constructor]. Qed.

Lemma respects_bind {A B : Type} (m : M A) (k : A -> M B) :
  respects m -> (forall a, respects (k a)) -> respects (bind m k).
Proof.
  intros Hm Hk e s b s'' w HP H.
  apply bind_inv in H. destruct H as (a & s' & w1 & w2 & H1 & H2 & ->).
  destruct (Hm _ _ _ _ _ HP H1) as [P1 E1]. destruct (Hk a _ _ _ _ _ P1 H2) as [P2 E2].
  split; [assumption|]. apply Forall_app. now split.
Qed.

(** After [s <- get], the state read satisfies the predicate. *)
Lemma respects_bind_get {B : Type} (k : stack -> M B) :
  (forall s, P s -> respects (k s)) -> respects (bind get k).
Proof. intros Hk e s b s' w HP H. rewrite bind_get in H. exact (Hk s HP e s b s' w HP H). Qed.

Lemma respects_when b m : respects m -> respects (when b m).
Proof. intros Hm. destruct b; [exact Hm|apply respects_ret]. Qed.

Lemma respects_for_each {A : Type} (l : list A) (body : A -> M unit) :
  (forall x, respects (body x)) -> respects (for_each l body).
Proof.
  intros Hb. induction l as [|x l IH]; simpl; [apply respects_ret|].
  apply respects_bind; [apply Hb|intros _; exact IH].
Qed.

Lemma respects_get_head_node_security_groups_full :
  respects _get_head_node_security_groups_full.
Proof.
  intros e s o s' w HP H.
  apply _get_head_node_security_groups_full_inv in H. destruct H as [-> ->].
  split; [now apply P_extend|constructor].
Qed.

Lemma respects_modify_log_group_name n : respects (modify (with_log_group_name n)).
Proof.
  intros e s a' s' w HP H. inversion H; subst. split; [now apply P_log_group_name|constructor].
Qed.

Lemma respects_lookup c : E (Lookup c) -> respects (emit (Lookup c)).
Proof. intros Hc e s a' s' w HP H. inversion H; subst. split; [assumption|]. now constructor. Qed.

Local Hint Resolve respects_ret respects_get respects_ask respects_raise respects_lift
  respects_set_attrs respects_modify_storage
  respects_get_head_node_security_groups_full respects_modify_log_group_name : respects.

(** One step of a proof that a method respects the predicates: by a lemma
    already known, by the shape of the program, or by cases on what it
    branches on. *)
Ltac respects_step :=
  first
    [ solve [auto with respects]
    | apply respects_add_resource; reflexivity
    | apply respects_bind_get; intros ? ?
    | apply respects_bind; [|intros ?]
    | apply respects_when
    | apply respects_for_each; intros ?
    | match goal with
      | |- respects (if ?c then _ else _) => destruct c
      | |- respects (match ?x with _ => _ end) => destruct x
      | |- respects (let '(_, _) := ?x in _) => destruct x
      end ].

Ltac respects_auto := repeat respects_step.

Lemma respects_condition_is_slurm : respects _condition_is_slurm.
Proof. unfold _condition_is_slurm. respects_auto. Qed.

Lemma respects_condition_is_batch : respects _condition_is_batch.
Proof. unfold _condition_is_batch. respects_auto. Qed.

Lemma respects_condition_is_byos : respects _condition_is_byos.
Proof. unfold _condition_is_byos. respects_auto. Qed.

Lemma respects_condition_create_lambda_iam_role : respects _condition_create_lambda_iam_role.
Proof. unfold _condition_create_lambda_iam_role. respects_auto. Qed.

Lemma respects_ref_of x : respects (ref_of x).
Proof. unfold ref_of. respects_auto. Qed.

Lemma respects_list_read o : respects (list_read o).
Proof. unfold list_read. respects_auto. Qed.

Local Hint Resolve respects_condition_is_slurm respects_condition_is_batch
  respects_condition_is_byos respects_condition_create_lambda_iam_role respects_ref_of
  respects_list_read : respects.

Lemma respects_get_compute_security_groups : respects _get_compute_security_groups.
Proof. unfold _get_compute_security_groups. respects_auto. Qed.

Lemma respects_add_parameters : respects _add_parameters.
Proof. unfold _add_parameters. respects_auto. Qed.

Lemma respects_add_cluster_log_group :
  ClusterConfig.is_cw_logging_enabled c0 = true -> respects _add_cluster_log_group.
Proof.
  intros Hlogging. unfold _add_cluster_log_group, add_resource.
  apply respects_bind_get. intros s HP.
  apply respects_bind; [|respects_auto].
  intros e s0 a s' w HP0 H. inversion H; subst. split; [assumption|].
  constructor; [now apply E_log_group|constructor].
Qed.

Lemma respects_add_iam_resources : respects _add_iam_resources.
Proof. unfold _add_iam_resources. respects_auto. Qed.

Lemma respects_add_cleanup_resources_lambda : respects _add_cleanup_resources_lambda.
Proof. unfold _add_cleanup_resources_lambda. respects_auto. Qed.

Lemma respects_add_security_groups : respects _add_security_groups.
Proof.
  unfold _add_security_groups, _add_head_security_group, _add_compute_security_group.
  respects_auto.
Qed.

Lemma respects_add_byos_substack : respects _add_byos_substack.
Proof. unfold _add_byos_substack. respects_auto. Qed.

Lemma respects_add_wait_condition ts : respects (_add_wait_condition ts).
Proof. unfold _add_wait_condition. respects_auto. Qed.

Lemma respects_add_outputs : respects _add_outputs.
Proof. unfold _add_outputs. respects_auto. Qed.

Lemma respects_dna_json : respects dna_json.
Proof. unfold dna_json. respects_auto. Qed.

Lemma respects_cfn_init dna ltc : respects (cfn_init dna ltc).
Proof. unfold cfn_init. respects_auto. Qed.

Lemma respects_get_launch_templates_config : respects _get_launch_templates_config.
Proof. unfold _get_launch_templates_config. respects_auto. Qed.

Lemma respects_add_compute_fleet role lambda : respects (_add_compute_fleet role lambda).
Proof. unfold _add_compute_fleet. respects_auto. Qed.

Local Hint Resolve respects_get_compute_security_groups respects_add_parameters
  respects_add_iam_resources
  respects_add_cleanup_resources_lambda respects_add_security_groups
  respects_add_byos_substack respects_add_wait_condition respects_add_outputs
  respects_dna_json respects_cfn_init respects_get_launch_templates_config
  respects_add_compute_fleet : respects.

Lemma respects_add_head_node : respects _add_head_node.
Proof. unfold _add_head_node. respects_auto. Qed.

(** The network interface asks the inventory for the allocation id of the
    configured elastic IP, and only when that is truthy and not True. *)
Lemma respects_add_head_eni : respects _add_head_eni.
Proof.
  unfold _add_head_eni.
  apply respects_bind; [respects_auto|intros o].
  apply respects_bind; [respects_auto|intros group_set].
  apply respects_bind_get. intros s HP.
  apply respects_bind; [respects_auto|intros _].
  apply respects_bind; [|intros ?; respects_auto].
  rewrite (similar_elastic_ip _ _ (P_similar s HP)).
  destruct (truthy (HeadNodeNetworking.elastic_ip (head_networking c0))) eqn:Ht;
    [|respects_auto].
  apply respects_bind; [|intros ?; respects_auto].
  assert (Hlookup : HeadNodeNetworking.elastic_ip (head_networking c0) <> PBool true ->
                    respects (api_get_eip_allocation_id
                                (HeadNodeNetworking.elastic_ip (head_networking c0)))).
  { intros Hne. unfold api_get_eip_allocation_id.
    apply respects_bind; [respects_auto|intros ?].
    apply respects_bind; [|intros ?; respects_auto].
    apply respects_lookup. now apply E_elastic_ip. }
  destruct (HeadNodeNetworking.elastic_ip (head_networking c0)) as [|[|]|z|ip];
    try (apply Hlookup; discriminate).
  respects_auto.
Qed.

Lemma Forall_mount_targets_events aws id fs sgs new subnets : forall checked,
  (forall subnet, In subnet subnets -> E (Lookup (Call_get_subnet_avail_zone subnet))) ->
  (new = false -> forall az, E (Lookup (Call_get_efs_mount_target_id fs az))) ->
  Forall E (mount_targets_events aws id fs sgs new checked subnets).
Proof.
  induction subnets as [|x rest IH]; intros checked Hsubnet Hmt; [constructor|].
  cbn [mount_targets_events]. apply Forall_app. split.
  - unfold mount_target_events. constructor; [apply Hsubnet; now left|].
    destruct (mem (zone_of aws x) checked); [constructor|].
    apply Forall_app. split.
    + destruct new; [constructor|]. constructor; [now apply Hmt|constructor].
    + destruct (creates_mount_target aws fs new (zone_of aws x)); repeat constructor.
      now apply E_resource.
  - apply IH; [|assumption]. intros subnet Hin. apply Hsubnet. now right.
Qed.

Lemma Forall_storage_events d e s :
  similar (config s) c0 -> In d (list_or_nil (ClusterConfig.shared_storage c0)) ->
  Forall E (storage_events d e s).
Proof.
  intros Hs Hin. destruct d as [b|b r|f|f]; cbn [storage_events].
  - destruct (ebs_creates b); repeat constructor. now apply E_resource.
  - apply Forall_forall. intros ev Hev. apply in_map_iff in Hev.
    destruct Hev as (v & <- & _). now apply E_resource.
  - apply Forall_app. split.
    + unfold efs_file_system_events. destruct (efs_creates f); repeat constructor.
      now apply E_resource.
    + rewrite (similar_efs_subnets _ _ Hs). apply Forall_mount_targets_events.
      * intros subnet Hsubnet. apply E_subnet; [|assumption].
        unfold has_efs. apply existsb_exists. now exists (StorageEfs f).
      * intros Hnew az. apply E_mount_target.
        unfold reuses_efs. apply existsb_exists. exists (StorageEfs f).
        split; [assumption|]. now rewrite Hnew.
  - destruct (fsx_creates f); repeat constructor. now apply E_resource.
Qed.

Lemma Forall_storages_events l e : forall s,
  similar (config s) c0 ->
  (forall d, In d l -> In d (list_or_nil (ClusterConfig.shared_storage c0))) ->
  Forall E (storages_events l e s).
Proof.
  induction l as [|d rest IH]; intros s Hs Hl; [constructor|].
  cbn [storages_events]. apply Forall_app. split.
  - apply Forall_storage_events; [assumption|]. apply Hl. now left.
  - apply IH; [exact Hs|]. intros d' Hd'. apply Hl. now right.
Qed.

(** The loop over the storage declarations of the configuration. *)
Lemma respects_shared_storage s0 :
  P s0 ->
  respects (for_each (list_or_nil (ClusterConfig.shared_storage (config s0))) _add_shared_storage).
Proof.
  intros HP0 e s a s' w HP H. rewrite for_each_storage_run in H. inversion H; subst.
  split; [now apply P_storage|].
  apply Forall_storages_events; [now apply P_similar|].
  rewrite (similar_shared_storage _ _ (P_similar s0 HP0)). auto.
Qed.

Local Hint Resolve respects_add_head_node respects_add_head_eni respects_shared_storage
  : respects.

Lemma respects_add_resources ts : respects (_add_resources ts).
Proof.
  unfold _add_resources.
  apply respects_bind_get. intros s HP.
  apply respects_bind; [respects_auto|intros _].
  apply respects_bind; [|intros _; respects_auto].
  rewrite (similar_logging _ _ (P_similar s HP)).
  destruct (Bool.bool_dec (ClusterConfig.is_cw_logging_enabled c0) true) as [Hlogging|Hlogging].
  - rewrite Hlogging.
    apply respects_bind; [now apply respects_add_cluster_log_group|intros ?; respects_auto].
  - apply Bool.not_true_is_false in Hlogging. rewrite Hlogging. respects_auto.
Qed.

Local Hint Resolve respects_add_resources : respects.

Lemma respects_init clock : respects (__init__ clock).
Proof. unfold __init__. respects_auto. Qed.

End Respects.

(** ** The inventory calls of a run *)

(** What a run may ask of the inventory, given its configuration. *)
Definition expected (c : ClusterConfig.t) (ev : event) : Prop :=
  match ev with
  | Resource _ => True
  | Lookup (Call_get_eip_allocation_id elastic_ip) =>
      elastic_ip = HeadNodeNetworking.elastic_ip (head_networking c) /\
      truthy elastic_ip = true /\ elastic_ip <> PBool true
  | Lookup (Call_get_subnet_avail_zone subnet) =>
      has_efs c = true /\ In subnet (efs_subnets c)
  | Lookup (Call_get_efs_mount_target_id _ _) => reuses_efs c = true
  end.

Lemma reuses_efs_has_efs c : reuses_efs c = true -> has_efs c = true.
Proof.
  unfold reuses_efs, has_efs. rewrite !existsb_exists.
  intros (d & Hin & Hd). exists d. split; [assumption|]. now destruct d.
Qed.

Lemma expected_no_lookups c w :
  Forall (expected c) w ->
  has_efs c = false ->
  truthy (HeadNodeNetworking.elastic_ip (head_networking c)) = false
  \/ HeadNodeNetworking.elastic_ip (head_networking c) = PBool true ->
  lookups w = [].
Proof.
  intros Hw Hefs Hip. induction Hw as [|ev w Hev _ IH]; [reflexivity|].
  destruct ev as [r|call]; cbn [lookups]; [exact IH|]. exfalso.
  destruct call as [subnet|fs az|ip]; cbn [expected] in Hev.
  - destruct Hev as [H _]. congruence.
  - apply reuses_efs_has_efs in Hev. congruence.
  - destruct Hev as (-> & Ht & Hne). destruct Hip; congruence.
Qed.

(** X15.  A finished run asks the inventory for nothing but: the
    allocation id of the head node's elastic IP, when that is set to
    something other than True; the availability zone of a compute subnet or
    of the head node's subnet, when some EFS storage is declared; and the
    mount target of a file system, when some EFS storage with a file system
    id is declared.  So a run for a configuration without EFS storage and
    without an existing elastic IP makes no inventory call at all. *)
Theorem inventory_calls e clock cluster_config s w :
  ClusterCdkStack e clock cluster_config = Done tt s w ->
  Forall (expected cluster_config) w /\
  (has_efs cluster_config = false ->
   truthy (HeadNodeNetworking.elastic_ip (head_networking cluster_config)) = false
   \/ HeadNodeNetworking.elastic_ip (head_networking cluster_config) = PBool true ->
   lookups w = []).
Proof.
  intros Hrun.
  assert (Hw : Forall (expected cluster_config) w).
  { refine (proj2 (respects_init cluster_config
                     (fun s => similar (config s) cluster_config)
                     (expected cluster_config) _ _ _ _ _ _ _ _ _ _ clock e
                     (new_stack cluster_config) tt s w _ Hrun)).
    - intros s0 H. exact H.
    - intros s0 a H. exact H.
    - intros s0 st H. exact H.
    - intros s0 n H. exact H.
    - intros s0 H. cbn [config with_config].
      eapply similar_trans; [apply similar_extend|exact H].
    - intros r _. exact I.
    - intros _ s0 _. exact I.
    - intros elastic_ip Ht Hne. now repeat split.
    - intros subnet Hefs Hin. now split.
    - intros fs az H. exact H.
    - apply similar_refl. }
  split; [exact Hw|]. now apply expected_no_lookups.
Qed.

(** ** The log group of a run *)

(** The name the constructor gives the log group: the one passed in, or
    else a name that ends in the minute the run started at. *)
Definition chosen_log_group_name (e : Env) (clock : nat -> datetime) : pyval :=
  if truthy (arg_log_group_name e) then arg_log_group_name e
  else PStr (CW_LOG_GROUP_NAME_PREFIX (utils e) ++ cdk_stack_name e ++ "-"
               ++ strftime_minutes (clock 1))%string.

Definition log_group_event (logging : bool) (name : pyval) (ev : event) : Prop :=
  match ev with
  | Resource (CfnLogGroup rid n) => logging = true /\ rid = "CloudWatchLogGroup" /\ n = name
  | _ => True
  end.

Definition parameters (e : Env) (s : stack) : list event :=
  [ Resource (CfnParameter "ClusterUser"
                (PStr (OS_MAPPING_user (utils e) (ClusterConfig.os (config s)))));
    Resource (CfnParameter "ResourcesS3Bucket" (PStr (S3Bucket.name (bucket e))));
    Resource (CfnParameter "ArtifactS3RootDirectory"
                (PStr (S3Bucket.artifact_directory (bucket e))));
    Resource (CfnParameter "Scheduler" (PStr (ClusterConfig.scheduler (config s))));
    Resource (CfnParameter "ConfigVersion"
                (PStr (ClusterConfig.original_config_version (config s)))) ]
  ++ (if ClusterConfig.is_cw_logging_enabled (config s)
      then [Resource (CfnParameter (CW_LOGS_CFN_PARAM_NAME (utils e)) (log_group_name s))]
      else []).

Lemma _add_parameters_run e s : _add_parameters e s = Done tt s (parameters e s).
Proof.
  unfold _add_parameters, parameters, add_resource, when. mrun.
  destruct (ClusterConfig.is_cw_logging_enabled (config s)); now mrun.
Qed.

Lemma prepend_inv {A : Type} w (o : outcome A) a s w' :
  prepend w o = Done a s w' -> exists rest, o = Done a s rest /\ w' = w ++ rest.
Proof. destruct o as [a0 s0 w0|x]; [|discriminate]. intros H. inversion H; subst. eauto. Qed.

(** X16.  With CloudWatch logging enabled, the log group of a finished run
    has the name passed to the constructor when one is passed, and
    otherwise a name made of the prefix, the stack name and the minute the
    run started at; that name is the default of the log group parameter,
    the name of the one log group declared, and the name the object holds.
    With logging disabled no log group is declared. *)
Theorem log_group_of_run e clock cluster_config s w :
  ClusterCdkStack e clock cluster_config = Done tt s w ->
  (ClusterConfig.is_cw_logging_enabled cluster_config = false ->
   forall rid name, ~ In (Resource (CfnLogGroup rid name)) w) /\
  (ClusterConfig.is_cw_logging_enabled cluster_config = true ->
   log_group_name s = chosen_log_group_name e clock /\
   In (Resource (CfnParameter (CW_LOGS_CFN_PARAM_NAME (utils e))
                   (chosen_log_group_name e clock))) w /\
   In (Resource (CfnLogGroup "CloudWatchLogGroup" (chosen_log_group_name e clock))) w /\
   forall rid name,
     In (Resource (CfnLogGroup rid name)) w ->
     rid = "CloudWatchLogGroup" /\ name = chosen_log_group_name e clock).
Proof.
  intros H. unfold ClusterCdkStack, __init__ in H. rewrite bind_ask, bind_get in H.
  cbn [config new_stack] in H.
  set (logging := ClusterConfig.is_cw_logging_enabled cluster_config) in *.
  set (name := chosen_log_group_name e clock).
  set (s1 := if logging then with_log_group_name name (new_stack cluster_config)
             else new_stack cluster_config).
  assert (Hprologue :
            (if logging then
               if truthy (arg_log_group_name e)
               then modify (with_log_group_name (arg_log_group_name e))
               else modify (with_log_group_name
                              (PStr (CW_LOG_GROUP_NAME_PREFIX (utils e) ++ cdk_stack_name e
                                       ++ "-" ++ strftime_minutes (clock 1))%string))
             else ret tt) e (new_stack cluster_config) = Done tt s1 []).
  { subst s1 name. unfold chosen_log_group_name.
    destruct logging; [|reflexivity]. now destruct (truthy (arg_log_group_name e)). }
  rewrite (bind_prepend _ _ _ _ _ _ _ Hprologue), prepend_nil in H.
  rewrite (bind_prepend _ _ _ _ _ _ _ (_add_parameters_run e s1)) in H.
  apply prepend_inv in H. destruct H as (w' & H & ->).
  apply bind_inv in H. destruct H as (? & s2 & w2 & w3 & Hresources & Houtputs & ->).
  set (P := fun s : stack =>
              similar (config s) cluster_config /\
              (logging = true -> log_group_name s = name)).
  assert (HP1 : P s1).
  { subst s1 P. cbv beta. destruct logging; split; try reflexivity. discriminate. }
  assert (HE : forall r, is_log_group r = false -> log_group_event logging name (Resource r)).
  { intros r Hr. destruct r; try exact I. discriminate Hr. }
  destruct (respects_add_resources cluster_config P (log_group_event logging name))
    with (ts := strftime_seconds (clock 0)) (e := e) (s := s1) (a := x) (s' := s2) (w := w2)
    as [HP2 HE2]; try assumption; try (intros; exact I).
  { intros s0 [H0 _]. exact H0. }
  { intros s0 a H0. exact H0. }
  { intros s0 st H0. exact H0. }
  { intros s0 [H0 H1]. split; [|exact H1]. cbn [config with_config].
    eapply similar_trans; [apply similar_extend|exact H0]. }
  { intros Hl s0 [_ H0]. cbn [log_group_event]. repeat split; auto. }
  destruct (respects_add_outputs P (log_group_event logging name) HE e s2 tt s w3 HP2 Houtputs)
    as [HP3 HE3].
  assert (Hall : Forall (log_group_event logging name) (parameters e s1 ++ w2 ++ w3)).
  { apply Forall_app. split; [|apply Forall_app; now split].
    unfold parameters. apply Forall_app. split; [repeat constructor|].
    destruct (ClusterConfig.is_cw_logging_enabled (config s1)); repeat constructor. }
  rewrite Forall_forall in Hall. split.
  - intros Hl rid n Hin. specialize (Hall _ Hin). cbn [log_group_event] in Hall.
    destruct Hall as [Hall _]. congruence.
  - intros Hl. split; [exact (proj2 HP3 Hl)|]. split; [|split].
    + apply in_or_app. left. unfold parameters. apply in_or_app. right.
      replace (ClusterConfig.is_cw_logging_enabled (config s1)) with true
        by (subst s1; rewrite Hl; symmetry; exact Hl).
      replace (log_group_name s1) with name by (subst s1; now rewrite Hl).
      now left.
    + apply in_or_app. right. apply in_or_app. left.
      unfold _add_resources in Hresources. rewrite bind_get in Hresources.
      unfold set_attrs at 1 in Hresources. rewrite bind_modify in Hresources.
      replace (ClusterConfig.is_cw_logging_enabled (config s1)) with true in Hresources
        by (subst s1; rewrite Hl; symmetry; exact Hl).
      unfold _add_cluster_log_group, add_resource in Hresources.
      rewrite !bind_bind, bind_get, bind_bind, bind_emit in Hresources.
      apply prepend_inv in Hresources. destruct Hresources as (rest & _ & ->).
      left. cbn [log_group_name with_attrs]. subst s1. now rewrite Hl.
    + intros rid n Hin. specialize (Hall _ Hin). cbn [log_group_event] in Hall. tauto.
Qed.

(** ** What a run writes, step by step

    A view [f] of the object that no write to the attributes or to the log
    group name changes, with what a read of the head node's full group set
    and the loop over the storage declarations do to it. *)

Create HintDb keeps.

Section Frame.

Variables (X : Type) (f : stack -> X).
Variables (after_read : X -> X) (after_storage : list SharedStorage -> X -> X).
Variable declarations : X -> list SharedStorage.

Hypothesis f_attrs : forall a s, f (with_attrs a s) = f s.
Hypothesis f_log_group_name : forall n s, f (with_log_group_name n s) = f s.
Hypothesis f_read :
  forall s, f (with_config (extend_head_security_groups (config s)) s) = after_read (f s).
Hypothesis f_storage :
  forall l s, f (with_storage (storage_after_all l (storage s)) s) = after_storage l (f s).
Hypothesis f_declarations :
  forall s, list_or_nil (ClusterConfig.shared_storage (config s)) = declarations (f s).
Hypothesis after_storage_nil : forall x, after_storage [] x = x.

Definition keeps {A : Type} (m : M A) : Prop :=
  forall e s a s' w, m e s = Done a s' w -> f s' = f s.

Definition reads_once {A : Type} (m : M A) : Prop :=
  forall e s a s' w, m e s = Done a s' w -> f s' = after_read (f s).

Lemma keeps_ret {A : Type} (a : A) : keeps (ret a).
Proof. intros e s a' s' w H. now inversion H. Qed.

Lemma keeps_get : keeps get.
Proof. intros e s a' s' w H. now inversion H. Qed.

Lemma keeps_ask : keeps ask.
Proof. intros e s a' s' w H. now inversion H. Qed.

Lemma keeps_raise {A : Type} x : keeps (@raise A x).
Proof. intros e s a' s' w H. discriminate H. Qed.

Lemma keeps_lift {A : Type} (r : result A) : keeps (lift r).
Proof. intros e s a' s' w H. unfold lift in H. destruct r; now inversion H. Qed.

Lemma keeps_emit ev : keeps (emit ev).
Proof. intros e s a' s' w H. now inversion H. Qed.

Lemma keeps_add_resource r : keeps (add_resource r).
Proof. apply keeps_emit. Qed.

Lemma keeps_set_attrs g : keeps (set_attrs g).
Proof. intros e s a' s' w H. inversion H; subst. apply f_attrs. Qed.

Lemma keeps_modify_log_group_name n : keeps (modify (with_log_group_name n)).
Proof. intros e s a' s' w H. inversion H; subst. apply f_log_group_name. Qed.

Lemma keeps_bind {A B : Type} (m : M A) (k : A -> M B) :
  keeps m -> (forall a, keeps (k a)) -> keeps (bind m k).
Proof.
  intros Hm Hk e s b s'' w H.
  apply bind_inv in H. destruct H as (a & s' & w1 & w2 & H1 & H2 & ->).
  rewrite (Hk a _ _ _ _ _ H2). exact (Hm _ _ _ _ _ H1).
Qed.

Lemma keeps_when b m : keeps m -> keeps (when b m).
Proof. intros Hm. destruct b; [exact Hm|apply keeps_ret]. Qed.

Lemma keeps_for_each {A : Type} (l : list A) (body : A -> M unit) :
  (forall x, keeps (body x)) -> keeps (for_each l body).
Proof.
  intros Hb. induction l as [|x l IH]; simpl; [apply keeps_ret|].
  apply keeps_bind; [apply Hb|intros _; exact IH].
Qed.

Lemma reads_once_then_keeps {A B : Type} (m : M A) (k : A -> M B) :
  reads_once m -> (forall a, keeps (k a)) -> reads_once (bind m k).
Proof.
  intros Hm Hk e s b s'' w H.
  apply bind_inv in H. destruct H as (a & s' & w1 & w2 & H1 & H2 & ->).
  rewrite (Hk a _ _ _ _ _ H2). exact (Hm _ _ _ _ _ H1).
Qed.

Local Hint Resolve keeps_ret keeps_get keeps_ask keeps_raise keeps_lift keeps_emit
  keeps_add_resource keeps_set_attrs keeps_modify_log_group_name : keeps.

Ltac keeps_step :=
  first
    [ solve [auto with keeps]
    | apply keeps_bind; [|intros ?]
    | apply keeps_when
    | apply keeps_for_each; intros ?
    | match goal with
      | |- keeps (if ?c then _ else _) => destruct c
      | |- keeps (match ?x with _ => _ end) => destruct x
      | |- keeps (let '(_, _) := ?x in _) => destruct x
      end ].

Ltac keeps_auto := repeat keeps_step.

Lemma keeps_condition_is_slurm : keeps _condition_is_slurm.
Proof. unfold _condition_is_slurm. keeps_auto. Qed.

Lemma keeps_condition_is_batch : keeps _condition_is_batch.
Proof. unfold _condition_is_batch. keeps_auto. Qed.

Lemma keeps_condition_is_byos : keeps _condition_is_byos.
Proof. unfold _condition_is_byos. keeps_auto. Qed.

Lemma keeps_condition_create_lambda_iam_role : keeps _condition_create_lambda_iam_role.
Proof. unfold _condition_create_lambda_iam_role. keeps_auto. Qed.

Lemma keeps_ref_of x : keeps (ref_of x).
Proof. unfold ref_of. keeps_auto. Qed.

Lemma keeps_list_read o : keeps (list_read o).
Proof. unfold list_read. keeps_auto. Qed.

Local Hint Resolve keeps_condition_is_slurm keeps_condition_is_batch
  keeps_condition_is_byos keeps_condition_create_lambda_iam_role keeps_ref_of
  keeps_list_read : keeps.

Lemma keeps_add_parameters : keeps _add_parameters.
Proof. unfold _add_parameters. keeps_auto. Qed.

Lemma keeps_add_cluster_log_group : keeps _add_cluster_log_group.
Proof. unfold _add_cluster_log_group. keeps_auto. Qed.

Lemma keeps_add_iam_resources : keeps _add_iam_resources.
Proof. unfold _add_iam_resources. keeps_auto. Qed.

Lemma keeps_add_cleanup_resources_lambda : keeps _add_cleanup_resources_lambda.
Proof. unfold _add_cleanup_resources_lambda. keeps_auto. Qed.

Lemma keeps_add_security_groups : keeps _add_security_groups.
Proof.
  unfold _add_security_groups, _add_head_security_group, _add_compute_security_group.
  keeps_auto.
Qed.

Lemma keeps_add_byos_substack : keeps _add_byos_substack.
Proof. unfold _add_byos_substack. keeps_auto. Qed.

Lemma keeps_add_wait_condition ts : keeps (_add_wait_condition ts).
Proof. unfold _add_wait_condition. keeps_auto. Qed.

Lemma keeps_add_outputs : keeps _add_outputs.
Proof. unfold _add_outputs. keeps_auto. Qed.

Lemma keeps_dna_json : keeps dna_json.
Proof. unfold dna_json. keeps_auto. Qed.

Lemma keeps_cfn_init dna ltc : keeps (cfn_init dna ltc).
Proof. unfold cfn_init. keeps_auto. Qed.

Lemma keeps_get_launch_templates_config : keeps _get_launch_templates_config.
Proof. unfold _get_launch_templates_config. keeps_auto. Qed.

Lemma keeps_add_compute_fleet role lambda : keeps (_add_compute_fleet role lambda).
Proof. unfold _add_compute_fleet. keeps_auto. Qed.

Local Hint Resolve keeps_add_parameters keeps_add_cluster_log_group
  keeps_add_iam_resources keeps_add_cleanup_resources_lambda keeps_add_security_groups
  keeps_add_byos_substack keeps_add_wait_condition keeps_add_outputs keeps_dna_json
  keeps_cfn_init keeps_get_launch_templates_config keeps_add_compute_fleet : keeps.

Lemma reads_once_get_head_node_security_groups_full :
  reads_once _get_head_node_security_groups_full.
Proof.
  intros e s o s' w H. apply _get_head_node_security_groups_full_inv in H.
  destruct H as [-> _]. apply f_read.
Qed.

Lemma reads_once_add_head_eni : reads_once _add_head_eni.
Proof.
  unfold _add_head_eni, api_get_eip_allocation_id.
  apply reads_once_then_keeps; [apply reads_once_get_head_node_security_groups_full|].
  intros o. keeps_auto.
Qed.

Lemma reads_once_add_head_node : reads_once _add_head_node.
Proof.
  unfold _add_head_node.
  apply reads_once_then_keeps; [apply reads_once_get_head_node_security_groups_full|].
  intros o. keeps_auto.
Qed.

(** The loop over the declarations of the configuration read at [s0]. *)
Lemma shared_storage_frame s0 e s a s' w :
  (if truthy_list (ClusterConfig.shared_storage (config s0))
   then for_each (list_or_nil (ClusterConfig.shared_storage (config s0))) _add_shared_storage
   else ret tt) e s = Done a s' w ->
  f s' = after_storage (declarations (f s0)) (f s).
Proof.
  rewrite <- f_declarations.
  destruct (ClusterConfig.shared_storage (config s0)) as [[|d l]|]; cbn [truthy_list list_or_nil].
  - intros H. inversion H; subst. now rewrite after_storage_nil.
  - intros H.
    assert (Hs : s' = with_storage (storage_after_all (d :: l) (storage s)) s)
      by (rewrite for_each_storage_run in H; congruence).
    rewrite Hs. apply f_storage.
  - intros H. inversion H; subst. now rewrite after_storage_nil.
Qed.

(** One step of a run, read off an equation [bind m k e s = Done ...]: the
    view after [m] in terms of the view before. *)
Ltac frame_step H :=
  first
    [ rewrite bind_get in H
    | rewrite bind_ask in H
    | let H1 := fresh "Hstep" in
      apply bind_inv in H;
      destruct H as (? & ? & ? & ? & H1 & H & ->);
      first
        [ apply reads_once_add_head_eni in H1
        | apply reads_once_add_head_node in H1
        | apply shared_storage_frame in H1
        | let K := fresh "K" in
          match type of H1 with
          | ?m _ _ = Done _ _ _ =>
              assert (K : keeps m) by keeps_auto; apply K in H1; clear K
          end ] ].

Ltac frame_last H :=
  let K := fresh "K" in
  match type of H with
  | ?m _ _ = Done _ _ _ =>
      assert (K : keeps m) by keeps_auto; apply K in H; clear K
  end.

Lemma _add_resources_frame ts e s a s' w :
  _add_resources ts e s = Done a s' w ->
  f s' = after_read (after_storage (declarations (after_read (f s))) (after_read (f s))).
Proof.
  unfold _add_resources. intros H.
  repeat (frame_step H). frame_last H. congruence.
Qed.

Lemma __init___frame clock e s a s' w :
  __init__ clock e s = Done a s' w ->
  f s' = after_read (after_storage (declarations (after_read (f s))) (after_read (f s))).
Proof.
  unfold __init__. intros H.
  frame_step H. frame_step H. frame_step H. frame_step H.
  apply bind_inv in H. destruct H as (? & ? & ? & ? & Hresources & H & ->).
  apply _add_resources_frame in Hresources. frame_last H. congruence.
Qed.

End Frame.

(** The configuration of a finished run. *)
Lemma __init___config clock e s a s' w :
  __init__ clock e s = Done a s' w ->
  config s' = extend_head_security_groups (extend_head_security_groups (config s)).
Proof.
  apply (__init___frame ClusterConfig.t config extend_head_security_groups (fun _ c => c)
           (fun c => list_or_nil (ClusterConfig.shared_storage c))); reflexivity.
Qed.

(** The storage record of a finished run. *)
Lemma __init___storage clock e s a s' w :
  __init__ clock e s = Done a s' w ->
  storage s' =
    storage_after_all (list_or_nil (ClusterConfig.shared_storage (config s))) (storage s).
Proof.
  intros H.
  pose proof (__init___frame (ClusterConfig.t * Storage)
                (fun s => (set_head_security_groups None (config s), storage s))
                (fun x => x) (fun l x => (fst x, storage_after_all l (snd x)))
                (fun x => list_or_nil (ClusterConfig.shared_storage (fst x)))) as F.
  specialize (F (fun _ _ => eq_refl) (fun _ _ => eq_refl)).
  assert (Hread : forall s0 : stack,
            (set_head_security_groups None
               (config (with_config (extend_head_security_groups (config s0)) s0)),
             storage (with_config (extend_head_security_groups (config s0)) s0)) =
            (set_head_security_groups None (config s0), storage s0)).
  { intros s0. cbn [config storage with_config]. f_equal. apply similar_extend. }
  specialize (F Hread (fun _ _ => eq_refl) (fun _ => eq_refl)).
  assert (Hnil : forall x : ClusterConfig.t * Storage, (fst x, storage_after_all [] (snd x)) = x)
    by (intros [c st]; reflexivity).
  specialize (F Hnil clock e s a s' w H). cbn [fst snd] in F.
  now injection F as _ F.
Qed.

(** ** The configuration after a run *)

(** Whether the head node brings both security groups and additional
    security groups: the case in which a read of the full group set writes
    into the configuration. *)
Definition head_groups_shared (c : ClusterConfig.t) : bool :=
  truthy_list (HeadNodeNetworking.security_groups (head_networking c))
  && truthy_list (HeadNodeNetworking.additional_security_groups (head_networking c)).

Lemma extend_head_security_groups_unshared c :
  head_groups_shared c = false -> extend_head_security_groups c = c.
Proof. unfold head_groups_shared, extend_head_security_groups. now intros ->. Qed.

Lemma extend_head_security_groups_twice c :
  head_groups_shared c = true ->
  HeadNodeNetworking.security_groups
    (head_networking (extend_head_security_groups (extend_head_security_groups c))) =
    Some (list_or_nil (HeadNodeNetworking.security_groups (head_networking c))
            ++ list_or_nil (HeadNodeNetworking.additional_security_groups (head_networking c))
            ++ list_or_nil (HeadNodeNetworking.additional_security_groups (head_networking c))).
Proof.
  unfold head_groups_shared, extend_head_security_groups. intros H. rewrite H.
  destruct (HeadNodeNetworking.security_groups (head_networking c)) as [[|g gs]|] eqn:Hsg;
    try discriminate H.
  destruct (HeadNodeNetworking.additional_security_groups (head_networking c)) as [[|x xs]|]
    eqn:Hadd; try discriminate H.
  cbn. rewrite Hadd. cbn. now rewrite <- app_assoc.
Qed.

(** X17.  A finished run has read the head node's full group set twice,
    for the network interface and for the launch template, and leaves the
    configuration as these two reads leave it: every field is as it was,
    except that a head node with both security groups and additional
    security groups ends with the additional groups appended twice to its
    security groups.  When the head node brings no security groups of its
    own, or no additional ones, the configuration after the run is the
    configuration before it. *)
Theorem configuration_after_synthesis e clock cluster_config s w :
  ClusterCdkStack e clock cluster_config = Done tt s w ->
  config s = extend_head_security_groups (extend_head_security_groups cluster_config) /\
  set_head_security_groups None (config s) = set_head_security_groups None cluster_config /\
  (head_groups_shared cluster_config = false -> config s = cluster_config) /\
  (head_groups_shared cluster_config = true ->
   HeadNodeNetworking.security_groups (head_networking (config s)) =
     Some (list_or_nil (HeadNodeNetworking.security_groups (head_networking cluster_config))
             ++ list_or_nil (HeadNodeNetworking.additional_security_groups
                               (head_networking cluster_config))
             ++ list_or_nil (HeadNodeNetworking.additional_security_groups
                               (head_networking cluster_config)))).
Proof.
  intros Hrun. apply __init___config in Hrun. cbn [config new_stack] in Hrun.
  split; [exact Hrun|]. rewrite Hrun. split; [|split].
  - eapply similar_trans; apply similar_extend.
  - intros H. now rewrite !(extend_head_security_groups_unshared _ H).
  - apply extend_head_security_groups_twice.
Qed.


(** ** The storage record of a run *)

Lemma _add_outputs_inv e s a s' w :
  _add_outputs e s = Done a s' w -> s' = s /\ ids_are_strings (storage s) = true.
Proof.
  unfold _add_outputs, ids_are_strings. rewrite bind_get. intros H.
  destruct (forallb (fun t => forallb (fun info => is_str (id info))
                                (shared_storage_mappings (storage s) t)) SharedStorageTypes)
    eqn:Hids.
  - split; [|reflexivity].
    rewrite (bind_prepend _ _ _ _ _ _ _ (ids_outputs_run e s _ Hids)) in H.
    apply prepend_inv in H. destruct H as (rest & H & _).
    destruct (head_node_instance (attrs s)); [|discriminate].
    unfold add_resource in H. rewrite bind_ret, !bind_emit in H. cbn in H. now inversion H.
  - unfold bind at 1 in H. now rewrite (ids_outputs_raise e s _ Hids) in H.
Qed.

(** X18.  The storage record of a finished run is the one the loop over
    the storage declarations of the configuration builds from an empty
    record: no other step of a run writes ids, options or attributes.  So
    the ids recorded for a type are as many as the declarations of that
    type, counting each volume of a RAID declaration, and each of them is a
    string. *)
Theorem storage_of_run e clock cluster_config s w :
  ClusterCdkStack e clock cluster_config = Done tt s w ->
  (exists s0 w0,
     for_each (list_or_nil (ClusterConfig.shared_storage cluster_config)) _add_shared_storage
       e (new_stack cluster_config) = Done tt s0 w0 /\
     storage s = storage s0) /\
  (forall t,
     List.length (shared_storage_mappings (storage s) t) =
       list_sum (map (entries t) (list_or_nil (ClusterConfig.shared_storage cluster_config)))) /\
  ids_are_strings (storage s) = true.
Proof.
  intros Hrun. pose proof (__init___storage _ _ _ _ _ _ Hrun) as Hstorage.
  cbn [config storage new_stack] in Hstorage. split; [|split].
  - rewrite for_each_storage_run. do 2 eexists. split; [reflexivity|]. exact Hstorage.
  - intros t. rewrite Hstorage.
    generalize (list_or_nil (ClusterConfig.shared_storage cluster_config)).
    intros l.
    assert (Hcount : forall st,
              List.length (shared_storage_mappings (storage_after_all l st) t) =
                List.length (shared_storage_mappings st t) + list_sum (map (entries t) l)).
    { induction l as [|d rest IH]; intros st; simpl; [lia|].
      unfold storage_after_all in *. simpl. rewrite IH, storage_after_length. lia. }
    now rewrite Hcount.
  - unfold ClusterCdkStack, __init__ in Hrun.
    do 5 (apply bind_inv in Hrun; destruct Hrun as (? & ? & ? & ? & _ & Hrun & ->)).
    apply _add_outputs_inv in Hrun. now destruct Hrun as [-> Hids].
Qed.

(** A declaration that names no storage and asks for none to be created. *)
Definition nameless (d : SharedStorage) : bool :=
  match d with
  | StorageEbs b => is_None (SharedEbs.volume_id b) && negb (truthy (SharedEbs.mount_dir b))
  | StorageEfs f => is_None (SharedEfs.file_system_id f) && negb (truthy (SharedEfs.mount_dir f))
  | StorageFsx f => is_None (SharedFsx.file_system_id f) && negb (truthy (SharedFsx.mount_dir f))
  | StorageRaid _ _ => false
  end.

Lemma is_None_eq v : is_None v = true -> v = PNone.
Proof. now destruct v. Qed.

Lemma storage_after_nameless d st :
  nameless d = true ->
  In {| id := PNone; storage_config := d |}
    (shared_storage_mappings (storage_after d st) (shared_storage_type d)).
Proof.
  intros H. destruct d as [b|b r|f|f]; cbn [nameless] in H; try discriminate;
    apply andb_true_iff in H; destruct H as [Hid Hdir];
    apply is_None_eq in Hid; apply negb_true_iff in Hdir;
    cbn [storage_after shared_storage_type shared_storage_mappings set_mappings];
    rewrite update_same; apply in_or_app; right; left; f_equal.
  - unfold ebs_id_of, ebs_creates. now rewrite Hid, Hdir.
  - unfold efs_id_of, efs_creates. now rewrite Hid, Hdir.
  - unfold fsx_id_of, fsx_creates. now rewrite Hid, Hdir.
Qed.

Lemma storage_after_all_nameless l d : forall st,
  In d l -> nameless d = true -> ids_are_strings (storage_after_all l st) = false.
Proof.
  intros st Hin Hd. apply in_split in Hin. destruct Hin as (l1 & l2 & ->).
  rewrite storage_after_all_app. cbn [storage_after_all fold_left].
  fold (storage_after_all l2 (storage_after d (storage_after_all l1 st))).
  destruct (storage_after_all_mappings l2 (shared_storage_type d)
              (storage_after d (storage_after_all l1 st))) as (added & Hadded).
  pose proof (storage_after_nameless d (storage_after_all l1 st) Hd) as Hin.
  apply Bool.not_true_is_false. intros Hids.
  unfold ids_are_strings in Hids. rewrite forallb_forall in Hids.
  assert (Ht : In (shared_storage_type d) SharedStorageTypes)
    by (destruct (shared_storage_type d); cbn; tauto).
  specialize (Hids _ Ht). rewrite Hadded, forallb_app in Hids.
  apply andb_true_iff in Hids. destruct Hids as [Hids _].
  rewrite forallb_forall in Hids. specialize (Hids _ Hin). discriminate Hids.
Qed.

(** X19.  A run for a configuration with an EBS, EFS or FSx declaration
    that has neither an id (None) nor a mount directory never finishes: no
    template is produced for it, whatever the clock, the inventory and the
    other settings are. *)
Theorem nameless_storage_never_synthesised e clock cluster_config d :
  In d (list_or_nil (ClusterConfig.shared_storage cluster_config)) ->
  nameless d = true ->
  exists x, ClusterCdkStack e clock cluster_config = Raised x.
Proof.
  intros Hin Hd.
  destruct (ClusterCdkStack e clock cluster_config) as [[] s w|x] eqn:Hrun; [|eauto].
  exfalso.
  pose proof (__init___storage _ _ _ _ _ _ Hrun) as Hstorage.
  cbn [config storage new_stack] in Hstorage.
  unfold ClusterCdkStack, __init__ in Hrun.
  do 5 (apply bind_inv in Hrun; destruct Hrun as (? & ? & ? & ? & _ & Hrun & ->)).
  apply _add_outputs_inv in Hrun. destruct Hrun as [-> Hids].
  rewrite Hstorage, (storage_after_all_nameless _ d _ Hin Hd) in Hids. discriminate Hids.
Qed.

(** ** The head node's launch template and instance *)

(** A method that only reads: it leaves the object as it is and emits
    nothing. *)
Definition pure_method {A : Type} (m : M A) : Prop :=
  forall e s a s' w, m e s = Done a s' w -> s' = s /\ w = [].

Lemma pure_ret {A : Type} (a : A) : pure_method (ret a).
Proof. intros e s a' s' w H. inversion H; subst. now split. Qed.

Lemma pure_get : pure_method get.
Proof. intros e s a' s' w H. inversion H; subst. now split. Qed.

Lemma pure_ask : pure_method ask.
Proof. intros e s a' s' w H. inversion H; subst. now split. Qed.

Lemma pure_raise {A : Type} x : pure_method (@raise A x).
Proof. intros e s a' s' w H. discriminate H. Qed.

Lemma pure_lift {A : Type} (r : result A) : pure_method (lift r).
Proof. intros e s a' s' w H. unfold lift in H. destruct r; inversion H; subst. now split. Qed.

Lemma pure_bind {A B : Type} (m : M A) (k : A -> M B) :
  pure_method m -> (forall a, pure_method (k a)) -> pure_method (bind m k).
Proof.
  intros Hm Hk e s b s'' w H.
  apply bind_inv in H. destruct H as (a & s' & w1 & w2 & H1 & H2 & ->).
  destruct (Hm _ _ _ _ _ H1) as [-> ->]. destruct (Hk a _ _ _ _ _ H2) as [-> ->]. now split.
Qed.

Create HintDb pure.
#[export] Hint Resolve pure_ret pure_get pure_ask pure_raise pure_lift : pure.

Ltac pure_step :=
  first
    [ solve [auto with pure]
    | apply pure_bind; [|intros ?]
    | match goal with
      | |- pure_method (if ?c then _ else _) => destruct c
      | |- pure_method (match ?x with _ => _ end) => destruct x
      end ].

Ltac pure_auto := repeat pure_step.

Lemma pure_condition_is_slurm : pure_method _condition_is_slurm.
Proof. unfold _condition_is_slurm. pure_auto. Qed.

Lemma pure_ref_of x : pure_method (ref_of x).
Proof. unfold ref_of. pure_auto. Qed.

#[export] Hint Resolve pure_condition_is_slurm pure_ref_of : pure.

Lemma pure_dna_json : pure_method dna_json.
Proof. unfold dna_json. pure_auto. Qed.

Lemma pure_cfn_init dna ltc : pure_method (cfn_init dna ltc).
Proof. unfold cfn_init. pure_auto. Qed.

Lemma pure_get_launch_templates_config : pure_method _get_launch_templates_config.
Proof. unfold _get_launch_templates_config. pure_auto. Qed.

(** The list object a read of the full group set returns. *)
Definition head_group_object (s : stack) (group_set : list string) : list_object :=
  if truthy_list (HeadNodeNetworking.security_groups (head_networking (config s)))
  then ConfigHeadSecurityGroups
  else NewList group_set.

Lemma _get_head_node_security_groups_full_outcome e s :
  _get_head_node_security_groups_full e s =
    match head_group_set s with
    | Ok group_set =>
        Done (head_group_object s group_set)
          (with_config (extend_head_security_groups (config s)) s) []
    | Raise x => Raised x
    end.
Proof.
  unfold _get_head_node_security_groups_full, _get_head_node_security_groups, head_group_set,
    head_group_object, extend_head_security_groups, ref_of, list_extend, list_read.
  mrun.
  destruct (truthy_list (HeadNodeNetworking.security_groups (head_networking (config s)))) eqn:Hsg;
    cbn [rbind andb]; mrun.
  - destruct (truthy_list
                (HeadNodeNetworking.additional_security_groups (head_networking (config s))));
      mrun; [reflexivity|].
    now rewrite with_config_id.
  - rewrite with_config_id.
    destruct (_head_security_group (attrs s)); cbn [rbind]; mrun; [|reflexivity].
    destruct (truthy_list
                (HeadNodeNetworking.additional_security_groups (head_networking (config s))));
      mrun; now rewrite ?app_nil_r.
Qed.

(** Reading the list later, from an object with the configuration the read
    of the full group set left. *)
Lemma list_read_head_group_object e s s1 group_set :
  head_group_set s = Ok group_set ->
  config s1 = extend_head_security_groups (config s) ->
  list_read (head_group_object s group_set) e s1 = Done group_set s1 [].
Proof.
  unfold head_group_set, head_group_object, extend_head_security_groups, list_read.
  intros Hg Hc.
  destruct (truthy_list (HeadNodeNetworking.security_groups (head_networking (config s))));
    cbn [rbind andb] in *; [|reflexivity].
  mrun. rewrite Hc. inversion Hg; subst.
  destruct (truthy_list
              (HeadNodeNetworking.additional_security_groups (head_networking (config s)))).
  - reflexivity.
  - now rewrite app_nil_r.
Qed.

Lemma set_head_security_groups_same c :
  set_head_security_groups (HeadNodeNetworking.security_groups (head_networking c)) c = c.
Proof.
  unfold set_head_security_groups, head_networking.
  destruct c as [? ? ? ? head ? ? ? ? ? ? ? ? ? ? ? ? ? ? ? ? ? ? ?]. cbn.
  destruct head as [networking ? ? ? ? ? ? ? ? ? ? ?]. cbn.
  now destruct networking.
Qed.

(** The configuration a read leaves is the configuration read, with other
    security groups for the head node. *)
Lemma extend_head_security_groups_sets c :
  exists l, extend_head_security_groups c = set_head_security_groups l c.
Proof.
  unfold extend_head_security_groups. destruct (_ && _); [eauto|].
  eexists. symmetry. apply set_head_security_groups_same.
Qed.

Lemma _condition_is_batch_run e s :
  _condition_is_batch e s = Done (ClusterConfig.scheduler (config s) =? "awsbatch")%string s [].
Proof. reflexivity. Qed.

Lemma _condition_is_byos_run e s :
  _condition_is_byos e s = Done (ClusterConfig.scheduler (config s) =? "byos")%string s [].
Proof. reflexivity. Qed.

Lemma extend_head_security_groups_scheduler c :
  ClusterConfig.scheduler (extend_head_security_groups c) = ClusterConfig.scheduler c.
Proof. now destruct (extend_head_security_groups_sets c) as (l & ->). Qed.

Lemma extend_head_security_groups_interface_count c :
  HeadNode.max_network_interface_count (ClusterConfig.head_node (extend_head_security_groups c))
    = HeadNode.max_network_interface_count (ClusterConfig.head_node c).
Proof. now destruct (extend_head_security_groups_sets c) as (l & ->). Qed.

Lemma extend_head_security_groups_subnet_id c :
  HeadNodeNetworking.subnet_id
    (HeadNode.networking (ClusterConfig.head_node (extend_head_security_groups c)))
    = HeadNodeNetworking.subnet_id (head_networking c).
Proof. now destruct (extend_head_security_groups_sets c) as (l & ->). Qed.

(** The resources the head node's instance waits for. *)
Definition head_node_dependencies (s : stack) : list string :=
  (if (ClusterConfig.scheduler (config s) =? "awsbatch")%string then []
   else match compute_fleet_resources (attrs s) with
        | Some fleet => [fleet_id fleet]
        | None => []
        end)
  ++ match byos_stack (attrs s) with
     | Some b => if (ClusterConfig.scheduler (config s) =? "byos")%string then [b] else []
     | None => []
     end.

(** X20.  When the head node is added, exactly two resources are declared
    and nothing is asked of the inventory: the launch template and the
    instance launched from its latest version.  The template has one
    network interface per card, max(1, [max_network_interface_count]) of
    them with device indices 0, 1, ...: the first is the head node's
    network interface and carries no groups of its own, every other one
    lies in the head node's subnet, on the card of its index, with the full
    group set as this read returns it.  The instance depends on the compute
    fleet, which exists by then, unless the scheduler is AWS Batch, and on
    the BYOS substack when there is one.  The configuration is the one a
    read of the full group set leaves. *)
Theorem head_node_launch_template e s a s' w :
  _add_head_node e s = Done a s' w ->
  exists group_set eni data metadata rest,
    head_group_set s = Ok group_set /\
    _head_eni (attrs s) = Some eni /\
    a = "HeadNode" /\
    s' = with_config (extend_head_security_groups (config s)) s /\
    w = [ Resource (CfnLaunchTemplate "HeadNodeLaunchTemplate" None data metadata);
          Resource (CfnInstance "HeadNode" (Ref "HeadNodeLaunchTemplate")
                      (GetAtt "HeadNodeLaunchTemplate" "LatestVersionNumber")
                      (head_node_dependencies s)) ] /\
    lt_network_interfaces data =
      {| device_index := 0; network_card_index := None;
         network_interface_id := Some (Ref eni);
         associate_public_ip_address := PNone; interface_type := None;
         groups := None; nic_subnet_id := None |} :: rest /\
    map device_index (lt_network_interfaces data) =
      seq 0 (Nat.max 1 (HeadNode.max_network_interface_count
                          (ClusterConfig.head_node (config s)))) /\
    Forall (fun i =>
              network_card_index i = Some (device_index i) /\
              network_interface_id i = None /\
              groups i = Some group_set /\
              nic_subnet_id i = Some (HeadNodeNetworking.subnet_id (head_networking (config s))))
      rest /\
    ((ClusterConfig.scheduler (config s) =? "awsbatch")%string = false ->
     compute_fleet_resources (attrs s) <> None).
Proof.
  intros H. unfold _add_head_node in H.
  apply bind_inv in H. destruct H as (o & s1 & w1 & w2 & Hread & H & ->).
  rewrite _get_head_node_security_groups_full_outcome in Hread.
  destruct (head_group_set s) as [group_set|] eqn:Hgroups; [|discriminate].
  inversion Hread; subst o s1 w1; clear Hread.
  rewrite bind_ask, bind_get in H.
  set (s1 := with_config (extend_head_security_groups (config s)) s) in *.
  change (attrs s1) with (attrs s) in H.
  destruct (_head_eni (attrs s)) as [eni|] eqn:Heni; [|discriminate].
  cbn [ref_of] in H. rewrite bind_ret in H.
  rewrite (bind_prepend _ _ _ _ _ _ _
             (list_read_head_group_object e s s1 group_set Hgroups eq_refl)), prepend_nil in H.
  apply bind_inv in H. destruct H as (dna & s2 & w3 & w4 & Hdna & H & ->).
  destruct (pure_dna_json _ _ _ _ _ Hdna) as [-> ->]. clear Hdna.
  rewrite (bind_prepend _ _ _ _ _ _ _ (_condition_is_batch_run e s1)), prepend_nil in H.
  apply bind_inv in H. destruct H as (ltc & s2 & w3 & w5 & Hltc & H & ->).
  assert (Hpure : s2 = s1 /\ w3 = []).
  { revert Hltc. generalize (negb (ClusterConfig.scheduler (config s1) =? "awsbatch")%string).
    intros [|] Hltc.
    - apply bind_inv in Hltc. destruct Hltc as (c & ? & ? & ? & Hc & Hret & ->).
      destruct (pure_get_launch_templates_config _ _ _ _ _ Hc) as [-> ->].
      inversion Hret; subst. now split.
    - inversion Hltc; subst. now split. }
  destruct Hpure as [-> ->]. clear Hltc.
  apply bind_inv in H. destruct H as (init & s2 & w3 & w6 & Hinit & H & ->).
  destruct (pure_cfn_init _ _ _ _ _ _ _ Hinit) as [-> ->]. clear Hinit.
  unfold add_resource in H. rewrite bind_emit in H.
  apply prepend_inv in H. destruct H as (w7 & H & ->).
  subst s1. cbn [config with_config] in *.
  rewrite extend_head_security_groups_scheduler in H.
  rewrite extend_head_security_groups_interface_count, extend_head_security_groups_subnet_id.
  assert (Hrest : a = "HeadNode" /\
                  s' = with_config (extend_head_security_groups (config s)) s /\
                  w7 = [Resource
                          (CfnInstance "HeadNode" (Ref "HeadNodeLaunchTemplate")
                             (GetAtt "HeadNodeLaunchTemplate" "LatestVersionNumber")
                             (head_node_dependencies s))] /\
                  ((ClusterConfig.scheduler (config s) =? "awsbatch")%string = false ->
                   compute_fleet_resources (attrs s) <> None)).
  { unfold head_node_dependencies.
    destruct (ClusterConfig.scheduler (config s) =? "awsbatch")%string; cbn [negb] in H.
    - rewrite bind_ret, (bind_prepend _ _ _ _ _ _ _ (_condition_is_byos_run e _)),
        prepend_nil, bind_emit in H.
      cbn [config with_config] in H. rewrite extend_head_security_groups_scheduler in H.
      inversion H; subst. repeat split. discriminate.
    - destruct (compute_fleet_resources (attrs s)); [|discriminate].
      rewrite bind_ret, (bind_prepend _ _ _ _ _ _ _ (_condition_is_byos_run e _)),
        prepend_nil, bind_emit in H.
      cbn [config with_config] in H. rewrite extend_head_security_groups_scheduler in H.
      inversion H; subst. repeat split. discriminate. }
  destruct Hrest as (-> & -> & -> & Hfleet).
  do 5 eexists. split; [reflexivity|]. split; [reflexivity|]. split; [reflexivity|].
  split; [reflexivity|]. split; [reflexivity|]. cbn [lt_network_interfaces].
  split; [reflexivity|]. split; [|split; [|exact Hfleet]].
  - cbn [map device_index]. rewrite map_device_index_seq by reflexivity.
    destruct (HeadNode.max_network_interface_count (ClusterConfig.head_node (config s)))
      as [|[|n]]; reflexivity.
  - apply Forall_forall. intros i Hi. apply in_map_iff in Hi.
    destruct Hi as (n & <- & _). now repeat split.
Qed.

(** * The further properties at concrete inputs *)

(** A queue with an enabled placement group and no id. *)
Definition queue_with_placement_group : Queue.t :=
  {| Queue.name := "q1";
     Queue.networking :=
       {| QueueNetworking.security_groups := None;
          QueueNetworking.additional_security_groups := None;
          QueueNetworking.placement_group :=
            Some {| PlacementGroup.enabled := true; PlacementGroup.id := PNone |};
          QueueNetworking.assign_public_ip := PNone;
          QueueNetworking.subnet_ids := ["subnet-a"] |};
     Queue.compute_resources := [Sample.compute_resource "cr1" 1 false];
     Queue.custom_actions := None;
     Queue.capacity_type := ONDEMAND;
     Queue.ephemeral_volume_mount_dir := None |}.

Lemma managed_placement_groups_witness :
  dict_lookup "q1"
    (fst (ComputeFleetConstruct._add_placement_groups Sample.helpers
            [queue_with_placement_group] [])) = Ok "PlacementGroupq1".
Proof.
  apply (proj2 (proj2 (ComputeFleetFacts.managed_placement_groups Sample.helpers
                         [queue_with_placement_group])) queue_with_placement_group).
  - now left.
  - reflexivity.
Defined.

(** The compute fleet of the sample Slurm cluster. *)
Definition sample_fleet : ComputeFleetConstruct.t :=
  {| ComputeFleetConstruct.stack_name := "cluster";
     ComputeFleetConstruct._config := Sample.slurm_cluster None;
     ComputeFleetConstruct._log_group := Some (PStr "log-group");
     ComputeFleetConstruct._cleanup_lambda := "CleanupResourcesFunctionConstruct";
     ComputeFleetConstruct._cleanup_lambda_role := None;
     ComputeFleetConstruct._compute_security_group := Some "ComputeSecurityGroup";
     ComputeFleetConstruct._shared_storage_mappings := fun _ => [];
     ComputeFleetConstruct._shared_storage_options := fun _ => "";
     ComputeFleetConstruct._shared_storage_attributes := fun _ => [];
     ComputeFleetConstruct._compute_node_instance_profiles :=
       [("q1", compute_instance_profile "q1")];
     ComputeFleetConstruct._cluster_hosted_zone := Some "ClusterHostedZone";
     ComputeFleetConstruct._dynamodb_table := Some "DynamoDBTable" |}.

Lemma compute_fleet_built_witness :
  exists templates launch_templates,
    ComputeFleetConstruct._add_resources Sample.helpers sample_fleet =
      Ok (templates,
          launch_templates
          ++ [ CfnCustomResource "TerminateComputeFleetCustomResource"
                 (GetAtt "CleanupResourcesFunctionConstruct" "Arn")
                 [("StackName", "cluster"); ("Action", "TERMINATE_EC2_INSTANCES")]
                 ["ComputeSecurityGroup"] ]) /\
    map ComputeFleetConstruct.resource_id launch_templates = ["LaunchTemplateq1c5n.18xlarge"].
Proof.
  destruct (ComputeFleetFacts.compute_fleet_built Sample.helpers sample_fleet)
    as (templates & launch_templates & Hrun & Hids & _).
  - intros queue [<-|[]] _. repeat split; discriminate.
  - split; [eexists; reflexivity|]. split; [eexists; reflexivity|]. discriminate.
  - exists templates, launch_templates. split; [exact Hrun|exact Hids].
Defined.

(** A head node with a security group of its own and an additional one. *)
Definition cluster_with_shared_head_groups : ClusterConfig.t :=
  Sample.cluster "slurm" (Sample.head_node (Some ["sg-own"]) (Some ["sg-more"]))
    [Sample.queue "q1" None [Sample.compute_resource "cr1" 1 false]] None.

Lemma configuration_after_synthesis_witness :
  exists s w,
    ClusterCdkStack (Sample.env PNone) (Sample.clock 0) cluster_with_shared_head_groups
      = Done tt s w /\
    HeadNodeNetworking.security_groups (head_networking (config s))
      = Some ["sg-own"; "sg-more"; "sg-more"].
Proof.
  assert (Hrun : exists s w,
             ClusterCdkStack (Sample.env PNone) (Sample.clock 0) cluster_with_shared_head_groups
               = Done tt s w)
    by (do 2 eexists; vm_compute; reflexivity).
  destruct Hrun as (s & w & Hrun). exists s, w. split; [exact Hrun|].
  exact (proj2 (proj2 (proj2 (configuration_after_synthesis _ _ _ _ _ Hrun))) eq_refl).
Defined.

Lemma inventory_calls_witness :
  exists s w,
    ClusterCdkStack (Sample.env PNone) (Sample.clock 0) (Sample.slurm_cluster None)
      = Done tt s w /\
    lookups w = [].
Proof.
  assert (Hrun : exists s w,
             ClusterCdkStack (Sample.env PNone) (Sample.clock 0) (Sample.slurm_cluster None)
               = Done tt s w)
    by (do 2 eexists; vm_compute; reflexivity).
  destruct Hrun as (s & w & Hrun). exists s, w. split; [exact Hrun|].
  apply (proj2 (inventory_calls _ _ _ _ _ Hrun)); [reflexivity|now left].
Defined.

Lemma log_group_of_run_witness :
  exists s w,
    ClusterCdkStack (Sample.env PNone) (Sample.clock 0) (Sample.slurm_cluster None)
      = Done tt s w /\
    log_group_name s = PStr "/aws/parallelcluster/cluster-202111050900" /\
    In (Resource (CfnLogGroup "CloudWatchLogGroup"
                    (PStr "/aws/parallelcluster/cluster-202111050900"))) w.
Proof.
  assert (Hrun : exists s w,
             ClusterCdkStack (Sample.env PNone) (Sample.clock 0) (Sample.slurm_cluster None)
               = Done tt s w)
    by (do 2 eexists; vm_compute; reflexivity).
  destruct Hrun as (s & w & Hrun). exists s, w. split; [exact Hrun|].
  destruct (proj2 (log_group_of_run _ _ _ _ _ Hrun) eq_refl) as (Hname & _ & Hgroup & _).
  split; [exact Hname|exact Hgroup].
Defined.

(** The object of an AWS Batch cluster when its head node is added. *)
Definition stack_before_head_node : stack :=
  with_attrs
    {| log_group := Some "CloudWatchLogGroup";
       _head_node_instance_profile := GetAtt "HeadNodeIamResources" "instance_profile";
       _compute_instance_profiles := [];
       _head_security_group := Some "HeadNodeSecurityGroup";
       _compute_security_group := Some "ComputeSecurityGroup";
       _head_eni := Some "HeadNodeENI";
       scheduler_resources := None;
       compute_fleet_resources := None;
       byos_stack := None;
       wait_condition_handle := Some "HeadNodeWaitConditionHandle20211105090000";
       head_node_instance := None |}
    (new_stack
       (Sample.cluster "awsbatch" (Sample.head_node None (Some ["sg-more"]))
          [Sample.queue "q1" None [Sample.compute_resource "cr1" 1 false]] None)).

Lemma head_node_launch_template_witness :
  exists s' data metadata,
    _add_head_node (Sample.env PNone) stack_before_head_node =
      Done "HeadNode" s'
        [ Resource (CfnLaunchTemplate "HeadNodeLaunchTemplate" None data metadata);
          Resource (CfnInstance "HeadNode" (Ref "HeadNodeLaunchTemplate")
                      (GetAtt "HeadNodeLaunchTemplate" "LatestVersionNumber") []) ] /\
    map device_index (lt_network_interfaces data) = [0; 1] /\
    map groups (lt_network_interfaces data)
      = [None; Some [Ref "HeadNodeSecurityGroup"; "sg-more"]].
Proof.
  assert (Hrun : exists a s' w,
             _add_head_node (Sample.env PNone) stack_before_head_node = Done a s' w)
    by (do 3 eexists; vm_compute; reflexivity).
  destruct Hrun as (a & s' & w & Hrun).
  destruct (head_node_launch_template _ _ _ _ _ Hrun)
    as (group_set & eni & data & metadata & rest & Hgroups & _ & -> & _ & -> & Hfirst
        & Hindices & Hrest & _).
  exists s', data, metadata. split; [exact Hrun|]. split; [exact Hindices|].
  injection Hgroups as <-. rewrite Hfirst in *. cbn [map groups] in *.
  injection Hindices as Hindices.
  destruct rest as [|i [|]]; try discriminate Hindices.
  inversion Hrest as [|? ? (_ & _ & Hi & _) _]; subst. cbn [map]. now rewrite Hi.
Defined.

(** Two volumes and a RAID array of two. *)
Lemma storage_of_run_witness :
  exists s w,
    ClusterCdkStack (Sample.env PNone) (Sample.clock 0)
      (Sample.slurm_cluster
         (Some [ StorageEbs (Sample.ebs (PStr "/a") PNone);
                 StorageRaid (Sample.ebs (PStr "/raid") PNone) Sample.raid1;
                 StorageEbs (Sample.ebs (PStr "/b") (PStr "vol-1")) ])) = Done tt s w /\
    List.length (shared_storage_mappings (storage s) EBS) = 2 /\
    List.length (shared_storage_mappings (storage s) RAID) = 2.
Proof.
  assert (Hrun : exists s w,
             ClusterCdkStack (Sample.env PNone) (Sample.clock 0)
               (Sample.slurm_cluster
                  (Some [ StorageEbs (Sample.ebs (PStr "/a") PNone);
                          StorageRaid (Sample.ebs (PStr "/raid") PNone) Sample.raid1;
                          StorageEbs (Sample.ebs (PStr "/b") (PStr "vol-1")) ])) = Done tt s w)
    by (do 2 eexists; vm_compute; reflexivity).
  destruct Hrun as (s & w & Hrun). exists s, w. split; [exact Hrun|].
  destruct (storage_of_run _ _ _ _ _ Hrun) as (_ & Hcount & _).
  split; [exact (Hcount EBS)|exact (Hcount RAID)].
Defined.

Lemma nameless_storage_never_synthesised_witness :
  exists x,
    ClusterCdkStack (Sample.env PNone) (Sample.clock 0)
      (Sample.slurm_cluster (Some [StorageEfs (Sample.efs PNone PNone PNone)])) = Raised x.
Proof.
  apply (nameless_storage_never_synthesised (Sample.env PNone) (Sample.clock 0)
           (Sample.slurm_cluster (Some [StorageEfs (Sample.efs PNone PNone PNone)]))
           (StorageEfs (Sample.efs PNone PNone PNone))).
  - now left.
  - reflexivity.
Defined.
